(** * Studio dashboard: reservation context, list views, analytics and the
      inbound e-mail hook

    A shallow embedding of

    - [context/DataContext.tsx]    (the in-memory reservation collection),
    - [components/ViewReservations.tsx]     (search / date filter, payment toggles),
    - [components/ReservationAnalytics.tsx] (period buckets),
    - the inbound e-mail edge function      (payload to [emails] row).

    Strings are held in UTF-8, integers are [Z], prices are binary64
    floats, the browser's time zone is a pair of offset functions,
    JavaScript exceptions are an explicit completion type, and React state
    and the database client are threaded through a small
    state-and-exception monad. *)

From Stdlib Require Import ZArith String Ascii List Bool Lia Floats.
From Stdlib Require Import DecimalString DecimalZ DecimalPos Permutation Sorted.
From Stdlib Require Uint63.
From Stdlib Require Import QArith Qabs.
Import ListNotations.

Local Open Scope string_scope.
Local Open Scope Z_scope.

(* ================================================================== *)
(** ** The host language: strings, numbers, dates, truthiness *)
(* ================================================================== *)

Module Js.

(** [String.prototype.startsWith]: [q] is read off the front of [s]. *)
Fixpoint startsWith (s q : string) {struct q} : bool :=
  match q with
  | EmptyString => true
  | String c q' =>
      match s with
      | EmptyString => false
      | String d s' => Ascii.eqb c d && startsWith s' q'
      end
  end.

(** [String.prototype.includes]: some suffix of [s] starts with [q]. *)
Fixpoint includes (s q : string) : bool :=
  startsWith s q ||
  match s with
  | EmptyString => false
  | String _ s' => includes s' q
  end.

(** A byte as a number, and the byte of a number below 256. *)
Definition byte (c : ascii) : Z := Z.of_N (N_of_ascii c).
Definition char (n : Z) : ascii := ascii_of_N (Z.to_N n).

(** Strings are held in UTF-8.  A scalar value is a code point outside
    the surrogate range; a byte that starts no well-formed sequence is
    kept as [stray] plus the byte, above every code point. *)
Definition stray : Z := 0x110000.

Definition scalar (p : Z) : bool :=
  (0 <=? p) && (p <? 0x110000) && negb ((0xD800 <=? p) && (p <=? 0xDFFF)).

Definition continuation (b : Z) : bool := (0x80 <=? b) && (b <=? 0xBF).

(** The code point of a sequence of two, three or four bytes, when the
    sequence is well formed. *)
Definition point2 (b0 b1 : Z) : option Z :=
  let p := (b0 - 0xC0) * 64 + (b1 - 0x80) in
  if (0xC0 <=? b0) && (b0 <=? 0xDF) && continuation b1 && (0x80 <=? p)
  then Some p else None.

Definition point3 (b0 b1 b2 : Z) : option Z :=
  let p := ((b0 - 0xE0) * 64 + (b1 - 0x80)) * 64 + (b2 - 0x80) in
  if (0xE0 <=? b0) && (b0 <=? 0xEF) && continuation b1 && continuation b2
     && (0x800 <=? p) && scalar p
  then Some p else None.

Definition point4 (b0 b1 b2 b3 : Z) : option Z :=
  let p := (((b0 - 0xF0) * 64 + (b1 - 0x80)) * 64 + (b2 - 0x80)) * 64
           + (b3 - 0x80) in
  if (0xF0 <=? b0) && (b0 <=? 0xF7) && continuation b1 && continuation b2
     && continuation b3 && (0x10000 <=? p) && (p <? 0x110000)
  then Some p else None.

(** The code points of a string. *)
Fixpoint codePoints (s : string) : list Z :=
  match s with
  | EmptyString => []
  | String c0 s1 =>
      let b0 := byte c0 in
      if b0 <? 0x80 then b0 :: codePoints s1
      else
        let alone := (stray + b0) :: codePoints s1 in
        match s1 with
        | String c1 s2 =>
            match point2 b0 (byte c1) with
            | Some p => p :: codePoints s2
            | None =>
                match s2 with
                | String c2 s3 =>
                    match point3 b0 (byte c1) (byte c2) with
                    | Some p => p :: codePoints s3
                    | None =>
                        match s3 with
                        | String c3 s4 =>
                            match point4 b0 (byte c1) (byte c2) (byte c3) with
                            | Some p => p :: codePoints s4
                            | None => alone
                            end
                        | EmptyString => alone
                        end
                    end
                | EmptyString => alone
                end
            end
        | EmptyString => alone
        end
  end.

(** The bytes of one code point. *)
Definition utf8 (p : Z) : string :=
  if p <? 0x80 then String (char p) EmptyString
  else if p <? 0x800 then
    String (char (0xC0 + p / 64)) (String (char (0x80 + p mod 64)) EmptyString)
  else if p <? 0x10000 then
    String (char (0xE0 + p / 4096))
      (String (char (0x80 + (p / 64) mod 64))
         (String (char (0x80 + p mod 64)) EmptyString))
  else if p <? stray then
    String (char (0xF0 + p / 262144))
      (String (char (0x80 + (p / 4096) mod 64))
         (String (char (0x80 + (p / 64) mod 64))
            (String (char (0x80 + p mod 64)) EmptyString)))
  else String (char (p - stray)) EmptyString.

(** [String.fromCodePoint(...points)] *)
Fixpoint fromCodePoints (points : list Z) : string :=
  match points with
  | [] => EmptyString
  | p :: points' => utf8 p ++ fromCodePoints points'
  end.

Definition inRanges (ranges : list (Z * Z)) (p : Z) : bool :=
  existsb (fun r => (fst r <=? p) && (p <=? snd r)) ranges.

(** The lower-case mappings of the Unicode character database (version
    14.0) that give one code point: every [step]-th code point from
    [first] to [last] has its small form [shift] further on. *)
Definition lowerTable : list (Z * Z * Z * Z) :=
  [(0x41, 0x5A, 1, 32); (0xC0, 0xD6, 1, 32); (0xD8, 0xDE, 1, 32);
   (0x100, 0x12E, 2, 1); (0x132, 0x136, 2, 1); (0x139, 0x147, 2, 1);
   (0x14A, 0x176, 2, 1); (0x178, 0x178, 1, -121); (0x179, 0x17D, 2, 1);
   (0x181, 0x181, 1, 210); (0x182, 0x184, 2, 1); (0x186, 0x186, 1, 206);
   (0x187, 0x187, 1, 1); (0x189, 0x18A, 1, 205); (0x18B, 0x18B, 1, 1);
   (0x18E, 0x18E, 1, 79); (0x18F, 0x18F, 1, 202); (0x190, 0x190, 1, 203);
   (0x191, 0x191, 1, 1); (0x193, 0x193, 1, 205); (0x194, 0x194, 1, 207);
   (0x196, 0x196, 1, 211); (0x197, 0x197, 1, 209); (0x198, 0x198, 1, 1);
   (0x19C, 0x19C, 1, 211); (0x19D, 0x19D, 1, 213); (0x19F, 0x19F, 1, 214);
   (0x1A0, 0x1A4, 2, 1); (0x1A6, 0x1A6, 1, 218); (0x1A7, 0x1A7, 1, 1);
   (0x1A9, 0x1A9, 1, 218); (0x1AC, 0x1AC, 1, 1); (0x1AE, 0x1AE, 1, 218);
   (0x1AF, 0x1AF, 1, 1); (0x1B1, 0x1B2, 1, 217); (0x1B3, 0x1B5, 2, 1);
   (0x1B7, 0x1B7, 1, 219); (0x1B8, 0x1B8, 1, 1); (0x1BC, 0x1BC, 1, 1);
   (0x1C4, 0x1C4, 1, 2); (0x1C5, 0x1C5, 1, 1); (0x1C7, 0x1C7, 1, 2);
   (0x1C8, 0x1C8, 1, 1); (0x1CA, 0x1CA, 1, 2); (0x1CB, 0x1DB, 2, 1);
   (0x1DE, 0x1EE, 2, 1); (0x1F1, 0x1F1, 1, 2); (0x1F2, 0x1F4, 2, 1);
   (0x1F6, 0x1F6, 1, -97); (0x1F7, 0x1F7, 1, -56); (0x1F8, 0x21E, 2, 1);
   (0x220, 0x220, 1, -130); (0x222, 0x232, 2, 1); (0x23A, 0x23A, 1, 10795);
   (0x23B, 0x23B, 1, 1); (0x23D, 0x23D, 1, -163); (0x23E, 0x23E, 1, 10792);
   (0x241, 0x241, 1, 1); (0x243, 0x243, 1, -195); (0x244, 0x244, 1, 69);
   (0x245, 0x245, 1, 71); (0x246, 0x24E, 2, 1); (0x370, 0x372, 2, 1);
   (0x376, 0x376, 1, 1); (0x37F, 0x37F, 1, 116); (0x386, 0x386, 1, 38);
   (0x388, 0x38A, 1, 37); (0x38C, 0x38C, 1, 64); (0x38E, 0x38F, 1, 63);
   (0x391, 0x3A1, 1, 32); (0x3A3, 0x3AB, 1, 32); (0x3CF, 0x3CF, 1, 8);
   (0x3D8, 0x3EE, 2, 1); (0x3F4, 0x3F4, 1, -60); (0x3F7, 0x3F7, 1, 1);
   (0x3F9, 0x3F9, 1, -7); (0x3FA, 0x3FA, 1, 1); (0x3FD, 0x3FF, 1, -130);
   (0x400, 0x40F, 1, 80); (0x410, 0x42F, 1, 32); (0x460, 0x480, 2, 1);
   (0x48A, 0x4BE, 2, 1); (0x4C0, 0x4C0, 1, 15); (0x4C1, 0x4CD, 2, 1);
   (0x4D0, 0x52E, 2, 1); (0x531, 0x556, 1, 48); (0x10A0, 0x10C5, 1, 7264);
   (0x10C7, 0x10C7, 1, 7264); (0x10CD, 0x10CD, 1, 7264);
   (0x13A0, 0x13EF, 1, 38864); (0x13F0, 0x13F5, 1, 8);
   (0x1C90, 0x1CBA, 1, -3008); (0x1CBD, 0x1CBF, 1, -3008);
   (0x1E00, 0x1E94, 2, 1); (0x1E9E, 0x1E9E, 1, -7615); (0x1EA0, 0x1EFE, 2, 1);
   (0x1F08, 0x1F0F, 1, -8); (0x1F18, 0x1F1D, 1, -8); (0x1F28, 0x1F2F, 1, -8);
   (0x1F38, 0x1F3F, 1, -8); (0x1F48, 0x1F4D, 1, -8); (0x1F59, 0x1F5F, 2, -8);
   (0x1F68, 0x1F6F, 1, -8); (0x1F88, 0x1F8F, 1, -8); (0x1F98, 0x1F9F, 1, -8);
   (0x1FA8, 0x1FAF, 1, -8); (0x1FB8, 0x1FB9, 1, -8); (0x1FBA, 0x1FBB, 1, -74);
   (0x1FBC, 0x1FBC, 1, -9); (0x1FC8, 0x1FCB, 1, -86); (0x1FCC, 0x1FCC, 1, -9);
   (0x1FD8, 0x1FD9, 1, -8); (0x1FDA, 0x1FDB, 1, -100);
   (0x1FE8, 0x1FE9, 1, -8); (0x1FEA, 0x1FEB, 1, -112);
   (0x1FEC, 0x1FEC, 1, -7); (0x1FF8, 0x1FF9, 1, -128);
   (0x1FFA, 0x1FFB, 1, -126); (0x1FFC, 0x1FFC, 1, -9);
   (0x2126, 0x2126, 1, -7517); (0x212A, 0x212A, 1, -8383);
   (0x212B, 0x212B, 1, -8262); (0x2132, 0x2132, 1, 28);
   (0x2160, 0x216F, 1, 16); (0x2183, 0x2183, 1, 1); (0x24B6, 0x24CF, 1, 26);
   (0x2C00, 0x2C2F, 1, 48); (0x2C60, 0x2C60, 1, 1);
   (0x2C62, 0x2C62, 1, -10743); (0x2C63, 0x2C63, 1, -3814);
   (0x2C64, 0x2C64, 1, -10727); (0x2C67, 0x2C6B, 2, 1);
   (0x2C6D, 0x2C6D, 1, -10780); (0x2C6E, 0x2C6E, 1, -10749);
   (0x2C6F, 0x2C6F, 1, -10783); (0x2C70, 0x2C70, 1, -10782);
   (0x2C72, 0x2C72, 1, 1); (0x2C75, 0x2C75, 1, 1);
   (0x2C7E, 0x2C7F, 1, -10815); (0x2C80, 0x2CE2, 2, 1);
   (0x2CEB, 0x2CED, 2, 1); (0x2CF2, 0x2CF2, 1, 1); (0xA640, 0xA66C, 2, 1);
   (0xA680, 0xA69A, 2, 1); (0xA722, 0xA72E, 2, 1); (0xA732, 0xA76E, 2, 1);
   (0xA779, 0xA77B, 2, 1); (0xA77D, 0xA77D, 1, -35332);
   (0xA77E, 0xA786, 2, 1); (0xA78B, 0xA78B, 1, 1);
   (0xA78D, 0xA78D, 1, -42280); (0xA790, 0xA792, 2, 1);
   (0xA796, 0xA7A8, 2, 1); (0xA7AA, 0xA7AA, 1, -42308);
   (0xA7AB, 0xA7AB, 1, -42319); (0xA7AC, 0xA7AC, 1, -42315);
   (0xA7AD, 0xA7AD, 1, -42305); (0xA7AE, 0xA7AE, 1, -42308);
   (0xA7B0, 0xA7B0, 1, -42258); (0xA7B1, 0xA7B1, 1, -42282);
   (0xA7B2, 0xA7B2, 1, -42261); (0xA7B3, 0xA7B3, 1, 928);
   (0xA7B4, 0xA7C2, 2, 1); (0xA7C4, 0xA7C4, 1, -48);
   (0xA7C5, 0xA7C5, 1, -42307); (0xA7C6, 0xA7C6, 1, -35384);
   (0xA7C7, 0xA7C9, 2, 1); (0xA7D0, 0xA7D0, 1, 1); (0xA7D6, 0xA7D8, 2, 1);
   (0xA7F5, 0xA7F5, 1, 1); (0xFF21, 0xFF3A, 1, 32); (0x10400, 0x10427, 1, 40);
   (0x104B0, 0x104D3, 1, 40); (0x10570, 0x1057A, 1, 39);
   (0x1057C, 0x1058A, 1, 39); (0x1058C, 0x10592, 1, 39);
   (0x10594, 0x10595, 1, 39); (0x10C80, 0x10CB2, 1, 64);
   (0x118A0, 0x118BF, 1, 32); (0x16E40, 0x16E5F, 1, 32);
   (0x1E900, 0x1E921, 1, 34)].

Definition covers (p : Z) (entry : Z * Z * Z * Z) : bool :=
  let '(first, last, step, _) := entry in
  (first <=? p) && (p <=? last) && ((p - first) mod step =? 0).

(** The small form of one code point, where it is one code point. *)
Definition lowerOf (p : Z) : Z :=
  match find (covers p) lowerTable with
  | Some (_, _, _, shift) => p + shift
  | None => p
  end.

(** The case-ignorable characters, and the cased letters that are not
    case-ignorable, of the same version. *)
Definition caseIgnorableRanges : list (Z * Z) :=
  [(0x27, 0x27); (0x2E, 0x2E); (0x3A, 0x3A); (0x5E, 0x5E); (0x60, 0x60);
   (0xA8, 0xA8); (0xAD, 0xAD); (0xAF, 0xAF); (0xB4, 0xB4); (0xB7, 0xB8);
   (0x2B0, 0x36F); (0x374, 0x375); (0x37A, 0x37A); (0x384, 0x385);
   (0x387, 0x387); (0x483, 0x489); (0x559, 0x559); (0x55F, 0x55F);
   (0x591, 0x5BD); (0x5BF, 0x5BF); (0x5C1, 0x5C2); (0x5C4, 0x5C5);
   (0x5C7, 0x5C7); (0x5F4, 0x5F4); (0x600, 0x605); (0x610, 0x61A);
   (0x61C, 0x61C); (0x640, 0x640); (0x64B, 0x65F); (0x670, 0x670);
   (0x6D6, 0x6DD); (0x6DF, 0x6E8); (0x6EA, 0x6ED); (0x70F, 0x70F);
   (0x711, 0x711); (0x730, 0x74A); (0x7A6, 0x7B0); (0x7EB, 0x7F5);
   (0x7FA, 0x7FA); (0x7FD, 0x7FD); (0x816, 0x82D); (0x859, 0x85B);
   (0x888, 0x888); (0x890, 0x891); (0x898, 0x89F); (0x8C9, 0x902);
   (0x93A, 0x93A); (0x93C, 0x93C); (0x941, 0x948); (0x94D, 0x94D);
   (0x951, 0x957); (0x962, 0x963); (0x971, 0x971); (0x981, 0x981);
   (0x9BC, 0x9BC); (0x9C1, 0x9C4); (0x9CD, 0x9CD); (0x9E2, 0x9E3);
   (0x9FE, 0x9FE); (0xA01, 0xA02); (0xA3C, 0xA3C); (0xA41, 0xA42);
   (0xA47, 0xA48); (0xA4B, 0xA4D); (0xA51, 0xA51); (0xA70, 0xA71);
   (0xA75, 0xA75); (0xA81, 0xA82); (0xABC, 0xABC); (0xAC1, 0xAC5);
   (0xAC7, 0xAC8); (0xACD, 0xACD); (0xAE2, 0xAE3); (0xAFA, 0xAFF);
   (0xB01, 0xB01); (0xB3C, 0xB3C); (0xB3F, 0xB3F); (0xB41, 0xB44);
   (0xB4D, 0xB4D); (0xB55, 0xB56); (0xB62, 0xB63); (0xB82, 0xB82);
   (0xBC0, 0xBC0); (0xBCD, 0xBCD); (0xC00, 0xC00); (0xC04, 0xC04);
   (0xC3C, 0xC3C); (0xC3E, 0xC40); (0xC46, 0xC48); (0xC4A, 0xC4D);
   (0xC55, 0xC56); (0xC62, 0xC63); (0xC81, 0xC81); (0xCBC, 0xCBC);
   (0xCBF, 0xCBF); (0xCC6, 0xCC6); (0xCCC, 0xCCD); (0xCE2, 0xCE3);
   (0xD00, 0xD01); (0xD3B, 0xD3C); (0xD41, 0xD44); (0xD4D, 0xD4D);
   (0xD62, 0xD63); (0xD81, 0xD81); (0xDCA, 0xDCA); (0xDD2, 0xDD4);
   (0xDD6, 0xDD6); (0xE31, 0xE31); (0xE34, 0xE3A); (0xE46, 0xE4E);
   (0xEB1, 0xEB1); (0xEB4, 0xEBC); (0xEC6, 0xEC6); (0xEC8, 0xECD);
   (0xF18, 0xF19); (0xF35, 0xF35); (0xF37, 0xF37); (0xF39, 0xF39);
   (0xF71, 0xF7E); (0xF80, 0xF84); (0xF86, 0xF87); (0xF8D, 0xF97);
   (0xF99, 0xFBC); (0xFC6, 0xFC6); (0x102D, 0x1030); (0x1032, 0x1037);
   (0x1039, 0x103A); (0x103D, 0x103E); (0x1058, 0x1059); (0x105E, 0x1060);
   (0x1071, 0x1074); (0x1082, 0x1082); (0x1085, 0x1086); (0x108D, 0x108D);
   (0x109D, 0x109D); (0x10FC, 0x10FC); (0x135D, 0x135F); (0x1712, 0x1714);
   (0x1732, 0x1733); (0x1752, 0x1753); (0x1772, 0x1773); (0x17B4, 0x17B5);
   (0x17B7, 0x17BD); (0x17C6, 0x17C6); (0x17C9, 0x17D3); (0x17D7, 0x17D7);
   (0x17DD, 0x17DD); (0x180B, 0x180F); (0x1843, 0x1843); (0x1885, 0x1886);
   (0x18A9, 0x18A9); (0x1920, 0x1922); (0x1927, 0x1928); (0x1932, 0x1932);
   (0x1939, 0x193B); (0x1A17, 0x1A18); (0x1A1B, 0x1A1B); (0x1A56, 0x1A56);
   (0x1A58, 0x1A5E); (0x1A60, 0x1A60); (0x1A62, 0x1A62); (0x1A65, 0x1A6C);
   (0x1A73, 0x1A7C); (0x1A7F, 0x1A7F); (0x1AA7, 0x1AA7); (0x1AB0, 0x1ACE);
   (0x1B00, 0x1B03); (0x1B34, 0x1B34); (0x1B36, 0x1B3A); (0x1B3C, 0x1B3C);
   (0x1B42, 0x1B42); (0x1B6B, 0x1B73); (0x1B80, 0x1B81); (0x1BA2, 0x1BA5);
   (0x1BA8, 0x1BA9); (0x1BAB, 0x1BAD); (0x1BE6, 0x1BE6); (0x1BE8, 0x1BE9);
   (0x1BED, 0x1BED); (0x1BEF, 0x1BF1); (0x1C2C, 0x1C33); (0x1C36, 0x1C37);
   (0x1C78, 0x1C7D); (0x1CD0, 0x1CD2); (0x1CD4, 0x1CE0); (0x1CE2, 0x1CE8);
   (0x1CED, 0x1CED); (0x1CF4, 0x1CF4); (0x1CF8, 0x1CF9); (0x1D2C, 0x1D6A);
   (0x1D78, 0x1D78); (0x1D9B, 0x1DFF); (0x1FBD, 0x1FBD); (0x1FBF, 0x1FC1);
   (0x1FCD, 0x1FCF); (0x1FDD, 0x1FDF); (0x1FED, 0x1FEF); (0x1FFD, 0x1FFE);
   (0x200B, 0x200F); (0x2018, 0x2019); (0x2024, 0x2024); (0x2027, 0x2027);
   (0x202A, 0x202E); (0x2060, 0x2064); (0x2066, 0x206F); (0x2071, 0x2071);
   (0x207F, 0x207F); (0x2090, 0x209C); (0x20D0, 0x20F0); (0x2C7C, 0x2C7D);
   (0x2CEF, 0x2CF1); (0x2D6F, 0x2D6F); (0x2D7F, 0x2D7F); (0x2DE0, 0x2DFF);
   (0x2E2F, 0x2E2F); (0x3005, 0x3005); (0x302A, 0x302D); (0x3031, 0x3035);
   (0x303B, 0x303B); (0x3099, 0x309E); (0x30FC, 0x30FE); (0xA015, 0xA015);
   (0xA4F8, 0xA4FD); (0xA60C, 0xA60C); (0xA66F, 0xA672); (0xA674, 0xA67D);
   (0xA67F, 0xA67F); (0xA69C, 0xA69F); (0xA6F0, 0xA6F1); (0xA700, 0xA721);
   (0xA770, 0xA770); (0xA788, 0xA78A); (0xA7F2, 0xA7F4); (0xA7F8, 0xA7F9);
   (0xA802, 0xA802); (0xA806, 0xA806); (0xA80B, 0xA80B); (0xA825, 0xA826);
   (0xA82C, 0xA82C); (0xA8C4, 0xA8C5); (0xA8E0, 0xA8F1); (0xA8FF, 0xA8FF);
   (0xA926, 0xA92D); (0xA947, 0xA951); (0xA980, 0xA982); (0xA9B3, 0xA9B3);
   (0xA9B6, 0xA9B9); (0xA9BC, 0xA9BD); (0xA9CF, 0xA9CF); (0xA9E5, 0xA9E6);
   (0xAA29, 0xAA2E); (0xAA31, 0xAA32); (0xAA35, 0xAA36); (0xAA43, 0xAA43);
   (0xAA4C, 0xAA4C); (0xAA70, 0xAA70); (0xAA7C, 0xAA7C); (0xAAB0, 0xAAB0);
   (0xAAB2, 0xAAB4); (0xAAB7, 0xAAB8); (0xAABE, 0xAABF); (0xAAC1, 0xAAC1);
   (0xAADD, 0xAADD); (0xAAEC, 0xAAED); (0xAAF3, 0xAAF4); (0xAAF6, 0xAAF6);
   (0xAB5B, 0xAB5F); (0xAB69, 0xAB6B); (0xABE5, 0xABE5); (0xABE8, 0xABE8);
   (0xABED, 0xABED); (0xFB1E, 0xFB1E); (0xFBB2, 0xFBC2); (0xFE00, 0xFE0F);
   (0xFE13, 0xFE13); (0xFE20, 0xFE2F); (0xFE52, 0xFE52); (0xFE55, 0xFE55);
   (0xFEFF, 0xFEFF); (0xFF07, 0xFF07); (0xFF0E, 0xFF0E); (0xFF1A, 0xFF1A);
   (0xFF3E, 0xFF3E); (0xFF40, 0xFF40); (0xFF70, 0xFF70); (0xFF9E, 0xFF9F);
   (0xFFE3, 0xFFE3); (0xFFF9, 0xFFFB); (0x101FD, 0x101FD); (0x102E0, 0x102E0);
   (0x10376, 0x1037A); (0x10780, 0x10785); (0x10787, 0x107B0);
   (0x107B2, 0x107BA); (0x10A01, 0x10A03); (0x10A05, 0x10A06);
   (0x10A0C, 0x10A0F); (0x10A38, 0x10A3A); (0x10A3F, 0x10A3F);
   (0x10AE5, 0x10AE6); (0x10D24, 0x10D27); (0x10EAB, 0x10EAC);
   (0x10F46, 0x10F50); (0x10F82, 0x10F85); (0x11001, 0x11001);
   (0x11038, 0x11046); (0x11070, 0x11070); (0x11073, 0x11074);
   (0x1107F, 0x11081); (0x110B3, 0x110B6); (0x110B9, 0x110BA);
   (0x110BD, 0x110BD); (0x110C2, 0x110C2); (0x110CD, 0x110CD);
   (0x11100, 0x11102); (0x11127, 0x1112B); (0x1112D, 0x11134);
   (0x11173, 0x11173); (0x11180, 0x11181); (0x111B6, 0x111BE);
   (0x111C9, 0x111CC); (0x111CF, 0x111CF); (0x1122F, 0x11231);
   (0x11234, 0x11234); (0x11236, 0x11237); (0x1123E, 0x1123E);
   (0x112DF, 0x112DF); (0x112E3, 0x112EA); (0x11300, 0x11301);
   (0x1133B, 0x1133C); (0x11340, 0x11340); (0x11366, 0x1136C);
   (0x11370, 0x11374); (0x11438, 0x1143F); (0x11442, 0x11444);
   (0x11446, 0x11446); (0x1145E, 0x1145E); (0x114B3, 0x114B8);
   (0x114BA, 0x114BA); (0x114BF, 0x114C0); (0x114C2, 0x114C3);
   (0x115B2, 0x115B5); (0x115BC, 0x115BD); (0x115BF, 0x115C0);
   (0x115DC, 0x115DD); (0x11633, 0x1163A); (0x1163D, 0x1163D);
   (0x1163F, 0x11640); (0x116AB, 0x116AB); (0x116AD, 0x116AD);
   (0x116B0, 0x116B5); (0x116B7, 0x116B7); (0x1171D, 0x1171F);
   (0x11722, 0x11725); (0x11727, 0x1172B); (0x1182F, 0x11837);
   (0x11839, 0x1183A); (0x1193B, 0x1193C); (0x1193E, 0x1193E);
   (0x11943, 0x11943); (0x119D4, 0x119D7); (0x119DA, 0x119DB);
   (0x119E0, 0x119E0); (0x11A01, 0x11A0A); (0x11A33, 0x11A38);
   (0x11A3B, 0x11A3E); (0x11A47, 0x11A47); (0x11A51, 0x11A56);
   (0x11A59, 0x11A5B); (0x11A8A, 0x11A96); (0x11A98, 0x11A99);
   (0x11C30, 0x11C36); (0x11C38, 0x11C3D); (0x11C3F, 0x11C3F);
   (0x11C92, 0x11CA7); (0x11CAA, 0x11CB0); (0x11CB2, 0x11CB3);
   (0x11CB5, 0x11CB6); (0x11D31, 0x11D36); (0x11D3A, 0x11D3A);
   (0x11D3C, 0x11D3D); (0x11D3F, 0x11D45); (0x11D47, 0x11D47);
   (0x11D90, 0x11D91); (0x11D95, 0x11D95); (0x11D97, 0x11D97);
   (0x11EF3, 0x11EF4); (0x13430, 0x13438); (0x16AF0, 0x16AF4);
   (0x16B30, 0x16B36); (0x16B40, 0x16B43); (0x16F4F, 0x16F4F);
   (0x16F8F, 0x16F9F); (0x16FE0, 0x16FE1); (0x16FE3, 0x16FE4);
   (0x1AFF0, 0x1AFF3); (0x1AFF5, 0x1AFFB); (0x1AFFD, 0x1AFFE);
   (0x1BC9D, 0x1BC9E); (0x1BCA0, 0x1BCA3); (0x1CF00, 0x1CF2D);
   (0x1CF30, 0x1CF46); (0x1D167, 0x1D169); (0x1D173, 0x1D182);
   (0x1D185, 0x1D18B); (0x1D1AA, 0x1D1AD); (0x1D242, 0x1D244);
   (0x1DA00, 0x1DA36); (0x1DA3B, 0x1DA6C); (0x1DA75, 0x1DA75);
   (0x1DA84, 0x1DA84); (0x1DA9B, 0x1DA9F); (0x1DAA1, 0x1DAAF);
   (0x1E000, 0x1E006); (0x1E008, 0x1E018); (0x1E01B, 0x1E021);
   (0x1E023, 0x1E024); (0x1E026, 0x1E02A); (0x1E130, 0x1E13D);
   (0x1E2AE, 0x1E2AE); (0x1E2EC, 0x1E2EF); (0x1E8D0, 0x1E8D6);
   (0x1E944, 0x1E94B); (0x1F3FB, 0x1F3FF); (0xE0001, 0xE0001);
   (0xE0020, 0xE007F); (0xE0100, 0xE01EF)].

Definition casedRanges : list (Z * Z) :=
  [(0x41, 0x5A); (0x61, 0x7A); (0xAA, 0xAA); (0xB5, 0xB5); (0xBA, 0xBA);
   (0xC0, 0xD6); (0xD8, 0xF6); (0xF8, 0x1BA); (0x1BC, 0x1BF); (0x1C4, 0x293);
   (0x295, 0x2AF); (0x370, 0x373); (0x376, 0x377); (0x37B, 0x37D);
   (0x37F, 0x37F); (0x386, 0x386); (0x388, 0x38A); (0x38C, 0x38C);
   (0x38E, 0x3A1); (0x3A3, 0x3F5); (0x3F7, 0x481); (0x48A, 0x52F);
   (0x531, 0x556); (0x560, 0x588); (0x10A0, 0x10C5); (0x10C7, 0x10C7);
   (0x10CD, 0x10CD); (0x10D0, 0x10FA); (0x10FD, 0x10FF); (0x13A0, 0x13F5);
   (0x13F8, 0x13FD); (0x1C80, 0x1C88); (0x1C90, 0x1CBA); (0x1CBD, 0x1CBF);
   (0x1D00, 0x1D2B); (0x1D6B, 0x1D77); (0x1D79, 0x1D9A); (0x1E00, 0x1F15);
   (0x1F18, 0x1F1D); (0x1F20, 0x1F45); (0x1F48, 0x1F4D); (0x1F50, 0x1F57);
   (0x1F59, 0x1F59); (0x1F5B, 0x1F5B); (0x1F5D, 0x1F5D); (0x1F5F, 0x1F7D);
   (0x1F80, 0x1FB4); (0x1FB6, 0x1FBC); (0x1FBE, 0x1FBE); (0x1FC2, 0x1FC4);
   (0x1FC6, 0x1FCC); (0x1FD0, 0x1FD3); (0x1FD6, 0x1FDB); (0x1FE0, 0x1FEC);
   (0x1FF2, 0x1FF4); (0x1FF6, 0x1FFC); (0x2102, 0x2102); (0x2107, 0x2107);
   (0x210A, 0x2113); (0x2115, 0x2115); (0x2119, 0x211D); (0x2124, 0x2124);
   (0x2126, 0x2126); (0x2128, 0x2128); (0x212A, 0x212D); (0x212F, 0x2134);
   (0x2139, 0x2139); (0x213C, 0x213F); (0x2145, 0x2149); (0x214E, 0x214E);
   (0x2160, 0x217F); (0x2183, 0x2184); (0x24B6, 0x24E9); (0x2C00, 0x2C7B);
   (0x2C7E, 0x2CE4); (0x2CEB, 0x2CEE); (0x2CF2, 0x2CF3); (0x2D00, 0x2D25);
   (0x2D27, 0x2D27); (0x2D2D, 0x2D2D); (0xA640, 0xA66D); (0xA680, 0xA69B);
   (0xA722, 0xA76F); (0xA771, 0xA787); (0xA78B, 0xA78E); (0xA790, 0xA7CA);
   (0xA7D0, 0xA7D1); (0xA7D3, 0xA7D3); (0xA7D5, 0xA7D9); (0xA7F5, 0xA7F6);
   (0xA7FA, 0xA7FA); (0xAB30, 0xAB5A); (0xAB60, 0xAB68); (0xAB70, 0xABBF);
   (0xFB00, 0xFB06); (0xFB13, 0xFB17); (0xFF21, 0xFF3A); (0xFF41, 0xFF5A);
   (0x10400, 0x1044F); (0x104B0, 0x104D3); (0x104D8, 0x104FB);
   (0x10570, 0x1057A); (0x1057C, 0x1058A); (0x1058C, 0x10592);
   (0x10594, 0x10595); (0x10597, 0x105A1); (0x105A3, 0x105B1);
   (0x105B3, 0x105B9); (0x105BB, 0x105BC); (0x10C80, 0x10CB2);
   (0x10CC0, 0x10CF2); (0x118A0, 0x118DF); (0x16E40, 0x16E7F);
   (0x1D400, 0x1D454); (0x1D456, 0x1D49C); (0x1D49E, 0x1D49F);
   (0x1D4A2, 0x1D4A2); (0x1D4A5, 0x1D4A6); (0x1D4A9, 0x1D4AC);
   (0x1D4AE, 0x1D4B9); (0x1D4BB, 0x1D4BB); (0x1D4BD, 0x1D4C3);
   (0x1D4C5, 0x1D505); (0x1D507, 0x1D50A); (0x1D50D, 0x1D514);
   (0x1D516, 0x1D51C); (0x1D51E, 0x1D539); (0x1D53B, 0x1D53E);
   (0x1D540, 0x1D544); (0x1D546, 0x1D546); (0x1D54A, 0x1D550);
   (0x1D552, 0x1D6A5); (0x1D6A8, 0x1D6C0); (0x1D6C2, 0x1D6DA);
   (0x1D6DC, 0x1D6FA); (0x1D6FC, 0x1D714); (0x1D716, 0x1D734);
   (0x1D736, 0x1D74E); (0x1D750, 0x1D76E); (0x1D770, 0x1D788);
   (0x1D78A, 0x1D7A8); (0x1D7AA, 0x1D7C2); (0x1D7C4, 0x1D7CB);
   (0x1DF00, 0x1DF09); (0x1DF0B, 0x1DF1E); (0x1E900, 0x1E943);
   (0x1F130, 0x1F149); (0x1F150, 0x1F169); (0x1F170, 0x1F189)].

Definition caseIgnorable (p : Z) : bool := inRanges caseIgnorableRanges p.
Definition cased (p : Z) : bool := inRanges casedRanges p.

(** The next character that is not case-ignorable is a cased letter. *)
Fixpoint beforeCased (points : list Z) : bool :=
  match points with
  | [] => false
  | p :: points' =>
      if caseIgnorable p then beforeCased points' else cased p
  end.

(** Lower-casing of a sequence of code points.  Every code point gives
    its small form, but for two: the capital sigma gives the final small
    sigma when a cased letter comes before it and none comes after it
    (case-ignorable characters in between apart), and the capital I with
    dot above gives a small i followed by a combining dot above.
    [afterCased] says whether a cased letter comes before the sequence. *)
Fixpoint lowerPoints (afterCased : bool) (points : list Z) : list Z :=
  match points with
  | [] => []
  | p :: points' =>
      (if p =? 0x3A3 then
         [if afterCased && negb (beforeCased points') then 0x3C2 else 0x3C3]
       else if p =? 0x130 then [0x69; 0x307]
       else [lowerOf p])
      ++ lowerPoints (if caseIgnorable p then afterCased else cased p) points'
  end.

(** [String.prototype.toLowerCase] *)
Definition toLowerCase (s : string) : string :=
  fromCodePoints (lowerPoints false (codePoints s)).

(** [Number.prototype.toString] on an integer: decimal digits, with a
    leading minus sign below zero (the form the runtime prints for every
    integer of magnitude under 10^21). *)
Definition toString (n : Z) : string :=
  NilZero.string_of_int (Z.to_int n).

(** A string in boolean position: only the empty string is falsy. *)
Definition truthy (s : string) : bool :=
  match s with
  | EmptyString => false
  | String _ _ => true
  end.

(** [a || b] where [a] may be [undefined] and [b] is a string. *)
Definition orElse (a : option string) (b : string) : string :=
  match a with
  | Some s => if truthy s then s else b
  | None => b
  end.

(** [a || b] where both sides may be [undefined]. *)
Definition orOpt (a b : option string) : option string :=
  match a with
  | Some s => if truthy s then Some s else b
  | None => b
  end.

(** A possibly-undefined string in boolean position. *)
Definition truthyOpt (a : option string) : bool :=
  match a with
  | Some s => truthy s
  | None => false
  end.

(** String concatenation coerces [undefined] to the text "undefined". *)
Definition strOf (a : option string) : string :=
  match a with
  | Some s => s
  | None => "undefined"
  end.

(** A [Date] object: its time value in milliseconds since the epoch, or
    [None] for an Invalid Date (time value NaN). *)
Definition Date := option Z.

(** [a >= b] and [a <= b] on dates compare the time values; any comparison
    with NaN is false. *)
Definition Date_ge (a b : Date) : bool :=
  match a, b with
  | Some x, Some y => y <=? x
  | _, _ => false
  end.

Definition Date_le (a b : Date) : bool :=
  match a, b with
  | Some x, Some y => x <=? y
  | _, _ => false
  end.

(** Milliseconds in a day ([msPerDay]). *)
Definition msPerDay : Z := 86400000.

(** The time zone of the runtime.  [offsetAt t] is the offset of local
    time from UTC in force at the instant [t] ([LocalTZA(t, true)]);
    [offsetOfLocal t] is the offset by which the local time value [t] is
    read back as an instant ([LocalTZA(t, false)]).  Both are in
    milliseconds. *)
Record TimeZone := mkZone {
  offsetAt : Z -> Z;
  offsetOfLocal : Z -> Z
}.

(** [LocalTime(t)], [UTC(t)] and [Day(t)]. *)
Definition LocalTime (zone : TimeZone) (t : Z) : Z := t + offsetAt zone t.
Definition UTC (zone : TimeZone) (t : Z) : Z := t - offsetOfLocal zone t.
Definition Day (t : Z) : Z := t / msPerDay.

(** [new Date(now.getFullYear(), now.getMonth(), now.getDate())].  The
    three getters read the calendar date of the day [Day(LocalTime(now))];
    the constructor takes 00:00 on that date as a local time value, which
    is that day number times [msPerDay], and reads it back as an
    instant. *)
Definition localMidnight (zone : TimeZone) (now : Z) : Z :=
  UTC zone (Day (LocalTime zone now) * msPerDay).

(** The mathematical value of a number, as a fraction in lowest terms;
    [None] for NaN and the two infinities. *)
Definition exact (x : float) : option Q :=
  match Prim2SF x with
  | S754_zero _ => Some (0 # 1)
  | S754_finite negative m e =>
      let v := Qred (Qmult (inject_Z (Z.pos m)) (Qpower (2 # 1) e)) in
      Some (if negative then Qopp v else v)
  | _ => None
  end.

(** The digits [Number.prototype.toFixed(2)] prints for a mathematical
    value below 10^21 in magnitude: a minus sign below zero, then the
    integer [n] for which [n / 100] is nearest to the magnitude, the larger
    one of two, written with at least three digits and a point before the
    last two. *)
Definition fixed2 (q : Q) : string :=
  let q := Qred q in
  let magnitude := Z.abs (Qnum q) in
  let n := (200 * magnitude + Z.pos (Qden q)) / (2 * Z.pos (Qden q)) in
  let sign := if Qnum q <? 0 then "-" else EmptyString in
  let pad := if n mod 100 <? 10 then "0" else EmptyString in
  (sign ++ toString (n / 100) ++ "." ++ pad ++ toString (n mod 100))%string.

(** An [Error] object, or whatever value was thrown: only its [message]
    is ever read. *)
Record Error := mkError { message : string }.

(** One line written to the console: the method used and the leading
    text argument. *)
Inductive Level := log | warn | error.
Record ConsoleLine := mkLine { level : Level; text : string }.

(** [Array.prototype.sort] with a comparator: the stable arrangement in
    which [x] stays in front of [y] whenever [cmp x y <= 0]. *)
Section Sort.
Context {A : Type} (cmp : A -> A -> Z).

Fixpoint insertSorted (x : A) (l : list A) : list A :=
  match l with
  | [] => [x]
  | y :: l' => if cmp x y <=? 0 then x :: y :: l' else y :: insertSorted x l'
  end.

Definition sort (l : list A) : list A := fold_right insertSorted [] l.
End Sort.

End Js.

(** "Is a substring of". *)
Definition Substring (q s : string) : Prop :=
  exists pre post, s = pre ++ q ++ post.

(** "Is a case-insensitive substring of": a substring once both sides are
    lower-cased. *)
Definition SubstringNoCase (q s : string) : Prop :=
  Substring (Js.toLowerCase q) (Js.toLowerCase s).

(** The characters a printed integer can contain. *)
Definition numeric (c : ascii) : bool :=
  Js.includes "0123456789-" (String c EmptyString).

Fixpoint allChars (p : ascii -> bool) (s : string) : bool :=
  match s with
  | EmptyString => true
  | String c s' => p c && allChars p s'
  end.

(** Words about strings as UTF-8 and about the case table. *)
Module Text.

(** A continuation byte. *)
Definition continues (c : ascii) : bool := Js.continuation (Js.byte c).

(** Every code point of the list is a scalar value. *)
Definition scalars (points : list Z) : bool := forallb Js.scalar points.

(** Neither the capital sigma nor the capital I with dot above. *)
Definition plainPoint (p : Z) : bool :=
  negb (p =? 0x3A3) && negb (p =? 0x130).

(** An entry of the case table lies on one side of the surrogates, at or
    above the Latin capitals; and so do the small forms it gives, at or
    above the Latin small letters. *)
Definition wellPlaced (entry : Z * Z * Z * Z) : bool :=
  let '(first, last, _, _) := entry in
  (0x41 <=? first) && (first <=? last) && (last <? 0xD800)
  || (0xDFFF <? first) && (first <=? last) && (last <? 0x110000).

Definition landsWell (entry : Z * Z * Z * Z) : bool :=
  let '(first, last, _, shift) := entry in
  (0x61 <=? first + shift) && (last + shift <? 0xD800)
  || (0xDFFF <? first + shift) && (last + shift <? 0x110000).

End Text.

(* ================================================================== *)
(** ** Effects: mutable world plus exceptions *)
(* ================================================================== *)

Module Eff.

(** How a block of statements ends. *)
Inductive Completion (A : Type) : Type :=
| Normal (a : A)
| Throw (e : Js.Error).
Arguments Normal {A} a.
Arguments Throw {A} e.

(** How an awaited database request settles: a response carrying data,
    a response carrying an [error], or a rejected promise. *)
Inductive Settled (A : Type) : Type :=
| Data (a : A)
| Failed (error : Js.Error)
| Rejected (e : Js.Error).
Arguments Data {A} a.
Arguments Failed {A} error.
Arguments Rejected {A} e.

Section Monad.
Context {W : Type}.

Definition M (A : Type) : Type := W -> Completion A * W.

Definition ret {A} (a : A) : M A := fun w => (Normal a, w).

Definition bind {A B} (m : M A) (k : A -> M B) : M B :=
  fun w =>
    match m w with
    | (Normal a, w') => k a w'
    | (Throw e, w') => (Throw e, w')
    end.

Definition throw {A} (e : Js.Error) : M A := fun w => (Throw e, w).

(** [try { body } catch (e) { handler e }] *)
Definition tryCatch {A} (body : M A) (handler : Js.Error -> M A) : M A :=
  fun w =>
    match body w with
    | (Normal a, w') => (Normal a, w')
    | (Throw e, w') => handler e w'
    end.

Definition modify (f : W -> W) : M unit := fun w => (Normal tt, f w).

(** [for (const x of xs) { body x }] *)
Fixpoint forOf {A} (xs : list A) (body : A -> M unit) : M unit :=
  match xs with
  | [] => ret tt
  | x :: xs' => bind (body x) (fun _ => forOf xs' body)
  end.
End Monad.

Arguments M W A : clear implicits.

End Eff.

Import Eff.

Notation "x <- m ;; k" := (Eff.bind m (fun x => k))
  (at level 61, m at next level, right associativity).
Notation "m ;;; k" := (Eff.bind m (fun _ => k))
  (at level 61, right associativity).

(* ================================================================== *)
(** ** context/DataContext.tsx *)
(* ================================================================== *)

Module DataContext.

(** [interface Reservation] *)
Record Reservation := mkReservation {
  id : string;
  reservationNumber : Z;
  firstName : string;
  lastName : string;
  phone : string;
  appointmentDate : string;
  appointmentTime : string;
  totalPrice : float;
  depositPaid : float;
  isPaid : bool;
  depositPaidStatus : bool;
  restPaidStatus : bool;
  designImages : option (list string);
  notes : option string;
  artistId : option string;
  createdAt : option string
}.

(** [Omit<Reservation, 'id' | 'createdAt'>] *)
Module Draft.
Record t := make {
  reservationNumber : Z;
  firstName : string;
  lastName : string;
  phone : string;
  appointmentDate : string;
  appointmentTime : string;
  totalPrice : float;
  depositPaid : float;
  isPaid : bool;
  depositPaidStatus : bool;
  restPaidStatus : bool;
  designImages : option (list string);
  notes : option string;
  artistId : option string
}.
End Draft.

(** [Partial<Reservation>]: [None] is a key that is not in the object.
    For the optional fields a key can be present and hold [undefined],
    which is [Some None]. *)
Module Partial.
Record t := make {
  id : option string;
  reservationNumber : option Z;
  firstName : option string;
  lastName : option string;
  phone : option string;
  appointmentDate : option string;
  appointmentTime : option string;
  totalPrice : option float;
  depositPaid : option float;
  isPaid : option bool;
  depositPaidStatus : option bool;
  restPaidStatus : option bool;
  designImages : option (option (list string));
  notes : option (option string);
  artistId : option (option string);
  createdAt : option (option string)
}.

(** The object literal [{}]. *)
Definition empty : t :=
  make None None None None None None None None
       None None None None None None None None.
End Partial.

(** One key of [{ ...res, ...updates }]: the later spread wins when it
    has the key. *)
Definition over {A : Type} (old : A) (upd : option A) : A :=
  match upd with
  | Some v => v
  | None => old
  end.

(** [{ ...res, ...updates }] *)
Definition spread (res : Reservation) (updates : Partial.t) : Reservation :=
  {| id := over (id res) (Partial.id updates);
     reservationNumber :=
       over (reservationNumber res) (Partial.reservationNumber updates);
     firstName := over (firstName res) (Partial.firstName updates);
     lastName := over (lastName res) (Partial.lastName updates);
     phone := over (phone res) (Partial.phone updates);
     appointmentDate :=
       over (appointmentDate res) (Partial.appointmentDate updates);
     appointmentTime :=
       over (appointmentTime res) (Partial.appointmentTime updates);
     totalPrice := over (totalPrice res) (Partial.totalPrice updates);
     depositPaid := over (depositPaid res) (Partial.depositPaid updates);
     isPaid := over (isPaid res) (Partial.isPaid updates);
     depositPaidStatus :=
       over (depositPaidStatus res) (Partial.depositPaidStatus updates);
     restPaidStatus :=
       over (restPaidStatus res) (Partial.restPaidStatus updates);
     designImages := over (designImages res) (Partial.designImages updates);
     notes := over (notes res) (Partial.notes updates);
     artistId := over (artistId res) (Partial.artistId updates);
     createdAt := over (createdAt res) (Partial.createdAt updates) |}.

(** The [reservations] table behind the database client.  Each request
    takes the table to a settled result and the table afterwards; nothing
    is assumed about which requests succeed. *)
Record Supabase := mkSupabase {
  table : Type;
  (** [.from('reservations').insert([r]).select().single()] *)
  insert : Draft.t -> table -> Settled Reservation * table;
  (** [.from('reservations').update(u).eq('id', id)] *)
  update : Partial.t -> string -> table -> Settled unit * table;
  (** [.from('reservations').delete().eq('id', id)] *)
  delete : string -> table -> Settled unit * table
}.

Section Provider.
Variable supabase : Supabase.

(** The provider's [reservations] state, the browser console, and the
    remote table. *)
Record World := mkWorld {
  reservations : list Reservation;
  console : list Js.ConsoleLine;
  db : table supabase
}.

(** [setReservations(prev => f prev)] *)
Definition setReservations (f : list Reservation -> list Reservation)
  : M World unit :=
  modify (fun w =>
    {| reservations := f (reservations w);
       console := console w;
       db := db w |}).

(** [console.error(label, error)] *)
Definition console_error (label : string) : M World unit :=
  modify (fun w =>
    {| reservations := reservations w;
       console := console w ++ [Js.mkLine Js.error label];
       db := db w |}).

(** [const { data, error } = await request]: a rejected promise throws
    at the [await]; otherwise exactly one of [data] and [error] is set. *)
Definition await {A : Type}
    (request : table supabase -> Settled A * table supabase)
  : M World (A + Js.Error) :=
  fun w =>
    let (settled, t') := request (db w) in
    let w' := {| reservations := reservations w;
                 console := console w;
                 db := t' |} in
    match settled with
    | Data a => (Normal (inl a), w')
    | Failed error => (Normal (inr error), w')
    | Rejected e => (Throw e, w')
    end.

Definition addReservation (reservation : Draft.t) : M World unit :=
  tryCatch
    (response <- await (insert supabase reservation) ;;
     match response with
     | inr error => throw error
     | inl data => setReservations (fun prev => data :: prev)
     end)
    (fun error =>
       console_error "Error adding reservation:" ;;;
       throw error).

Definition updateReservation (id' : string) (updates : Partial.t)
  : M World unit :=
  tryCatch
    (response <- await (update supabase updates id') ;;
     match response with
     | inr error => throw error
     | inl _ =>
         setReservations (fun prev =>
           map (fun res =>
                  if String.eqb (id res) id' then spread res updates
                  else res)
               prev)
     end)
    (fun error =>
       console_error "Error updating reservation:" ;;;
       throw error).

Definition deleteReservation (id' : string) : M World unit :=
  tryCatch
    (response <- await (delete supabase id') ;;
     match response with
     | inr error => throw error
     | inl _ =>
         setReservations (fun prev =>
           filter (fun res => negb (String.eqb (id res) id')) prev)
     end)
    (fun error =>
       console_error "Error deleting reservation:" ;;;
       throw error).

End Provider.

Arguments reservations {supabase} w.
Arguments console {supabase} w.
Arguments db {supabase} w.

End DataContext.

(* ================================================================== *)
(** ** components/ViewReservations.tsx *)
(* ================================================================== *)

Module ViewReservations.
Import DataContext.

(** The [dateFilter] state: two date strings. *)
Record DateFilter := mkDateFilter { start : string; end' : string }.

Section Filter.
(** [new Date(text)], the runtime's date parser. *)
Variable Date_parse : string -> Js.Date.

(** The [matchesSearch] constant of the filter callback. *)
Definition matchesSearch (searchTerm : string) (reservation : Reservation)
  : bool :=
  Js.includes (Js.toString (reservationNumber reservation)) searchTerm
  || Js.includes (Js.toLowerCase (firstName reservation))
                 (Js.toLowerCase searchTerm)
  || Js.includes (Js.toLowerCase (lastName reservation))
                 (Js.toLowerCase searchTerm)
  || Js.includes (phone reservation) searchTerm.

(** The [matchesDate] constant of the filter callback. *)
Definition matchesDate (dateFilter : DateFilter) (reservation : Reservation)
  : bool :=
  let reservationDate := Date_parse (appointmentDate reservation) in
  let startDate := Date_parse (start dateFilter) in
  let endDate := Date_parse (end' dateFilter) in
  Js.Date_ge reservationDate startDate && Js.Date_le reservationDate endDate.

Definition filteredReservations (reservations : list Reservation)
    (searchTerm : string) (dateFilter : DateFilter) : list Reservation :=
  filter (fun reservation =>
            matchesSearch searchTerm reservation
            && matchesDate dateFilter reservation)
         reservations.
End Filter.

Section Cell.
(** [x.toFixed(2)] *)
Variable toFixed2 : float -> string.

End Cell.

(** The object literal passed by the deposit button's [onClick]. *)
Definition depositToggle (reservation : Reservation) : Partial.t :=
  {| Partial.id := None;
     Partial.reservationNumber := None;
     Partial.firstName := None;
     Partial.lastName := None;
     Partial.phone := None;
     Partial.appointmentDate := None;
     Partial.appointmentTime := None;
     Partial.totalPrice := None;
     Partial.depositPaid := None;
     Partial.isPaid := None;
     Partial.depositPaidStatus := Some (negb (depositPaidStatus reservation));
     Partial.restPaidStatus := None;
     Partial.designImages := None;
     Partial.notes := None;
     Partial.artistId := None;
     Partial.createdAt := None |}.

(** The object literal passed by the rest button's [onClick]. *)
Definition restToggle (reservation : Reservation) : Partial.t :=
  {| Partial.id := None;
     Partial.reservationNumber := None;
     Partial.firstName := None;
     Partial.lastName := None;
     Partial.phone := None;
     Partial.appointmentDate := None;
     Partial.appointmentTime := None;
     Partial.totalPrice := None;
     Partial.depositPaid := None;
     Partial.isPaid :=
       Some (if negb (restPaidStatus reservation) then true
             else isPaid reservation);
     Partial.depositPaidStatus := None;
     Partial.restPaidStatus := Some (negb (restPaidStatus reservation));
     Partial.designImages := None;
     Partial.notes := None;
     Partial.artistId := None;
     Partial.createdAt := None |}.

(** The two [onClick] handlers of the payment-status cell. *)
Definition onClickDeposit (supabase : Supabase) (reservation : Reservation)
  : M (World supabase) unit :=
  updateReservation supabase (id reservation) (depositToggle reservation).

Definition onClickRest (supabase : Supabase) (reservation : Reservation)
  : M (World supabase) unit :=
  updateReservation supabase (id reservation) (restToggle reservation).

End ViewReservations.

(* ================================================================== *)
(** ** components/ReservationAnalytics.tsx *)
(* ================================================================== *)

Module ReservationAnalytics.
Import DataContext.

(** ['today' | 'yesterday' | 'week' | 'month'] *)
Inductive Period := Today | Yesterday | Week | Month.

(** The [{ start, end }] pair of dates returned by [getDateRange], as
    time values. *)
Record DateRange := mkRange { start : Z; end' : Z }.

Section View.
(** [new Date(text)], the runtime's date parser. *)
Variable Date_parse : string -> Js.Date.

(** [new Date(now.getFullYear(), now.getMonth(), now.getDate())]: the
    time value of 00:00 local wall-clock time on the local calendar day
    of [now].  It depends on the browser's time zone. *)
Variable localMidnight : Z -> Z.

Definition getDateRange (now : Z) (period : Period) : DateRange :=
  let today := localMidnight now in
  match period with
  | Today =>
      {| start := today;
         end' := today + 24 * 60 * 60 * 1000 - 1 |}
  | Yesterday =>
      let yesterday := today - 24 * 60 * 60 * 1000 in
      {| start := yesterday;
         end' := yesterday + 24 * 60 * 60 * 1000 - 1 |}
  | Week =>
      let weekAgo := today - 7 * 24 * 60 * 60 * 1000 in
      {| start := weekAgo;
         end' := today + 24 * 60 * 60 * 1000 - 1 |}
  | Month =>
      let monthAgo := today - 30 * 24 * 60 * 60 * 1000 in
      {| start := monthAgo;
         end' := today + 24 * 60 * 60 * 1000 - 1 |}
  end.

(** [new Date(reservation.createdAt)]; a missing [createdAt] gives an
    Invalid Date. *)
Definition createdDate (reservation : Reservation) : Js.Date :=
  match createdAt reservation with
  | Some text => Date_parse text
  | None => None
  end.

(** The filter callback. *)
Definition createdWithin (range : DateRange) (reservation : Reservation)
  : bool :=
  Js.Date_ge (createdDate reservation) (Some (start range))
  && Js.Date_le (createdDate reservation) (Some (end' range)).

(** The sort comparator, newest first.  A NaN result counts as zero. *)
Definition newestFirst (a b : Reservation) : Z :=
  match createdDate b, createdDate a with
  | Some tb, Some ta => tb - ta
  | _, _ => 0
  end.

Definition filteredReservations (reservations : list Reservation)
    (now : Z) (selectedPeriod : Period) : list Reservation :=
  let range := getDateRange now selectedPeriod in
  Js.sort newestFirst (filter (createdWithin range) reservations).

(** The counters of the [analytics] memo. *)
Definition totalReservations (reservations : list Reservation)
    (now : Z) (selectedPeriod : Period) : nat :=
  List.length (filteredReservations reservations now selectedPeriod).

Definition fullyPaidCount (reservations : list Reservation)
    (now : Z) (selectedPeriod : Period) : nat :=
  List.length
    (filter (fun res => depositPaidStatus res && restPaidStatus res)
            (filteredReservations reservations now selectedPeriod)).
End View.

End ReservationAnalytics.

(* ================================================================== *)
(** ** The inbound e-mail edge function *)
(* ================================================================== *)

Module InboundEmail.

(** A parsed JSON value. *)
#[local] Unset Elimination Schemes.
Inductive Json :=
| JNull
| JBool (b : bool)
| JNumber (x : float)
| JString (s : string)
| JArray (items : list Json)
| JObject (members : list (string * Json)).
#[local] Set Elimination Schemes.

(** One element of [attachments]. *)
Record Attachment := mkAttachment {
  filename : option string;
  content_type : option string;
  size : option Z;
  url : option string
}.

(** [emailData["message-headers"]]: a string, or an already-parsed value. *)
Inductive HeadersField :=
| HeadersText (s : string)
| HeadersValue (j : Json).

(** [interface InboundEmailPayload].  Every key may be missing from what
    the provider posts, so every key is optional here; [attachments] is
    [Some] only when the key holds an array. *)
Record InboundEmailPayload := mkPayload {
  sender : option string;
  from : option string;
  recipient : option string;
  subject : option string;
  body_plain : option string;
  body_html : option string;
  stripped_text : option string;
  stripped_html : option string;
  message_headers : option HeadersField;
  Message_Id : option string;
  timestamp : option string;
  attachments : option (list Attachment)
}.

(** [{} as InboundEmailPayload] *)
Definition emptyPayload : InboundEmailPayload :=
  mkPayload None None None None None None None None None None None None.

(** A form entry is a string or a file. *)
Inductive FormValue :=
| FormString (s : string)
| FormFile.

(** [emailData[key] = value] for a string [value].  Keys the handler
    never reads are dropped; a string under [attachments] is not an
    array, so that key stays without one. *)
Definition setKey (emailData : InboundEmailPayload) (key value : string)
  : InboundEmailPayload :=
  let e := emailData in
  let v := Some value in
  if String.eqb key "sender" then
    mkPayload v (from e) (recipient e) (subject e) (body_plain e) (body_html e)
      (stripped_text e) (stripped_html e) (message_headers e) (Message_Id e)
      (timestamp e) (attachments e)
  else if String.eqb key "from" then
    mkPayload (sender e) v (recipient e) (subject e) (body_plain e) (body_html e)
      (stripped_text e) (stripped_html e) (message_headers e) (Message_Id e)
      (timestamp e) (attachments e)
  else if String.eqb key "recipient" then
    mkPayload (sender e) (from e) v (subject e) (body_plain e) (body_html e)
      (stripped_text e) (stripped_html e) (message_headers e) (Message_Id e)
      (timestamp e) (attachments e)
  else if String.eqb key "subject" then
    mkPayload (sender e) (from e) (recipient e) v (body_plain e) (body_html e)
      (stripped_text e) (stripped_html e) (message_headers e) (Message_Id e)
      (timestamp e) (attachments e)
  else if String.eqb key "body-plain" then
    mkPayload (sender e) (from e) (recipient e) (subject e) v (body_html e)
      (stripped_text e) (stripped_html e) (message_headers e) (Message_Id e)
      (timestamp e) (attachments e)
  else if String.eqb key "body-html" then
    mkPayload (sender e) (from e) (recipient e) (subject e) (body_plain e) v
      (stripped_text e) (stripped_html e) (message_headers e) (Message_Id e)
      (timestamp e) (attachments e)
  else if String.eqb key "stripped-text" then
    mkPayload (sender e) (from e) (recipient e) (subject e) (body_plain e)
      (body_html e) v (stripped_html e) (message_headers e) (Message_Id e)
      (timestamp e) (attachments e)
  else if String.eqb key "stripped-html" then
    mkPayload (sender e) (from e) (recipient e) (subject e) (body_plain e)
      (body_html e) (stripped_text e) v (message_headers e) (Message_Id e)
      (timestamp e) (attachments e)
  else if String.eqb key "message-headers" then
    mkPayload (sender e) (from e) (recipient e) (subject e) (body_plain e)
      (body_html e) (stripped_text e) (stripped_html e)
      (Some (HeadersText value)) (Message_Id e) (timestamp e) (attachments e)
  else if String.eqb key "Message-Id" then
    mkPayload (sender e) (from e) (recipient e) (subject e) (body_plain e)
      (body_html e) (stripped_text e) (stripped_html e) (message_headers e)
      v (timestamp e) (attachments e)
  else if String.eqb key "timestamp" then
    mkPayload (sender e) (from e) (recipient e) (subject e) (body_plain e)
      (body_html e) (stripped_text e) (stripped_html e) (message_headers e)
      (Message_Id e) v (attachments e)
  else if String.eqb key "attachments" then
    mkPayload (sender e) (from e) (recipient e) (subject e) (body_plain e)
      (body_html e) (stripped_text e) (stripped_html e) (message_headers e)
      (Message_Id e) (timestamp e) None
  else e.

(** The loop over [formData.entries()]. *)
Fixpoint readForm (entries : list (string * FormValue))
    (emailData : InboundEmailPayload) : InboundEmailPayload :=
  match entries with
  | [] => emailData
  | (key, FormString value) :: rest => readForm rest (setKey emailData key value)
  | (_, FormFile) :: rest => readForm rest emailData
  end.

(** The incoming [Request]: its method, its [content-type] header, and
    what the two body readers settle to ([inl] is a rejection). *)
Record Request := mkRequest {
  method : string;
  content_type_header : option string;
  json : Js.Error + InboundEmailPayload;
  formData : Js.Error + list (string * FormValue)
}.

(** [Deno.env] *)
Record Env := mkEnv {
  SUPABASE_URL : option string;
  SUPABASE_SERVICE_ROLE_KEY : option string
}.

(** What the two clock reads of one invocation return. *)
Record Clock := mkClock {
  Date_now : Z;    (* [Date.now()] when the message id is built *)
  new_Date : Z     (* [new Date()] when [received_at] is built  *)
}.

(** The object given to [.from("emails").insert]. *)
Record EmailInsert := mkEmailInsert {
  message_id : string;
  from_address : string;
  from_name : string;
  to_addresses : list string;
  subject' : string;
  body_text : string;
  body_html' : string;
  headers : option Json;
  is_read : bool;
  is_archived : bool;
  direction : string;
  received_at : string
}.

(** The row handed back by [.select().single()]. *)
Record Email := mkEmail { id : string; fields : EmailInsert }.

(** The object given to [.from("email_attachments").insert]. *)
Record AttachmentInsert := mkAttachmentInsert {
  email_id : string;
  filename' : string;
  content_type' : string;
  size_bytes : Z;
  storage_path : string
}.

(** The body of a [Response], before [JSON.stringify]. *)
Inductive Envelope :=
| NoBody
| Success (emailId : string) (message : string)
| Failure (error : string).

Record Response := mkResponse { status : Z; body : Envelope }.

(** The two tables behind the service-role client. *)
Record Supabase := mkSupabase {
  table : Type;
  insertEmail : EmailInsert -> table -> Settled Email * table;
  insertAttachment : AttachmentInsert -> table -> Settled unit * table
}.

(** One request sent to the database, with how it settled. *)
Inductive Event :=
| EmailInsertion (row : EmailInsert) (answer : Settled Email)
| AttachmentInsertion (row : AttachmentInsert) (answer : Settled unit).

Section Handler.
Variable supabase : Supabase.

(** [JSON.parse]; [None] is a thrown SyntaxError. *)
Variable JSON_parse : string -> option Json.
(** [parseInt]; [None] is NaN. *)
Variable parseInt : string -> option Z.
(** [Date.prototype.toISOString] on a valid time value. *)
Variable toISOString : Z -> string.

(** The console, the remote tables, and the requests sent so far. *)
Record World := mkWorld {
  console : list Js.ConsoleLine;
  db : table supabase;
  sent : list Event
}.

Definition console_write (l : Js.Level) (text : string) : M World unit :=
  modify (fun w =>
    {| console := console w ++ [Js.mkLine l text];
       db := db w;
       sent := sent w |}).

(** [const { data, error } = await request]: a rejected promise throws
    at the [await]. *)
Definition await {A : Type}
    (request : table supabase -> Settled A * table supabase)
    (event : Settled A -> Event)
  : M World (A + Js.Error) :=
  fun w =>
    let (settled, t') := request (db w) in
    let w' := {| console := console w;
                 db := t';
                 sent := sent w ++ [event settled] |} in
    match settled with
    | Data a => (Normal (inl a), w')
    | Failed error => (Normal (inr error), w')
    | Rejected e => (Throw e, w')
    end.

(** [await req.json()] and [await req.formData()] *)
Definition awaitBody {A : Type} (settled : Js.Error + A) : M World A :=
  match settled with
  | inl e => throw e
  | inr a => ret a
  end.

(** [emailData["Message-Id"] || emailData.sender + "-" + Date.now()] *)
Definition messageId (emailData : InboundEmailPayload) (clock : Clock)
  : string :=
  Js.orElse (Message_Id emailData)
    (Js.strOf (sender emailData) ++ "-" ++ Js.toString (Date_now clock)).

(** [emailData.sender || emailData.from || "unknown@sender.com"] *)
Definition fromAddress (emailData : InboundEmailPayload) : string :=
  Js.orElse (Js.orOpt (sender emailData) (from emailData))
            "unknown@sender.com".

(** [emailData.recipient ? [emailData.recipient] : []] *)
Definition toAddresses (emailData : InboundEmailPayload) : list string :=
  match recipient emailData with
  | Some r => if Js.truthy r then [r] else []
  | None => []
  end.

(** A JSON value in boolean position. *)
Definition jsonTruthy (j : Json) : bool :=
  match j with
  | JNull => false
  | JBool b => b
  | JNumber x => negb (PrimFloat.eqb x 0%float || PrimFloat.is_nan x)
  | JString s => Js.truthy s
  | JArray _ => true
  | JObject _ => true
  end.

(** The [let headers = null; if (...) { try {...} catch {...} }] block. *)
Definition parseHeaders (emailData : InboundEmailPayload)
  : M World (option Json) :=
  match message_headers emailData with
  | Some (HeadersText s) =>
      if Js.truthy s then
        match JSON_parse s with
        | Some j => ret (Some j)
        | None =>
            console_write Js.warn "Could not parse message headers" ;;;
            ret None
        end
      else ret None
  | Some (HeadersValue j) =>
      if jsonTruthy j then ret (Some j) else ret None
  | None => ret None
  end.

(** Largest magnitude of a valid time value. *)
Definition maxTime : Z := 8640000000000000.

(** The [received_at] expression.  [toISOString] throws a RangeError on
    an Invalid Date. *)
Definition receivedAt (emailData : InboundEmailPayload) (clock : Clock)
  : M World string :=
  match timestamp emailData with
  | Some ts =>
      if Js.truthy ts then
        match parseInt ts with
        | Some n =>
            if Z.abs (n * 1000) <=? maxTime
            then ret (toISOString (n * 1000))
            else throw (Js.mkError "Invalid time value")
        | None => throw (Js.mkError "Invalid time value")
        end
      else ret (toISOString (new_Date clock))
  | None => ret (toISOString (new_Date clock))
  end.

(** The object literal of the [emails] insert. *)
Definition emailRow (emailData : InboundEmailPayload) (clock : Clock)
    (headers : option Json) (received : string) : EmailInsert :=
  {| message_id := messageId emailData clock;
     from_address := fromAddress emailData;
     from_name := Js.orElse (from emailData) (fromAddress emailData);
     to_addresses := toAddresses emailData;
     subject' := Js.orElse (subject emailData) "(No Subject)";
     body_text :=
       Js.orElse (Js.orOpt (stripped_text emailData) (body_plain emailData))
                 EmptyString;
     body_html' :=
       Js.orElse (Js.orOpt (stripped_html emailData) (body_html emailData))
                 EmptyString;
     headers := headers;
     is_read := false;
     is_archived := false;
     direction := "inbound";
     received_at := received |}.

(** The object literal of one [email_attachments] insert. *)
Definition attachmentRow (email : Email) (attachment : Attachment)
  : AttachmentInsert :=
  {| email_id := id email;
     filename' := Js.orElse (filename attachment) "unknown";
     content_type' :=
       Js.orElse (content_type attachment) "application/octet-stream";
     size_bytes :=
       match size attachment with
       | Some n => n
       | None => 0
       end;
     storage_path := Js.orElse (url attachment) EmptyString |}.

(** The body of the [for ... of] loop over the attachments. *)
Definition storeAttachment (email : Email) (attachment : Attachment)
  : M World unit :=
  tryCatch
    (response <- await (insertAttachment supabase (attachmentRow email attachment))
                       (AttachmentInsertion (attachmentRow email attachment)) ;;
     match response with
     | inr attachmentError =>
         console_write Js.error "Error inserting attachment:"
     | inl _ => ret tt
     end)
    (fun attachmentErr =>
       console_write Js.error "Error processing attachment:").

(** The [content-type] dispatch that fills [emailData]. *)
Definition readBody (req : Request) : M World InboundEmailPayload :=
  let contentType := Js.orElse (content_type_header req) EmptyString in
  if Js.includes contentType "application/json" then
    awaitBody (json req)
  else if Js.includes contentType "multipart/form-data"
          || Js.includes contentType "application/x-www-form-urlencoded" then
    entries <- awaitBody (formData req) ;;
    ret (readForm entries emptyPayload)
  else throw (Js.mkError "Unsupported content type").

(** The [try] block of the handler. *)
Definition process (env : Env) (clock : Clock) (req : Request)
  : M World Response :=
  (if Js.truthyOpt (SUPABASE_URL env)
      && Js.truthyOpt (SUPABASE_SERVICE_ROLE_KEY env)
   then ret tt
   else throw (Js.mkError "Missing Supabase configuration")) ;;;
  emailData <- readBody req ;;
  console_write Js.log "Received email data:" ;;;
  headers <- parseHeaders emailData ;;
  received <- receivedAt emailData clock ;;
  response <- await (insertEmail supabase (emailRow emailData clock headers received))
                    (EmailInsertion (emailRow emailData clock headers received)) ;;
  match response with
  | inr emailError =>
      console_write Js.error "Error inserting email:" ;;;
      throw emailError
  | inl email =>
      console_write Js.log "Email inserted successfully:" ;;;
      match attachments emailData with
      | Some (first :: others) =>
          console_write Js.log
            ("Processing "
             ++ Js.toString (Z.of_nat (List.length (first :: others)))
             ++ " attachments") ;;;
          forOf (first :: others) (storeAttachment email)
      | _ => ret tt
      end ;;;
      ret {| status := 200;
             body := Success (id email) "Email processed successfully" |}
  end.

(** The function given to [Deno.serve]. *)
Definition handler (env : Env) (clock : Clock) (req : Request)
  : M World Response :=
  if String.eqb (method req) "OPTIONS" then
    ret {| status := 200; body := NoBody |}
  else
    tryCatch (process env clock req)
      (fun error =>
         console_write Js.error "Error processing email webhook:" ;;;
         ret {| status := 500;
                body := Failure (Js.orElse (Some (Js.message error))
                                           "Unknown error") |}).
End Handler.

Arguments console {supabase} w.
Arguments db {supabase} w.
Arguments sent {supabase} w.
Arguments mkWorld {supabase} console db sent.

End InboundEmail.

(* ================================================================== *)
(** ** A reference host and sample data, for running the model *)
(* ================================================================== *)

Module Host.
Import DataContext.

Definition DAY : Z := 24 * 60 * 60 * 1000.

Definition digit (c : ascii) : option Z :=
  let n := nat_of_ascii c in
  if (48 <=? n)%nat && (n <=? 57)%nat then Some (Z.of_nat (n - 48)) else None.

(** Reads exactly [n] decimal digits from the front of [s]. *)
Fixpoint digits (n : nat) (s : string) (acc : Z) : option (Z * string) :=
  match n with
  | O => Some (acc, s)
  | S n' =>
      match s with
      | EmptyString => None
      | String c s' =>
          match digit c with
          | Some d => digits n' s' (10 * acc + d)
          | None => None
          end
      end
  end.

(** Days between 1970-01-01 and the given proleptic Gregorian date. *)
Definition daysFromCivil (y m d : Z) : Z :=
  let y' := if m <=? 2 then y - 1 else y in
  let era := y' / 400 in
  let yoe := y' - era * 400 in
  let mp := if 2 <? m then m - 3 else m + 9 in
  let doy := (153 * mp + 2) / 5 + d - 1 in
  let doe := yoe * 365 + yoe / 4 - yoe / 100 + doy in
  era * 146097 + doe - 719468.

(** The digits of a fraction of a second, as milliseconds: the first
    three digits count, further ones are dropped. *)
Fixpoint fraction (s : string) (scale acc : Z) : Z * string :=
  match s with
  | EmptyString => (acc, s)
  | String c s' =>
      match digit c with
      | Some d => fraction s' (scale / 10) (acc + d * scale)
      | None => (acc, s)
      end
  end.

(** [HH:mm], [HH:mm:ss] or [HH:mm:ss.sss] at the front of [s], as
    milliseconds since midnight; 24:00:00 is the end of the day. *)
Definition clockTime (s : string) : option (Z * string) :=
  match digits 2 s 0 with
  | Some (hh, String ":" s1) =>
      match digits 2 s1 0 with
      | Some (mm, String ":" s2) =>
          match digits 2 s2 0 with
          | Some (ss, rest) =>
              let (ms, rest') :=
                match rest with
                | String "." (String c s3) =>
                    match digit c with
                    | Some _ => fraction (String c s3) 100 0
                    | None => (0, rest)
                    end
                | _ => (0, rest)
                end in
              if ((hh <? 24) && (mm <? 60) && (ss <? 60))
                 || ((hh =? 24) && (mm =? 0) && (ss =? 0) && (ms =? 0))
              then Some (((hh * 60 + mm) * 60 + ss) * 1000 + ms, rest')
              else None
          | None => None
          end
      | Some (mm, rest) =>
          if ((hh <? 24) && (mm <? 60)) || ((hh =? 24) && (mm =? 0))
          then Some ((hh * 60 + mm) * 60000, rest)
          else None
      | None => None
      end
  | _ => None
  end.

(** The UTC offset that ends a date-time, in milliseconds: [Z], [+HH:mm]
    or [-HH:mm].  A date-time without one is a local time, which for this
    host, whose zone is UTC, is the same. *)
Definition utcOffset (s : string) : option Z :=
  match s with
  | EmptyString => Some 0
  | String "Z" EmptyString => Some 0
  | String sign s1 =>
      match digits 2 s1 0 with
      | Some (hh, String ":" s2) =>
          match digits 2 s2 0 with
          | Some (mm, EmptyString) =>
              if (hh <? 24) && (mm <? 60) then
                if Ascii.eqb sign "+" then Some ((hh * 60 + mm) * 60000)
                else if Ascii.eqb sign "-" then Some (- ((hh * 60 + mm) * 60000))
                else None
              else None
          | _ => None
          end
      | _ => None
      end
  end.

(** [new Date(text)] for the date-time string format of the language
    ([YYYY-MM-DD], optionally followed by [T], a time of day and a UTC
    offset), as a browser whose zone is UTC reads it.  Texts in other
    forms, which each runtime reads in its own way, are an Invalid Date
    here. *)
Definition isoDate (text : string) : Js.Date :=
  match digits 4 text 0 with
  | Some (y, String "-" s1) =>
      match digits 2 s1 0 with
      | Some (m, String "-" s2) =>
          match digits 2 s2 0 with
          | Some (d, rest) =>
              if (1 <=? m) && (m <=? 12) && (1 <=? d) && (d <=? 31) then
                let day := daysFromCivil y m d * DAY in
                match rest with
                | EmptyString => Some day
                | String "T" s3 =>
                    match clockTime s3 with
                    | Some (time, s4) =>
                        match utcOffset s4 with
                        | Some offset => Some (day + time - offset)
                        | None => None
                        end
                    | None => None
                    end
                | _ => None
                end
              else None
          | None => None
          end
      | _ => None
      end
  | _ => None
  end.

(** A reachable database that accepts every write. *)
Definition stored (d : Draft.t) (n : nat) : Reservation :=
  {| id := "res-" ++ Js.toString (Z.of_nat n);
     reservationNumber := Draft.reservationNumber d;
     firstName := Draft.firstName d;
     lastName := Draft.lastName d;
     phone := Draft.phone d;
     appointmentDate := Draft.appointmentDate d;
     appointmentTime := Draft.appointmentTime d;
     totalPrice := Draft.totalPrice d;
     depositPaid := Draft.depositPaid d;
     isPaid := Draft.isPaid d;
     depositPaidStatus := Draft.depositPaidStatus d;
     restPaidStatus := Draft.restPaidStatus d;
     designImages := Draft.designImages d;
     notes := Draft.notes d;
     artistId := Draft.artistId d;
     createdAt := Some "2025-10-02T16:55:05Z" |}.

Definition online : Supabase :=
  {| table := list Reservation;
     insert := fun d t =>
       let row := stored d (List.length t) in (Data row, row :: t);
     update := fun u i t =>
       (Data tt,
        map (fun r => if String.eqb (id r) i then spread r u else r) t);
     delete := fun i t =>
       (Data tt, filter (fun r => negb (String.eqb (id r) i)) t) |}.

(** A database that answers every write with a permission error. *)
Definition denied : Js.Error :=
  Js.mkError "new row violates row-level security policy".

Definition readOnly : Supabase :=
  {| table := unit;
     insert := fun _ t => (Failed denied, t);
     update := fun _ _ t => (Failed denied, t);
     delete := fun _ t => (Failed denied, t) |}.

(** A database whose rows can be added and edited but never deleted. *)
Definition archive : Supabase :=
  {| table := list Reservation;
     insert := fun d t =>
       let row := stored d (List.length t) in (Data row, row :: t);
     update := fun u i t =>
       (Data tt,
        map (fun r => if String.eqb (id r) i then spread r u else r) t);
     delete := fun _ t => (Failed denied, t) |}.

(** No network: every request rejects. *)
Definition unreachable : Js.Error := Js.mkError "Failed to fetch".

Definition offline : Supabase :=
  {| table := unit;
     insert := fun _ t => (Rejected unreachable, t);
     update := fun _ _ t => (Rejected unreachable, t);
     delete := fun _ t => (Rejected unreachable, t) |}.

(** Sample reservations. *)
Definition anna : Reservation :=
  {| id := "a1";
     reservationNumber := 1042;
     firstName := "Anna";
     lastName := "de Vries";
     phone := "+31 20 555 0101 ext 7";
     appointmentDate := "2025-10-03";
     appointmentTime := "14:00";
     totalPrice := 250%float;
     depositPaid := 50%float;
     isPaid := false;
     depositPaidStatus := true;
     restPaidStatus := false;
     designImages := None;
     notes := None;
     artistId := Some "staff-2";
     createdAt := Some "2025-10-02T16:55:05Z" |}.

Definition bram : Reservation :=
  {| id := "b2";
     reservationNumber := 1043;
     firstName := "Bram";
     lastName := "Jansen";
     phone := "0612345678";
     appointmentDate := "2025-10-10";
     appointmentTime := "11:30";
     totalPrice := 120%float;
     depositPaid := 20%float;
     isPaid := true;
     depositPaidStatus := true;
     restPaidStatus := true;
     designImages := Some [];
     notes := Some "forearm";
     artistId := None;
     createdAt := Some "2025-09-30T09:00:00Z" |}.

Definition walkIn : Draft.t :=
  {| Draft.reservationNumber := 1044;
     Draft.firstName := "Cato";
     Draft.lastName := "Bakker";
     Draft.phone := "0687654321";
     Draft.appointmentDate := "2025-10-04";
     Draft.appointmentTime := "10:00";
     Draft.totalPrice := 80%float;
     Draft.depositPaid := 0%float;
     Draft.isPaid := false;
     Draft.depositPaidStatus := false;
     Draft.restPaidStatus := false;
     Draft.designImages := None;
     Draft.notes := None;
     Draft.artistId := None |}.

(** [x.toFixed(2)].  A number that is not finite, or of magnitude 10^21
    or more, is printed by [Number::toString], which is left to
    [large]. *)
Definition toFixed2 (large : float -> string) (x : float) : string :=
  match Js.exact x with
  | Some q =>
      if Qle_bool (inject_Z (10 ^ 21)) (Qabs q) then large x else Js.fixed2 q
  | None => large x
  end.



(** A browser whose zone is UTC, and one on Central European time in the
    autumn of 2025: two hours ahead of UTC until 26 October 2025 at
    01:00 UTC (03:00 on the local clock), one hour ahead from then on.  A
    local time that the clock shows twice is read as the earlier one. *)
Definition utc : Js.TimeZone :=
  {| Js.offsetAt := fun _ => 0; Js.offsetOfLocal := fun _ => 0 |}.



(** Entered on Sunday 26 October 2025 at 00:30 on the local clock of
    [amsterdam], for an appointment a week later. *)
Definition nightOwl : Reservation :=
  {| id := "c3";
     reservationNumber := 1045;
     firstName := "Émile";
     lastName := "Özdemir";
     phone := "0611223344";
     appointmentDate := "2025-11-02";
     appointmentTime := "15:00";
     totalPrice := 300%float;
     depositPaid := 100%float;
     isPaid := false;
     depositPaidStatus := true;
     restPaidStatus := false;
     designImages := None;
     notes := None;
     artistId := None;
     createdAt := Some "2025-10-26T00:30:00+02:00" |}.


(** 2025-10-02T18:30:00Z in milliseconds. *)
Definition evening : Z := 1759429800000.

End Host.

(* ================================================================== *)
(** ** Vocabulary of the properties *)
(* ================================================================== *)

Module Wording.
Import DataContext.

(** Text made of scalar values, without the capital sigma, whose small
    form depends on what stands around it, and without the capital I with
    dot above, whose small form is two characters. *)
Definition ordinary (s : string) : bool :=
  forallb (fun p => Js.scalar p && Text.plainPoint p) (Js.codePoints s).

(** Two characters are the same letter, case apart: they have the same
    small form. *)
Definition SameLetter (a b : Z) : Prop := Js.lowerOf a = Js.lowerOf b.

(** The query occurs in the text letter for letter, case apart: some
    stretch of the text's characters has, position by position, the same
    letters as the query. *)
Definition OccursIgnoringCase (q s : string) : Prop :=
  exists before middle after,
    Js.codePoints s = (before ++ middle ++ after)%list
    /\ Forall2 SameLetter (Js.codePoints q) middle.

(** The search criterion with every field compared without regard to
    case. *)
Definition MatchesAllFolded (q : string) (r : Reservation) : Prop :=
  SubstringNoCase q (Js.toString (reservationNumber r))
  \/ SubstringNoCase q (firstName r)
  \/ SubstringNoCase q (lastName r)
  \/ SubstringNoCase q (phone r).

(** The same criterion with the phone compared as typed. *)
Definition MatchesPhoneExact (q : string) (r : Reservation) : Prop :=
  SubstringNoCase q (Js.toString (reservationNumber r))
  \/ SubstringNoCase q (firstName r)
  \/ SubstringNoCase q (lastName r)
  \/ Substring q (phone r).

(** That criterion read letter for letter. *)
Definition MatchesLetterForLetter (q : string) (r : Reservation) : Prop :=
  OccursIgnoringCase q (Js.toString (reservationNumber r))
  \/ OccursIgnoringCase q (firstName r)
  \/ OccursIgnoringCase q (lastName r)
  \/ Substring q (phone r).

(** The appointment date and the two bounds of the date filter are
    dates, and the appointment lies between the bounds, both included. *)
Definition InDateRange (Date_parse : string -> Js.Date)
    (dateFilter : ViewReservations.DateFilter) (r : Reservation) : Prop :=
  exists t from to,
    Date_parse (appointmentDate r) = Some t
    /\ Date_parse (ViewReservations.start dateFilter) = Some from
    /\ Date_parse (ViewReservations.end' dateFilter) = Some to
    /\ from <= t <= to.



Definition before (today : Z) (p : ReservationAnalytics.Period) : Z :=
  match p with
  | ReservationAnalytics.Yesterday => today
  | _ => today + Host.DAY
  end.











End Wording.

(** Writes to the reservation collection, and the words used to describe
    their effect. *)
Module Writes.
Import DataContext.

(** A create, an update or a delete. *)
Inductive Write :=
| Create (reservation : Draft.t)
| Update (id' : string) (updates : Partial.t)
| Delete (id' : string).

(** The context method a write goes through. *)
Definition perform (supabase : Supabase) (wr : Write)
  : M (World supabase) unit :=
  match wr with
  | Create reservation => addReservation supabase reservation
  | Update id' updates => updateReservation supabase id' updates
  | Delete id' => deleteReservation supabase id'
  end.

(** The one database request a write stands for, with its payload
    forgotten. *)
Definition request (supabase : Supabase) (wr : Write) (t : table supabase)
  : Settled unit * table supabase :=
  match wr with
  | Create reservation =>
      match insert supabase reservation t with
      | (Data _, t') => (Data tt, t')
      | (Failed e, t') => (Failed e, t')
      | (Rejected e, t') => (Rejected e, t')
      end
  | Update id' updates => update supabase updates id' t
  | Delete id' => delete supabase id' t
  end.

(** The persistence layer did not carry the write out, and said [e]. *)
Definition failsWith (supabase : Supabase) (wr : Write) (t : table supabase)
    (e : Js.Error) : Prop :=
  fst (request supabase wr t) = Failed e
  \/ fst (request supabase wr t) = Rejected e.

(** One field after a merge: the supplied value when the update names
    the field, the old value when it does not. *)
Definition suppliedOrKept {A : Type} (old : A) (upd : option A) (new : A)
  : Prop :=
  match upd with
  | Some v => new = v
  | None => new = old
  end.

(** [res'] is [res] with exactly the fields named in [u] replaced. *)
Definition MergedExactly (res : Reservation) (u : Partial.t)
    (res' : Reservation) : Prop :=
  suppliedOrKept (id res) (Partial.id u) (id res')
  /\ suppliedOrKept (reservationNumber res) (Partial.reservationNumber u)
                    (reservationNumber res')
  /\ suppliedOrKept (firstName res) (Partial.firstName u) (firstName res')
  /\ suppliedOrKept (lastName res) (Partial.lastName u) (lastName res')
  /\ suppliedOrKept (phone res) (Partial.phone u) (phone res')
  /\ suppliedOrKept (appointmentDate res) (Partial.appointmentDate u)
                    (appointmentDate res')
  /\ suppliedOrKept (appointmentTime res) (Partial.appointmentTime u)
                    (appointmentTime res')
  /\ suppliedOrKept (totalPrice res) (Partial.totalPrice u) (totalPrice res')
  /\ suppliedOrKept (depositPaid res) (Partial.depositPaid u) (depositPaid res')
  /\ suppliedOrKept (isPaid res) (Partial.isPaid u) (isPaid res')
  /\ suppliedOrKept (depositPaidStatus res) (Partial.depositPaidStatus u)
                    (depositPaidStatus res')
  /\ suppliedOrKept (restPaidStatus res) (Partial.restPaidStatus u)
                    (restPaidStatus res')
  /\ suppliedOrKept (designImages res) (Partial.designImages u)
                    (designImages res')
  /\ suppliedOrKept (notes res) (Partial.notes u) (notes res')
  /\ suppliedOrKept (artistId res) (Partial.artistId u) (artistId res')
  /\ suppliedOrKept (createdAt res) (Partial.createdAt u) (createdAt res').

(** An edit of the phone and the artist, as the edit form sends it. *)
Definition phoneEdit : Partial.t :=
  {| Partial.id := None;
     Partial.reservationNumber := None;
     Partial.firstName := None;
     Partial.lastName := None;
     Partial.phone := Some "0611111111";
     Partial.appointmentDate := None;
     Partial.appointmentTime := None;
     Partial.totalPrice := None;
     Partial.depositPaid := None;
     Partial.isPaid := None;
     Partial.depositPaidStatus := None;
     Partial.restPaidStatus := None;
     Partial.designImages := None;
     Partial.notes := None;
     Partial.artistId := Some None;
     Partial.createdAt := None |}.

(** A session with two reservations loaded. *)
Definition loaded (supabase : Supabase) (t : table supabase)
  : World supabase :=
  {| reservations := [Host.anna; Host.bram]; console := []; db := t |}.

End Writes.

(** The words used to describe the inbound e-mail hook, and a sample
    invocation. *)
Module Ingest.
Import InboundEmail.

(** The e-mail rows among the requests sent, and the attachment rows with
    their answers. *)
Definition emailRows (sent : list Event) : list EmailInsert :=
  flat_map (fun ev =>
              match ev with
              | EmailInsertion row _ => [row]
              | AttachmentInsertion _ _ => []
              end) sent.

Definition attachmentRows (sent : list Event) : list AttachmentInsert :=
  flat_map (fun ev =>
              match ev with
              | EmailInsertion _ _ => []
              | AttachmentInsertion row _ => [row]
              end) sent.

Definition attachmentAnswers (sent : list Event) : list (Settled unit) :=
  flat_map (fun ev =>
              match ev with
              | EmailInsertion _ _ => []
              | AttachmentInsertion _ answer => [answer]
              end) sent.

(** An attachment insert failed when it did not settle with data. *)
Definition failed (answer : Settled unit) : bool :=
  match answer with
  | Data _ => false
  | _ => true
  end.

(** What the attachment loop writes to the console for one answer. *)
Definition lineFor (answer : Settled unit) : list Js.ConsoleLine :=
  match answer with
  | Data _ => []
  | Failed _ => [Js.mkLine Js.error "Error inserting attachment:"]
  | Rejected _ => [Js.mkLine Js.error "Error processing attachment:"]
  end.

(** The requests of the attachment loop: one per attachment, in order. *)
Definition attachmentEvents (email : Email) (atts : list Attachment)
    (answers : list (Settled unit)) : list Event :=
  map (fun p => AttachmentInsertion (attachmentRow email (fst p)) (snd p))
      (combine atts answers).

(** Lines written with [console.error]. *)
Definition isError (l : Js.ConsoleLine) : bool :=
  match Js.level l with
  | Js.error => true
  | _ => false
  end.

(** The array the attachment loop runs over. *)
Definition attachmentsOf (emailData : InboundEmailPayload)
  : list Attachment :=
  match attachments emailData with
  | Some l => l
  | None => []
  end.

(** A payload without a usable [Message-Id]. *)
Definition headerless (emailData : InboundEmailPayload) : Prop :=
  Message_Id emailData = None \/ Message_Id emailData = Some EmptyString.

(** The invariant of a written e-mail row, relative to the payload it
    was built from. *)
Definition RowInvariant (emailData : InboundEmailPayload)
    (row : EmailInsert) : Prop :=
  direction row = "inbound"
  /\ is_read row = false
  /\ is_archived row = false
  /\ (subject emailData = None -> subject' row = "(No Subject)")
  /\ (sender emailData = None -> from emailData = None ->
      from_address row = "unknown@sender.com").

(** A mail store that takes every e-mail, and refuses attachments with
    no file name (error response) or no storage URL (rejected request). *)
Definition mailbox : Supabase :=
  {| table := list EmailInsert * list AttachmentInsert;
     insertEmail := fun row t =>
       (Data (mkEmail ("mail-" ++ Js.toString (Z.of_nat (List.length (fst t)))) row),
        ((fst t ++ [row])%list, snd t));
     insertAttachment := fun row t =>
       if String.eqb (filename' row) "unknown"
       then (Failed (Js.mkError "null value in column filename"), t)
       else if String.eqb (storage_path row) EmptyString
       then (Rejected (Js.mkError "connection reset"), t)
       else (Data tt, (fst t, (snd t ++ [row])%list)) |}.

(** A posted message with three attachments, two of them unusable. *)
Definition letter : InboundEmailPayload :=
  {| sender := Some "a@b.com";
     from := Some "Ann <a@b.com>";
     recipient := Some "studio@example.com";
     subject := None;
     body_plain := Some "hello";
     body_html := None;
     stripped_text := None;
     stripped_html := None;
     message_headers := None;
     Message_Id := None;
     timestamp := None;
     attachments :=
       Some [mkAttachment (Some "sketch.png") (Some "image/png") (Some 2048)
                          (Some "https://files.example.com/1");
             mkAttachment None None None (Some "https://files.example.com/2");
             mkAttachment (Some "ref.jpg") None (Some 10) None] |}.

(** The same message posted with a [Message-Id] key that is empty. *)
Definition blankHeader : InboundEmailPayload :=
  {| sender := Some "a@b.com";
     from := Some "Ann <a@b.com>";
     recipient := Some "studio@example.com";
     subject := None;
     body_plain := Some "hello";
     body_html := None;
     stripped_text := None;
     stripped_html := None;
     message_headers := None;
     Message_Id := Some EmptyString;
     timestamp := None;
     attachments := None |}.

Definition post : Request :=
  {| method := "POST";
     content_type_header := Some "application/json; charset=utf-8";
     json := inr letter;
     formData := inl (Js.mkError "body already consumed") |}.

Definition env : Env :=
  {| SUPABASE_URL := Some "https://project.example.co";
     SUPABASE_SERVICE_ROLE_KEY := Some "service-role-key" |}.

Definition clock : Clock :=
  {| Date_now := 1759429800000; new_Date := 1759429800001 |}.

Definition fresh : World mailbox :=
  @mkWorld mailbox [] ([], []) [].

(** Host functions for running the sample: no header parsing, no
    timestamp parsing, and the time value printed as a number. *)
Definition noJson (s : string) : option Json := None.
Definition noInt (s : string) : option Z := None.
Definition printTime (t : Z) : string := Js.toString t.

End Ingest.

(* ================================================================== *)
(** ** context/DataContext.tsx: staff and reads *)
(* ================================================================== *)

Module DataReads.
Import DataContext.

(** [interface Staff] *)
Module Staff.
Record t := make {
  id : string;
  name : string;
  email : string;
  role : string;
  permissions : list string
}.
End Staff.

Section Reads.
Variable supabase : Supabase.

(** [.from('reservations').select('*').order('created_at', { ascending:
    false })]: the rows, or [null] for [data]. *)
Variable selectReservations :
  table supabase -> Settled (option (list Reservation)) * table supabase.

Definition fetchReservations : M (World supabase) unit :=
  tryCatch
    (response <- await supabase selectReservations ;;
     match response with
     | inr error => throw error
     | inl data =>
         setReservations supabase (fun _ =>
           match data with
           | Some rows => rows
           | None => []
           end)
     end)
    (fun error => console_error supabase "Error fetching reservations:").

Definition refreshReservations : M (World supabase) unit :=
  fetchReservations.
End Reads.

(** [staff.filter(member => member.role === 'artist')] *)
Definition getArtists (staff : list Staff.t) : list Staff.t :=
  filter (fun member => String.eqb (Staff.role member) "artist") staff.

(** [getArtistName] of the two reservation tables. *)
Definition getArtistName (staff : list Staff.t) (artistId : option string)
  : string :=
  if Js.truthyOpt artistId then
    match find (fun s => String.eqb (Staff.id s) (Js.strOf artistId)) staff with
    | Some artist => Js.orElse (Some (Staff.name artist)) "Not assigned"
    | None => "Not assigned"
    end
  else "Not assigned".

End DataReads.

(* ================================================================== *)
(** ** components/ViewReservations.tsx: the row handlers *)
(* ================================================================== *)

Module RowHandlers.
Import DataContext.

(** The [editFormData] state: every input is text. *)
Record EditFormData := mkForm {
  firstName : string;
  lastName : string;
  phone : string;
  appointmentDate : string;
  appointmentTime : string;
  totalPrice : string;
  depositPaid : string;
  notes : string;
  artistId : string
}.

Definition blankForm : EditFormData :=
  mkForm EmptyString EmptyString EmptyString EmptyString EmptyString
         EmptyString EmptyString EmptyString EmptyString.

(** The component state the handlers touch, and the alerts shown. *)
Record View := mkView {
  editingReservation : option string;
  editFormData : EditFormData;
  alerts : list string
}.

Section Handlers.
Variable supabase : Supabase.
(** [parseFloat] and [Number.prototype.toString] on a price. *)
Variable parseFloat : string -> float.
Variable Number_toString : float -> string.

Definition handleStatusToggle (reservationId : string) (isPaid : bool)
  : M (World supabase) unit :=
  updateReservation supabase reservationId
    {| Partial.id := None;
       Partial.reservationNumber := None;
       Partial.firstName := None;
       Partial.lastName := None;
       Partial.phone := None;
       Partial.appointmentDate := None;
       Partial.appointmentTime := None;
       Partial.totalPrice := None;
       Partial.depositPaid := None;
       Partial.isPaid := Some isPaid;
       Partial.depositPaidStatus := None;
       Partial.restPaidStatus := None;
       Partial.designImages := None;
       Partial.notes := None;
       Partial.artistId := None;
       Partial.createdAt := None |}.

(** [handleDelete]; [confirmed] is the answer of [window.confirm].  The
    delete is started and not awaited, so the handler returns normally
    whatever becomes of it. *)
Definition handleDelete (confirmed : bool) (reservationId : string)
  : M (World supabase) unit :=
  if confirmed then
    fun w => (Normal tt, snd (deleteReservation supabase reservationId w))
  else ret tt.

Definition handleEdit (reservation : Reservation) (v : View) : View :=
  {| editingReservation := Some (id reservation);
     editFormData :=
       {| firstName := DataContext.firstName reservation;
          lastName := DataContext.lastName reservation;
          phone := DataContext.phone reservation;
          appointmentDate := DataContext.appointmentDate reservation;
          appointmentTime := DataContext.appointmentTime reservation;
          totalPrice := Number_toString (DataContext.totalPrice reservation);
          depositPaid := Number_toString (DataContext.depositPaid reservation);
          notes := Js.orElse (DataContext.notes reservation) EmptyString;
          artistId := Js.orElse (DataContext.artistId reservation) EmptyString |};
     alerts := alerts v |}.

(** The object literal [handleSaveEdit] passes to [updateReservation]. *)
Definition editUpdates (f : EditFormData) : Partial.t :=
  {| Partial.id := None;
     Partial.reservationNumber := None;
     Partial.firstName := Some (firstName f);
     Partial.lastName := Some (lastName f);
     Partial.phone := Some (phone f);
     Partial.appointmentDate := Some (appointmentDate f);
     Partial.appointmentTime := Some (appointmentTime f);
     Partial.totalPrice := Some (parseFloat (totalPrice f));
     Partial.depositPaid := Some (parseFloat (depositPaid f));
     Partial.isPaid := None;
     Partial.depositPaidStatus := None;
     Partial.restPaidStatus := None;
     Partial.designImages := None;
     Partial.notes := Some (Some (notes f));
     Partial.artistId :=
       Some (if Js.truthy (artistId f) then Some (artistId f) else None);
     Partial.createdAt := None |}.

Definition handleSaveEdit (v : View) : M (World supabase) View :=
  if Js.truthyOpt (editingReservation v) then
    tryCatch
      (updateReservation supabase (Js.strOf (editingReservation v))
                         (editUpdates (editFormData v)) ;;;
       ret {| editingReservation := None;
              editFormData := editFormData v;
              alerts := alerts v |})
      (fun error =>
         console_error supabase "Error updating reservation:" ;;;
         ret {| editingReservation := editingReservation v;
                editFormData := editFormData v;
                alerts := alerts v
                          ++ ["Error updating reservation. Please try again."] |})
  else ret v.

Definition handleCancelEdit (v : View) : View :=
  {| editingReservation := None;
     editFormData := blankForm;
     alerts := alerts v |}.
End Handlers.

End RowHandlers.

(* ================================================================== *)
(** ** components/ReservationAnalytics.tsx: the totals *)
(* ================================================================== *)

Module AnalyticsMemo.
Import DataContext.

(** The object returned by the [analytics] memo. *)
Record Analytics := mkAnalytics {
  totalReservations : nat;
  totalRevenue : float;
  totalDeposits : float;
  averageTicket : float;
  fullyPaidCount : nat;
  pendingCount : Z
}.

(** An array length as a number. *)
Definition lengthNumber (n : nat) : float :=
  PrimFloat.of_uint63 (Uint63.of_Z (Z.of_nat n)).

Definition analytics (filteredReservations : list Reservation) : Analytics :=
  let totalRevenue :=
    fold_left (fun sum res => PrimFloat.add sum (totalPrice res))
              filteredReservations 0%float in
  let totalDeposits :=
    fold_left (fun sum res => PrimFloat.add sum (depositPaid res))
              filteredReservations 0%float in
  let averageTicket :=
    if (0 <? List.length filteredReservations)%nat
    then PrimFloat.div totalRevenue
                       (lengthNumber (List.length filteredReservations))
    else 0%float in
  let paidReservations :=
    filter (fun res => depositPaidStatus res && restPaidStatus res)
           filteredReservations in
  {| totalReservations := List.length filteredReservations;
     totalRevenue := totalRevenue;
     totalDeposits := totalDeposits;
     averageTicket := averageTicket;
     fullyPaidCount := List.length paidReservations;
     pendingCount :=
       Z.of_nat (List.length filteredReservations)
       - Z.of_nat (List.length paidReservations) |}.

(** The text of the status badge in the analytics table. *)
Definition statusLabel (reservation : Reservation) : string :=
  if depositPaidStatus reservation && restPaidStatus reservation
  then "Fully Paid"
  else if depositPaidStatus reservation then "Deposit Paid"
  else "Pending".

End AnalyticsMemo.

(** Further words for the analytics and the status badge. *)
Module AnalyticsTerms.
Import DataContext.

(** [a] was created no earlier than [b]; both creation times are dates. *)
Definition notOlder (Date_parse : string -> Js.Date) (a b : Reservation)
  : Prop :=
  exists ta tb,
    ReservationAnalytics.createdDate Date_parse a = Some ta
    /\ ReservationAnalytics.createdDate Date_parse b = Some tb
    /\ tb <= ta.

(** Both payment flags are set. *)
Definition fullyPaid (r : Reservation) : bool :=
  depositPaidStatus r && restPaidStatus r.

End AnalyticsTerms.

(** Further words for the inbound e-mail hook. *)
Module IngestTerms.
Import InboundEmail.

(** The last string value posted under [key], if any; files do not count. *)
Fixpoint lastString (key : string) (entries : list (string * FormValue))
  : option string :=
  match entries with
  | [] => None
  | (k, v) :: rest =>
      match lastString key rest with
      | Some s => Some s
      | None =>
          match v with
          | FormString s => if String.eqb k key then Some s else None
          | FormFile => None
          end
      end
  end.

(** Both configuration values are set. *)
Definition configured (env : Env) : bool :=
  Js.truthyOpt (SUPABASE_URL env)
  && Js.truthyOpt (SUPABASE_SERVICE_ROLE_KEY env).

(** The [content-type] header names one of the three accepted body forms. *)
Definition contentType (req : Request) : string :=
  Js.orElse (content_type_header req) EmptyString.

Definition isJson (req : Request) : bool :=
  Js.includes (contentType req) "application/json".

Definition isForm (req : Request) : bool :=
  Js.includes (contentType req) "multipart/form-data"
  || Js.includes (contentType req) "application/x-www-form-urlencoded".

(** A form post of the sample message, with an upload and a repeated key. *)
Definition formPost : Request :=
  {| method := "POST";
     content_type_header := Some "application/x-www-form-urlencoded";
     json := inl (Js.mkError "Unexpected token");
     formData :=
       inr [("sender", FormString "old@b.com");
            ("attachments", FormString "[{}]");
            ("attachment-1", FormFile);
            ("subject", FormString "Hi");
            ("sender", FormString "a@b.com");
            ("timestamp", FormString "soon")] |}.

(** A form post the hook can store: text fields, an upload and a string
    under "attachments". *)
Definition plainForm : Request :=
  {| method := "POST";
     content_type_header := Some "multipart/form-data; boundary=x";
     json := inl (Js.mkError "Unexpected token");
     formData :=
       inr [("sender", FormString "a@b.com");
            ("subject", FormString "Sketch");
            ("attachments", FormString "[{}]");
            ("attachment-1", FormFile)] |}.

(** A form post whose message headers are not JSON. *)
Definition rawHeaders : Request :=
  {| method := "POST";
     content_type_header := Some "application/x-www-form-urlencoded";
     json := inl (Js.mkError "Unexpected token");
     formData :=
       inr [("sender", FormString "a@b.com");
            ("subject", FormString "Sketch");
            ("message-headers", FormString "Received: by mx.example.com")] |}.

(** A post in a body form the hook does not read. *)
Definition textPost : Request :=
  {| method := "POST";
     content_type_header := Some "text/plain";
     json := inr Ingest.letter;
     formData := inl (Js.mkError "not a form") |}.

(** An environment without the service key. *)
Definition noKey : Env :=
  {| SUPABASE_URL := Some "https://project.example.co";
     SUPABASE_SERVICE_ROLE_KEY := None |}.

(** A mail store that refuses every e-mail. *)
Definition full : Supabase :=
  {| table := unit;
     insertEmail := fun _ t =>
       (Failed (Js.mkError "duplicate key value violates unique constraint"), t);
     insertAttachment := fun _ t => (Data tt, t) |}.

End IngestTerms.

(* ================================================================== *)
(** ** The outbound reservation notice (chat relay function) *)
(* ================================================================== *)

Module Relay.

(** The white space [String.prototype.trim] removes, among the code units
    below 128: tab, line feed, vertical tab, form feed, carriage return
    and space. *)
Definition isSpace (c : ascii) : bool :=
  let n := nat_of_ascii c in
  ((9 <=? n)%nat && (n <=? 13)%nat) || (n =? 32)%nat.

Fixpoint trimStart (s : string) : string :=
  match s with
  | EmptyString => EmptyString
  | String c s' => if isSpace c then trimStart s' else s
  end.

Fixpoint trimEnd (s : string) : string :=
  match s with
  | EmptyString => EmptyString
  | String c s' =>
      match trimEnd s' with
      | EmptyString => if isSpace c then EmptyString else String c EmptyString
      | String d t => String c (String d t)
      end
  end.

(** [String.prototype.trim] *)
Definition trim (s : string) : string := trimEnd (trimStart s).

(** A line feed. *)
Definition nl : string := String (ascii_of_nat 10) EmptyString.

(** [interface ReservationData] *)
Record ReservationData := mkReservationData {
  reservationNumber : Z;
  firstName : string;
  lastName : string;
  phone : string;
  appointmentDate : string;
  appointmentTime : string;
  totalPrice : float;
  depositPaid : float;
  artistName : option string;
  notes : option string;
  designImages : option (list string)
}.

(** The incoming request: its method and what [req.json()] settles to;
    [inr None] is a body without a [reservation]. *)
Record Request := mkRequest {
  method : string;
  json : Js.Error + option ReservationData
}.

(** [Deno.env] *)
Record Env := mkEnv {
  WHATSAPP_PHONE_NUMBER : option string;
  WHATSAPP_TARGET_NUMBER : option string;
  WHATSAPP_WEBHOOK_URL : option string
}.

(** One [fetch] to the relay: the address and the JSON body. *)
Record Outbound := mkOutbound {
  url : string;
  to : string;
  message : string;
  images : list string
}.

(** What the [fetch] and the reading of its response come to: a rejected
    fetch; a response that is not ok, with what [response.text()] settles
    to; an ok response, with what reading [messageId] off
    [response.json()] settles to. *)
Inductive Fetched :=
| NetworkError (e : Js.Error)
| NotOk (text : Js.Error + string)
| Ok (messageId : Js.Error + option string).

(** The relay service behind the webhook address. *)
Record Service := mkService {
  net : Type;
  fetch : Outbound -> net -> Fetched * net
}.

(** The body of a [Response]. *)
Inductive Envelope :=
| Text (s : string)
| Success (messageId : option string)
| Failure (error : string).

Record Response := mkResponse { status : Z; body : Envelope }.

Section Serve.
Variable service : Service.
(** [x.toFixed(2)] and [new Date(text).toLocaleDateString('en-GB')]. *)
Variable toFixed2 : float -> string.
Variable toLocaleDateString : string -> string.

Record World := mkWorld {
  console : list Js.ConsoleLine;
  network : net service;
  calls : list Outbound
}.

Definition console_error (label : string) : M World unit :=
  modify (fun w =>
    {| console := console w ++ [Js.mkLine Js.error label];
       network := network w;
       calls := calls w |}).

(** [await fetch(url, ...)] *)
Definition send (request : Outbound) : M World Fetched :=
  fun w =>
    let (fetched, n') := fetch service request (network w) in
    (Normal fetched,
     {| console := console w;
        network := n';
        calls := calls w ++ [request] |}).

(** The template literal, before [.trim()]. *)
Definition template (reservation : ReservationData) : string :=
  let remainingAmount :=
    PrimFloat.sub (totalPrice reservation) (depositPaid reservation) in
  (nl ++ "🎨 *New Reservation Created* 🎨" ++ nl
   ++ nl
   ++ "📋 *Reservation #" ++ Js.toString (reservationNumber reservation)
   ++ "*" ++ nl
   ++ nl
   ++ "👤 *Customer:* " ++ firstName reservation ++ " "
   ++ lastName reservation ++ nl
   ++ "📞 *Phone:* " ++ phone reservation ++ nl
   ++ "📅 *Date:* " ++ toLocaleDateString (appointmentDate reservation) ++ nl
   ++ "🕐 *Time:* " ++ appointmentTime reservation ++ nl
   ++ (if Js.truthyOpt (artistName reservation)
       then "🎨 *Artist:* " ++ Js.strOf (artistName reservation)
       else EmptyString) ++ nl
   ++ nl
   ++ "💰 *Total Price:* €" ++ toFixed2 (totalPrice reservation) ++ nl
   ++ "💳 *Deposit:* €" ++ toFixed2 (depositPaid reservation) ++ nl
   ++ "💸 *Remaining:* €" ++ toFixed2 remainingAmount ++ nl
   ++ nl
   ++ (if Js.truthyOpt (notes reservation)
       then "📝 *Notes:* " ++ Js.strOf (notes reservation)
       else EmptyString) ++ nl
   ++ nl
   ++ "🏪 *Krampus Tattoo Studio*" ++ nl
   ++ "    ")%string.

Definition formatMessage (reservation : ReservationData) : string :=
  trim (template reservation).

(** The [try] block of the function. *)
Definition process (env : Env) (req : Request) : M World Response :=
  parsed <- (match json req with
             | inl e => throw e
             | inr parsed => ret parsed
             end) ;;
  (if Js.truthyOpt (WHATSAPP_PHONE_NUMBER env)
      && Js.truthyOpt (WHATSAPP_TARGET_NUMBER env)
   then ret tt
   else throw (Js.mkError "WhatsApp configuration missing")) ;;;
  reservation <- (match parsed with
                  | Some reservation => ret reservation
                  | None =>
                      throw (Js.mkError
                        "Cannot read properties of undefined (reading 'totalPrice')")
                  end) ;;
  (if Js.truthyOpt (WHATSAPP_WEBHOOK_URL env)
   then ret tt
   else throw (Js.mkError "WhatsApp webhook URL not configured")) ;;;
  fetched <- send {| url := Js.strOf (WHATSAPP_WEBHOOK_URL env);
                     to := Js.strOf (WHATSAPP_TARGET_NUMBER env);
                     message := formatMessage reservation;
                     images := match designImages reservation with
                               | Some l => l
                               | None => []
                               end |} ;;
  match fetched with
  | NetworkError e => throw e
  | NotOk (inl e) => throw e
  | NotOk (inr errorData) =>
      throw (Js.mkError ("WhatsApp API error: " ++ errorData))
  | Ok (inl e) => throw e
  | Ok (inr messageId) => ret {| status := 200; body := Success messageId |}
  end.

(** The function given to [serve]. *)
Definition handler (env : Env) (req : Request) : M World Response :=
  if String.eqb (method req) "OPTIONS" then
    ret {| status := 200; body := Text "ok" |}
  else
    tryCatch (process env req)
      (fun error =>
         console_error "Error sending WhatsApp notification:" ;;;
         ret {| status := 500; body := Failure (Js.message error) |}).
End Serve.

Arguments console {service} w.
Arguments network {service} w.
Arguments calls {service} w.
Arguments mkWorld {service} console network calls.

(** All three configuration values are set. *)
Definition configured (env : Env) : bool :=
  Js.truthyOpt (WHATSAPP_PHONE_NUMBER env)
  && Js.truthyOpt (WHATSAPP_TARGET_NUMBER env)
  && Js.truthyOpt (WHATSAPP_WEBHOOK_URL env).

(** The array sent under [images]. *)
Definition imagesOf (reservation : ReservationData) : list string :=
  match designImages reservation with
  | Some l => l
  | None => []
  end.

(** A relay that accepts every notice, and one that is logged out. *)
Definition accepting : Service :=
  {| net := nat;
     fetch := fun _ n =>
       (Ok (inr (Some ("msg-" ++ Js.toString (Z.of_nat n)))), S n) |}.

Definition loggedOut : Service :=
  {| net := unit;
     fetch := fun _ n => (NotOk (inr "client not ready"), n) |}.

Definition settings : Env :=
  {| WHATSAPP_PHONE_NUMBER := Some "31600000000";
     WHATSAPP_TARGET_NUMBER := Some "31611111111";
     WHATSAPP_WEBHOOK_URL := Some "https://relay.example.com/send" |}.

Definition noWebhook : Env :=
  {| WHATSAPP_PHONE_NUMBER := Some "31600000000";
     WHATSAPP_TARGET_NUMBER := Some "31611111111";
     WHATSAPP_WEBHOOK_URL := None |}.

Definition booking : ReservationData :=
  {| reservationNumber := 1042;
     firstName := "Anna";
     lastName := "de Vries";
     phone := "0612345678";
     appointmentDate := "2025-10-03";
     appointmentTime := "14:00";
     totalPrice := 250%float;
     depositPaid := 50%float;
     artistName := None;
     notes := Some "forearm";
     designImages := None |}.


Definition notice : Request :=
  {| method := "POST"; json := inr (Some booking) |}.

(** Host functions for running the sample. *)
Definition showPrice (x : float) : string := "0.00".
Definition showDate (text : string) : string := text.

End Relay.

(* ================================================================== *)
(** * Properties *)
(* ================================================================== *)

(** ** Strings *)

Lemma startsWith_prefix (s q : string) :
  Js.startsWith s q = true <-> exists post, s = q ++ post.
Proof.
  revert s; induction q as [|c q IH]; intros s; simpl.
  - split; [intros _; now exists s | reflexivity].
  - destruct s as [|d s].
    + split; [discriminate | intros [post H]; discriminate].
    + rewrite andb_true_iff, Ascii.eqb_eq, IH. split.
      * intros [-> [post ->]]. now exists post.
      * intros [post H]. injection H as -> ->. split; [reflexivity | now exists post].
Qed.

Lemma includes_Substring (s q : string) :
  Js.includes s q = true <-> Substring q s.
Proof.
  unfold Substring. induction s as [|d s IH]; simpl.
  - rewrite orb_false_r, startsWith_prefix. split.
    + intros [post H]. now exists EmptyString, post.
    + intros [pre [post H]]. destruct pre; simpl in H.
      * now exists post.
      * discriminate.
  - rewrite orb_true_iff, startsWith_prefix, IH. split.
    + intros [[post H] | [pre [post H]]].
      * now exists EmptyString, post.
      * exists (String d pre), post. simpl. now rewrite H.
    + intros [pre [post H]]. destruct pre as [|c pre]; simpl in H.
      * left. now exists post.
      * right. injection H as _ ->. now exists pre, post.
Qed.

Lemma allChars_app p (a b : string) :
  allChars p (a ++ b) = allChars p a && allChars p b.
Proof.
  induction a as [|c a IH]; simpl; [reflexivity|].
  now rewrite IH, andb_assoc.
Qed.

Lemma allChars_Substring p (q s : string) :
  Substring q s -> allChars p s = true -> allChars p q = true.
Proof.
  intros [pre [post ->]]. rewrite !allChars_app, !andb_true_iff. tauto.
Qed.

Lemma string_of_uint_numeric (d : Decimal.uint) :
  allChars numeric (NilEmpty.string_of_uint d) = true.
Proof. induction d; simpl; auto. Qed.

Lemma toString_numeric (n : Z) : allChars numeric (Js.toString n) = true.
Proof.
  unfold Js.toString, NilZero.string_of_int, NilZero.string_of_uint.
  destruct (Z.to_int n) as [d|d]; destruct d; simpl;
    auto using string_of_uint_numeric.
Qed.

(** ** Bytes and code points *)

Section TextFacts.
Local Open Scope list_scope.

Lemma byte_range (c : ascii) : 0 <= Js.byte c < 256.
Proof.
  unfold Js.byte. pose proof (N_ascii_bounded c). lia.
Qed.

Lemma byte_char (n : Z) : 0 <= n < 256 -> Js.byte (Js.char n) = n.
Proof.
  intros H. unfold Js.byte, Js.char. rewrite N_ascii_embedding by lia. lia.
Qed.

Lemma char_byte (c : ascii) : Js.char (Js.byte c) = c.
Proof.
  unfold Js.byte, Js.char. now rewrite N2Z.id, ascii_N_embedding.
Qed.

Lemma codePoints_one (c : ascii) (s : string) :
  Js.byte c < 0x80 -> Js.codePoints (String c s) = Js.byte c :: Js.codePoints s.
Proof.
  intros H. cbn [Js.codePoints]. apply Z.ltb_lt in H. now rewrite H.
Qed.

Lemma codePoints_two (c0 c1 : ascii) (s : string) (p : Z) :
  0x80 <= Js.byte c0 ->
  Js.point2 (Js.byte c0) (Js.byte c1) = Some p ->
  Js.codePoints (String c0 (String c1 s)) = p :: Js.codePoints s.
Proof.
  intros H0 H2. cbn [Js.codePoints]. apply Z.ltb_ge in H0. now rewrite H0, H2.
Qed.

Lemma codePoints_three (c0 c1 c2 : ascii) (s : string) (p : Z) :
  0x80 <= Js.byte c0 ->
  Js.point2 (Js.byte c0) (Js.byte c1) = None ->
  Js.point3 (Js.byte c0) (Js.byte c1) (Js.byte c2) = Some p ->
  Js.codePoints (String c0 (String c1 (String c2 s))) = p :: Js.codePoints s.
Proof.
  intros H0 H2 H3. cbn [Js.codePoints]. apply Z.ltb_ge in H0.
  now rewrite H0, H2, H3.
Qed.

Lemma codePoints_four (c0 c1 c2 c3 : ascii) (s : string) (p : Z) :
  0x80 <= Js.byte c0 ->
  Js.point2 (Js.byte c0) (Js.byte c1) = None ->
  Js.point3 (Js.byte c0) (Js.byte c1) (Js.byte c2) = None ->
  Js.point4 (Js.byte c0) (Js.byte c1) (Js.byte c2) (Js.byte c3) = Some p ->
  Js.codePoints (String c0 (String c1 (String c2 (String c3 s))))
  = p :: Js.codePoints s.
Proof.
  intros H0 H2 H3 H4. cbn [Js.codePoints]. apply Z.ltb_ge in H0.
  now rewrite H0, H2, H3, H4.
Qed.

Ltac bools :=
  repeat match goal with
         | H : _ && _ = true |- _ => apply andb_true_iff in H; destruct H
         | H : negb _ = true |- _ => apply negb_true_iff in H
         | H : _ && _ = false |- _ => apply andb_false_iff in H
         | H : (_ <=? _) = true |- _ => apply Z.leb_le in H
         | H : (_ <=? _) = false |- _ => apply Z.leb_gt in H
         | H : (_ <? _) = true |- _ => apply Z.ltb_lt in H
         | H : (_ <? _) = false |- _ => apply Z.ltb_ge in H
         end.

(** Reading back the bytes of a scalar value gives the scalar value. *)
Lemma codePoints_utf8 (p : Z) (s : string) :
  Js.scalar p = true ->
  Js.codePoints (Js.utf8 p ++ s) = p :: Js.codePoints s.
Proof.
  unfold Js.scalar, Js.utf8, Js.stray. intros H. bools.
  destruct (p <? 0x80) eqn:E1; bools.
  { cbn [append]. rewrite codePoints_one; rewrite byte_char; try lia; reflexivity. }
  destruct (p <? 0x800) eqn:E2; bools.
  { cbn [append].
    apply codePoints_two; rewrite !byte_char;
      try (Z.to_euclidean_division_equations; lia).
    unfold Js.point2, Js.continuation.
    replace ((0xC0 + p / 64 - 0xC0) * 64 + (0x80 + p mod 64 - 0x80)) with p
      by (Z.to_euclidean_division_equations; lia).
    match goal with
    | |- (if ?b then _ else _) = _ => replace b with true; [reflexivity|]
    end.
    symmetry. rewrite !andb_true_iff, !Z.leb_le.
    Z.to_euclidean_division_equations; lia. }
  destruct (p <? 0x10000) eqn:E3; bools.
  { cbn [append].
    apply codePoints_three; rewrite !byte_char;
      try (Z.to_euclidean_division_equations; lia).
    - unfold Js.point2.
      replace (0xC0 <=? 0xE0 + p / 4096) with true
        by (symmetry; apply Z.leb_le; Z.to_euclidean_division_equations; lia).
      replace (0xE0 + p / 4096 <=? 0xDF) with false
        by (symmetry; apply Z.leb_gt; Z.to_euclidean_division_equations; lia).
      reflexivity.
    - unfold Js.point3, Js.continuation, Js.scalar.
      replace (((0xE0 + p / 4096 - 0xE0) * 64 + (0x80 + (p / 64) mod 64 - 0x80)) * 64
               + (0x80 + p mod 64 - 0x80)) with p
        by (Z.to_euclidean_division_equations; lia).
      match goal with
      | |- (if ?b then _ else _) = _ => replace b with true; [reflexivity|]
      end.
      symmetry. rewrite !andb_true_iff, negb_true_iff, andb_false_iff,
        !Z.leb_le, !Z.ltb_lt, !Z.leb_gt.
      Z.to_euclidean_division_equations; lia. }
  destruct (p <? 0x110000) eqn:E4; bools; [|lia].
  cbn [append].
  apply codePoints_four; rewrite !byte_char;
    try (Z.to_euclidean_division_equations; lia).
  - unfold Js.point2.
    replace (0xF0 + p / 262144 <=? 0xDF) with false
      by (symmetry; apply Z.leb_gt; Z.to_euclidean_division_equations; lia).
    now rewrite andb_false_r.
  - unfold Js.point3.
    replace (0xF0 + p / 262144 <=? 0xEF) with false
      by (symmetry; apply Z.leb_gt; Z.to_euclidean_division_equations; lia).
    now rewrite andb_false_r.
  - unfold Js.point4, Js.continuation.
    replace ((((0xF0 + p / 262144 - 0xF0) * 64
               + (0x80 + (p / 4096) mod 64 - 0x80)) * 64
              + (0x80 + (p / 64) mod 64 - 0x80)) * 64
             + (0x80 + p mod 64 - 0x80)) with p
      by (Z.to_euclidean_division_equations; lia).
    match goal with
    | |- (if ?b then _ else _) = _ => replace b with true; [reflexivity|]
    end.
    symmetry. rewrite !andb_true_iff, !Z.leb_le, !Z.ltb_lt.
    Z.to_euclidean_division_equations; lia.
Qed.

(** The first byte of a scalar value is never a continuation byte. *)
Lemma utf8_lead (p : Z) :
  Js.scalar p = true ->
  exists c rest,
    Js.utf8 p = String c rest /\ Js.continuation (Js.byte c) = false.
Proof.
  unfold Js.scalar, Js.utf8, Js.stray, Js.continuation. intros H. bools.
  destruct (p <? 0x80) eqn:E1; bools.
  { eexists _, _. split; [reflexivity|]. rewrite byte_char by lia.
    apply andb_false_iff. left. apply Z.leb_gt. lia. }
  destruct (p <? 0x800) eqn:E2; bools.
  { eexists _, _. split; [reflexivity|].
    rewrite byte_char by (Z.to_euclidean_division_equations; lia).
    apply andb_false_iff. right. apply Z.leb_gt.
    Z.to_euclidean_division_equations; lia. }
  destruct (p <? 0x10000) eqn:E3; bools.
  { eexists _, _. split; [reflexivity|].
    rewrite byte_char by (Z.to_euclidean_division_equations; lia).
    apply andb_false_iff. right. apply Z.leb_gt.
    Z.to_euclidean_division_equations; lia. }
  destruct (p <? 0x110000) eqn:E4; bools; [|lia].
  eexists _, _. split; [reflexivity|].
  rewrite byte_char by (Z.to_euclidean_division_equations; lia).
  apply andb_false_iff. right. apply Z.leb_gt.
  Z.to_euclidean_division_equations; lia.
Qed.

(** One step of reading: the first code point of a non-empty string takes
    its first byte and up to three continuation bytes after it. *)
Lemma codePoints_step (c : ascii) (s : string) :
  exists p k rest,
    s = (k ++ rest)%string
    /\ Js.codePoints (String c s) = p :: Js.codePoints rest
    /\ allChars Text.continues k = true
    /\ (Js.byte c < 0x80 -> p = Js.byte c /\ k = EmptyString)
    /\ (0x80 <= Js.byte c -> 0x80 <= p)
    /\ (Js.scalar p = true
        \/ Js.stray + 0x80 <= p < Js.stray + 0x100).
Proof.
  pose proof (byte_range c) as Hc.
  assert (Halone : 0x80 <= Js.byte c ->
            exists p k rest,
              s = (k ++ rest)%string
              /\ (Js.stray + Js.byte c) :: Js.codePoints s
                 = p :: Js.codePoints rest
              /\ allChars Text.continues k = true
              /\ (Js.byte c < 0x80 -> p = Js.byte c /\ k = EmptyString)
              /\ (0x80 <= Js.byte c -> 0x80 <= p)
              /\ (Js.scalar p = true
                  \/ Js.stray + 0x80 <= p < Js.stray + 0x100)).
  { intros H. exists (Js.stray + Js.byte c), EmptyString, s.
    unfold Js.stray. repeat split; try reflexivity; try lia. }
  cbn [Js.codePoints].
  destruct (Js.byte c <? 0x80) eqn:E0; bools.
  { exists (Js.byte c), EmptyString, s.
    repeat split; try reflexivity; try lia.
    left. unfold Js.scalar. rewrite !andb_true_iff, negb_true_iff,
      andb_false_iff, Z.leb_le, Z.ltb_lt, !Z.leb_gt. lia. }
  destruct s as [|c1 s2]; [now apply Halone|].
  destruct (Js.point2 (Js.byte c) (Js.byte c1)) as [p|] eqn:P2.
  { exists p, (String c1 EmptyString), s2.
    unfold Js.point2 in P2.
    destruct (_ && _) eqn:C in P2; [|discriminate]. injection P2 as <-.
    bools. unfold Text.continues. cbn [allChars append].
    pose proof (byte_range c1).
    repeat split; try reflexivity; try lia.
    - now rewrite andb_true_r.
    - left. unfold Js.scalar, Js.continuation in *. bools.
      rewrite !andb_true_iff, negb_true_iff, andb_false_iff, Z.leb_le,
        Z.ltb_lt, !Z.leb_gt. lia. }
  destruct s2 as [|c2 s3]; [now apply Halone|].
  destruct (Js.point3 (Js.byte c) (Js.byte c1) (Js.byte c2)) as [p|] eqn:P3.
  { exists p, (String c1 (String c2 EmptyString)), s3.
    unfold Js.point3 in P3.
    destruct (_ && _) eqn:C in P3; [|discriminate]. injection P3 as <-.
    bools. unfold Text.continues. cbn [allChars append].
    repeat split; try reflexivity; try lia.
    - rewrite andb_true_r. now apply andb_true_iff.
    - left. assumption. }
  destruct s3 as [|c3 s4]; [now apply Halone|].
  destruct (Js.point4 (Js.byte c) (Js.byte c1) (Js.byte c2) (Js.byte c3))
    as [p|] eqn:P4; [|now apply Halone].
  exists p, (String c1 (String c2 (String c3 EmptyString))), s4.
  unfold Js.point4 in P4.
  destruct (_ && _) eqn:C in P4; [|discriminate]. injection P4 as <-.
  bools. unfold Text.continues. cbn [allChars append].
  repeat split; try reflexivity; try lia.
  - rewrite andb_true_r, !andb_true_iff. auto.
  - left. unfold Js.scalar.
    rewrite !andb_true_iff, negb_true_iff, andb_false_iff, Z.leb_le,
      Z.ltb_lt, !Z.leb_gt. lia.
Qed.

Lemma append_assoc_string (a b c : string) :
  ((a ++ b) ++ c = a ++ (b ++ c))%string.
Proof. induction a as [|x a IH]; simpl; [reflexivity | now rewrite IH]. Qed.

Lemma fromCodePoints_app (a b : list Z) :
  Js.fromCodePoints (a ++ b)
  = (Js.fromCodePoints a ++ Js.fromCodePoints b)%string.
Proof.
  induction a as [|p a IH]; simpl; [reflexivity|].
  now rewrite IH, append_assoc_string.
Qed.

Lemma codePoints_fromCodePoints (points : list Z) (s : string) :
  Text.scalars points = true ->
  Js.codePoints (Js.fromCodePoints points ++ s) = points ++ Js.codePoints s.
Proof.
  induction points as [|p points IH]; simpl; [reflexivity|].
  rewrite andb_true_iff. intros [Hp Hrest].
  now rewrite append_assoc_string, codePoints_utf8, IH.
Qed.

(** Continuation bytes in front of a text that starts with another kind
    of byte belong to what comes before that text. *)
Lemma continuation_prefix (k rest pre : string) (c : ascii) (x : string) :
  allChars Text.continues k = true ->
  Text.continues c = false ->
  (k ++ rest = pre ++ String c x)%string ->
  exists pre', pre = (k ++ pre')%string /\ rest = (pre' ++ String c x)%string.
Proof.
  revert pre. induction k as [|a k IH]; intros pre Hk Hc Heq; simpl in *.
  - now exists pre.
  - apply andb_true_iff in Hk. destruct Hk as [Ha Hk].
    destruct pre as [|a' pre]; simpl in Heq.
    + injection Heq as -> _. congruence.
    + injection Heq as -> Heq.
      destruct (IH pre Hk Hc Heq) as [pre' [-> ->]]. now exists pre'.
Qed.

Lemma length_append_string (a b : string) :
  String.length (a ++ b) = (String.length a + String.length b)%nat.
Proof. induction a as [|c a IH]; simpl; [reflexivity | now rewrite IH]. Qed.

(** The bytes of scalar values are found in a string only where the
    string has those scalar values. *)
Lemma codePoints_inside (points : list Z) (post : string) :
  Text.scalars points = true -> points <> [] ->
  forall pre,
    exists before after,
      Js.codePoints (pre ++ Js.fromCodePoints points ++ post)
      = before ++ points ++ after.
Proof.
  intros Hs Hne pre.
  remember (String.length pre) as n eqn:Hn.
  revert pre Hn. induction n as [n IH] using lt_wf_ind. intros pre Hn.
  destruct pre as [|c pre].
  - exists [], (Js.codePoints post). simpl.
    now apply codePoints_fromCodePoints.
  - destruct points as [|p points]; [contradiction|].
    simpl in Hs. apply andb_true_iff in Hs. destruct Hs as [Hp Hs].
    destruct (utf8_lead p Hp) as [c0 [x0 [Hu Hc0]]].
    cbn [append].
    destruct (codePoints_step c
                (pre ++ Js.fromCodePoints (p :: points) ++ post))
      as [p0 [k [rest [Hsplit [Hcp [Hk _]]]]]].
    rewrite Hcp.
    assert (Hx : exists x, (Js.fromCodePoints (p :: points) ++ post
                            = String c0 x)%string).
    { cbn [Js.fromCodePoints]. rewrite Hu. simpl. eauto. }
    destruct Hx as [x Hx]. rewrite Hx in Hsplit. symmetry in Hsplit.
    destruct (continuation_prefix _ _ _ _ _ Hk Hc0 Hsplit) as [pre' [-> ->]].
    rewrite <- Hx.
    destruct (IH (String.length pre')) with (pre := pre')
      as [before [after Hin]].
    + subst n. simpl. rewrite length_append_string. lia.
    + reflexivity.
    + exists (p0 :: before), after. rewrite Hin. reflexivity.
Qed.

(** ** The case table *)

Lemma lowerTable_placed :
  forallb (fun e => Text.wellPlaced e && Text.landsWell e) Js.lowerTable = true.
Proof. vm_compute. reflexivity. Qed.

Lemma lowerOf_cases (p : Z) :
  Js.lowerOf p = p
  \/ exists first last step shift,
       Text.wellPlaced (first, last, step, shift) = true
       /\ Text.landsWell (first, last, step, shift) = true
       /\ first <= p <= last
       /\ Js.lowerOf p = p + shift.
Proof.
  unfold Js.lowerOf.
  destruct (find (Js.covers p) Js.lowerTable) as [[[[a b] st] d]|] eqn:F;
    [|now left].
  right. apply find_some in F. destruct F as [Hin Hc].
  pose proof (proj1 (forallb_forall _ _) lowerTable_placed _ Hin) as Hok.
  apply andb_true_iff in Hok. destruct Hok as [H1 H2].
  unfold Js.covers in Hc. bools.
  exists a, b, st, d. repeat split; auto.
Qed.

Lemma lowerOf_scalar (p : Z) :
  Js.scalar p = true -> Js.scalar (Js.lowerOf p) = true.
Proof.
  intros Hp.
  destruct (lowerOf_cases p) as [-> | [a [b [st [d [_ [H2 [Hr ->]]]]]]]];
    [exact Hp|].
  unfold Text.landsWell in H2. unfold Js.scalar.
  rewrite !andb_true_iff, negb_true_iff, andb_false_iff, Z.leb_le, Z.ltb_lt,
    !Z.leb_gt.
  apply orb_true_iff in H2. destruct H2 as [H2 | H2]; bools; lia.
Qed.

Lemma lowerOf_below_capitals (p : Z) : p < 0x41 -> Js.lowerOf p = p.
Proof.
  intros Hp.
  destruct (lowerOf_cases p) as [H | [a [b [st [d [H1 [_ [Hr _]]]]]]]];
    [exact H|].
  unfold Text.wellPlaced in H1.
  apply orb_true_iff in H1. destruct H1 as [H1 | H1]; bools; lia.
Qed.

Lemma lowerOf_above_points (p : Z) : Js.stray <= p -> Js.lowerOf p = p.
Proof.
  unfold Js.stray. intros Hp.
  destruct (lowerOf_cases p) as [H | [a [b [st [d [H1 [_ [Hr _]]]]]]]];
    [exact H|].
  unfold Text.wellPlaced in H1.
  apply orb_true_iff in H1. destruct H1 as [H1 | H1]; bools; lia.
Qed.

Lemma lowerOf_into_small (p : Z) : Js.lowerOf p < 0x61 -> Js.lowerOf p = p.
Proof.
  intros Hp.
  destruct (lowerOf_cases p) as [H | [a [b [st [d [_ [H2 [Hr Hl]]]]]]]];
    [exact H|].
  unfold Text.landsWell in H2. rewrite Hl in Hp.
  apply orb_true_iff in H2. destruct H2 as [H2 | H2]; bools; lia.
Qed.

(** ** Lower-casing of ordinary text *)

Lemma lowerPoints_plain (afterCased : bool) (points : list Z) :
  forallb Text.plainPoint points = true ->
  Js.lowerPoints afterCased points = map Js.lowerOf points.
Proof.
  revert afterCased. induction points as [|p points IH]; intros a H;
    [reflexivity|].
  simpl in H. apply andb_true_iff in H. destruct H as [Hp H].
  unfold Text.plainPoint in Hp. apply andb_true_iff in Hp.
  destruct Hp as [H1 H2].
  apply negb_true_iff in H1, H2.
  cbn [Js.lowerPoints map]. rewrite H1, H2, IH by exact H. reflexivity.
Qed.

Lemma ordinary_parts (s : string) :
  Wording.ordinary s = true ->
  Text.scalars (Js.codePoints s) = true
  /\ forallb Text.plainPoint (Js.codePoints s) = true.
Proof.
  unfold Wording.ordinary, Text.scalars. generalize (Js.codePoints s). intros l.
  induction l as [|p l IH]; simpl; [auto|].
  rewrite !andb_true_iff. intros [[H1 H2] H]. destruct (IH H). auto.
Qed.

Lemma toLowerCase_ordinary (s : string) :
  Wording.ordinary s = true ->
  Js.toLowerCase s = Js.fromCodePoints (map Js.lowerOf (Js.codePoints s)).
Proof.
  intros H. unfold Js.toLowerCase.
  now rewrite lowerPoints_plain by (apply ordinary_parts, H).
Qed.

Lemma scalars_lower (points : list Z) :
  Text.scalars points = true -> Text.scalars (map Js.lowerOf points) = true.
Proof.
  unfold Text.scalars. induction points as [|p points IH]; simpl; [auto|].
  rewrite !andb_true_iff. intros [H1 H2]. split; [now apply lowerOf_scalar | auto].
Qed.

Lemma same_letters (a b : list Z) :
  Forall2 Wording.SameLetter a b <-> map Js.lowerOf a = map Js.lowerOf b.
Proof.
  unfold Wording.SameLetter. split.
  - induction 1; simpl; [reflexivity | congruence].
  - revert b. induction a as [|x a IH]; intros [|y b] H; simpl in H;
      try discriminate; constructor.
    + now injection H.
    + apply IH. now injection H.
Qed.

Lemma map_inside {A B : Type} (f : A -> B) (l : list A) (x y z : list B) :
  map f l = x ++ y ++ z ->
  exists l1 l2 l3, l = l1 ++ l2 ++ l3 /\ map f l2 = y.
Proof.
  intros H. apply map_eq_app in H. destruct H as [l1 [l23 [-> [_ H]]]].
  apply map_eq_app in H. destruct H as [l2 [l3 [-> [H _]]]].
  now exists l1, l2, l3.
Qed.

(** On ordinary text, a substring once both sides are lower-cased is an
    occurrence letter for letter, case apart. *)
Lemma folded_is_letter_for_letter (q s : string) :
  Wording.ordinary q = true -> Wording.ordinary s = true ->
  (SubstringNoCase q s <-> Wording.OccursIgnoringCase q s).
Proof.
  intros Hq Hs. unfold SubstringNoCase, Substring, Wording.OccursIgnoringCase.
  rewrite (toLowerCase_ordinary q Hq), (toLowerCase_ordinary s Hs).
  destruct (ordinary_parts q Hq) as [Hqs _].
  destruct (ordinary_parts s Hs) as [Hss _].
  split.
  - intros [pre [post Heq]].
    destruct (Js.codePoints q) as [|p0 Q] eqn:EQ.
    { exists [], [], (Js.codePoints s). split; [reflexivity | constructor]. }
    rewrite <- EQ in *.
    assert (Hne : map Js.lowerOf (Js.codePoints q) <> [])
      by (rewrite EQ; discriminate).
    destruct (codePoints_inside _ post (scalars_lower _ Hqs) Hne pre)
      as [before [after Hin]].
    rewrite <- Heq in Hin.
    pose proof (codePoints_fromCodePoints _ EmptyString (scalars_lower _ Hss))
      as Hback.
    assert (Hnil : forall x : string, (x ++ EmptyString)%string = x)
      by (induction x as [|c x IH]; simpl; [reflexivity | now rewrite IH]).
    rewrite Hnil in Hback. simpl in Hback. rewrite app_nil_r in Hback.
    rewrite Hback in Hin.
    destruct (map_inside _ _ _ _ _ Hin) as [l1 [l2 [l3 [Hl Hm]]]].
    exists l1, l2, l3. split; [exact Hl|]. now apply same_letters.
  - intros [before [middle [after [Hl Hm]]]].
    apply same_letters in Hm. rewrite Hl, !map_app, !fromCodePoints_app, Hm.
    eauto.
Qed.

(** ** Digits have no case *)

Lemma numeric_byte (c : ascii) : numeric c = true -> Js.byte c < 0x41.
Proof.
  destruct c as [[] [] [] [] [] [] [] []]; intros H;
    try discriminate H; vm_compute; reflexivity.
Qed.

Lemma lowerPoints_cons_plain (afterCased : bool) (p : Z) (points : list Z) :
  p <> 0x3A3 -> p <> 0x130 ->
  Js.lowerPoints afterCased (p :: points)
  = Js.lowerOf p
    :: Js.lowerPoints (if Js.caseIgnorable p then afterCased else Js.cased p)
         points.
Proof.
  intros H1 H2. apply Z.eqb_neq in H1, H2.
  cbn [Js.lowerPoints]. now rewrite H1, H2.
Qed.

(** A text of digits is left as it is. *)
Lemma lowerPoints_numeric (afterCased : bool) (s : string) :
  allChars numeric s = true ->
  Js.fromCodePoints (Js.lowerPoints afterCased (Js.codePoints s)) = s.
Proof.
  revert afterCased. induction s as [|c s IH]; intros a H; [reflexivity|].
  simpl in H. apply andb_true_iff in H. destruct H as [Hc Hs].
  pose proof (numeric_byte c Hc) as Hb. pose proof (byte_range c) as Hr.
  rewrite codePoints_one by lia.
  rewrite lowerPoints_cons_plain by lia.
  rewrite lowerOf_below_capitals by exact Hb.
  cbn [Js.fromCodePoints]. rewrite IH by exact Hs.
  unfold Js.utf8.
  replace (Js.byte c <? 0x80) with true by (symmetry; apply Z.ltb_lt; lia).
  now rewrite char_byte.
Qed.

Lemma utf8_numeric (x : Z) :
  Js.scalar x = true \/ Js.stray + 0x80 <= x < Js.stray + 0x100 ->
  allChars numeric (Js.utf8 x) = true ->
  0 <= x < 0x41 /\ numeric (Js.char x) = true.
Proof.
  unfold Js.utf8, Js.stray. intros Hx H.
  assert (H0 : 0 <= x).
  { destruct Hx as [Hx | Hx]; [|lia]. unfold Js.scalar in Hx. bools. lia. }
  assert (Hs : x < 0x110000 \/ 0x110000 + 0x80 <= x < 0x110000 + 0x100).
  { destruct Hx as [Hx | Hx]; [|lia]. unfold Js.scalar in Hx. bools. lia. }
  destruct (x <? 0x80) eqn:E1; bools.
  { cbn [allChars] in H. rewrite andb_true_r in H. split; [|exact H].
    apply numeric_byte in H. rewrite byte_char in H by lia. lia. }
  exfalso.
  destruct (x <? 0x800) eqn:E2; [|destruct (x <? 0x10000) eqn:E3;
                                   [|destruct (x <? 0x110000) eqn:E4]];
    bools; cbn [allChars] in H; apply andb_true_iff in H; destruct H as [H _];
    apply numeric_byte in H;
    rewrite byte_char in H by (Z.to_euclidean_division_equations; lia);
    Z.to_euclidean_division_equations; lia.
Qed.

(** Only a text of digits is lower-cased to a text of digits. *)
Lemma lowerPoints_into_numeric (s : string) :
  forall afterCased,
    allChars numeric
      (Js.fromCodePoints (Js.lowerPoints afterCased (Js.codePoints s))) = true ->
    allChars numeric s = true.
Proof.
  remember (String.length s) as n eqn:Hn.
  revert s Hn. induction n as [n IH] using lt_wf_ind. intros s Hn a H.
  destruct s as [|c s]; [reflexivity|].
  destruct (codePoints_step c s)
    as [p [k [rest [Hsplit [Hcp [_ [Hone [Hmore Hkind]]]]]]]].
  rewrite Hcp in H.
  assert (Hrest : forall a', allChars numeric
            (Js.fromCodePoints (Js.lowerPoints a' (Js.codePoints rest))) = true
            -> allChars numeric rest = true).
  { intros a'. apply (IH (String.length rest)); [|reflexivity].
    subst n s. simpl. rewrite length_append_string. lia. }
  cbn [Js.lowerPoints] in H. rewrite fromCodePoints_app, allChars_app in H.
  apply andb_true_iff in H. destruct H as [Hout Htail].
  apply Hrest in Htail.
  destruct (p =? 0x3A3) eqn:E1.
  { destruct (a && negb (Js.beforeCased (Js.codePoints rest)));
      vm_compute in Hout; discriminate. }
  destruct (p =? 0x130) eqn:E2; [vm_compute in Hout; discriminate|].
  cbn [Js.fromCodePoints] in Hout. rewrite allChars_app in Hout.
  apply andb_true_iff in Hout. destruct Hout as [Hout _].
  assert (Hk : Js.scalar (Js.lowerOf p) = true
               \/ Js.stray + 0x80 <= Js.lowerOf p < Js.stray + 0x100).
  { destruct Hkind as [Hsc | Hst].
    - left. now apply lowerOf_scalar.
    - right. rewrite lowerOf_above_points; lia. }
  destruct (utf8_numeric _ Hk Hout) as [Hlow Hnum].
  assert (Hid : Js.lowerOf p = p) by (apply lowerOf_into_small; lia).
  rewrite Hid in *.
  pose proof (byte_range c) as Hc.
  assert (Hb : Js.byte c < 0x80).
  { destruct (Z.lt_ge_cases (Js.byte c) 0x80) as [Hlt | Hge];
      [exact Hlt | specialize (Hmore Hge); lia]. }
  destruct (Hone Hb) as [-> ->]. rewrite char_byte in Hnum.
  simpl in Hsplit. subst s. simpl. now rewrite Hnum, Htail.
Qed.

(** On a printed integer, matching with and without case folding agree. *)
Lemma SubstringNoCase_toString (q : string) (n : Z) :
  SubstringNoCase q (Js.toString n) <-> Substring q (Js.toString n).
Proof.
  unfold SubstringNoCase, Js.toLowerCase.
  rewrite (lowerPoints_numeric false _ (toString_numeric n)). split; intros H.
  - pose proof (allChars_Substring numeric _ _ H (toString_numeric n)) as Hq.
    apply lowerPoints_into_numeric in Hq.
    now rewrite (lowerPoints_numeric false _ Hq) in H.
  - pose proof (allChars_Substring numeric _ _ H (toString_numeric n)) as Hq.
    now rewrite (lowerPoints_numeric false _ Hq).
Qed.
End TextFacts.

(** ** The reservation list: search *)

Section SearchFilter.
Import DataContext ViewReservations Wording.
Variable Date_parse : string -> Js.Date.

Lemma matchesSearch_spec (q : string) (r : Reservation) :
  matchesSearch q r = true <-> MatchesPhoneExact q r.
Proof.
  unfold matchesSearch, MatchesPhoneExact.
  rewrite !orb_true_iff, !includes_Substring, SubstringNoCase_toString.
  unfold SubstringNoCase. tauto.
Qed.

Lemma matchesDate_spec (dateFilter : DateFilter) (r : Reservation) :
  matchesDate Date_parse dateFilter r = true
  <-> InDateRange Date_parse dateFilter r.
Proof.
  unfold matchesDate, InDateRange, Js.Date_ge, Js.Date_le.
  destruct (Date_parse (appointmentDate r)) as [t|],
           (Date_parse (start dateFilter)) as [a|],
           (Date_parse (end' dateFilter)) as [b|]; simpl;
    try (split; [discriminate | intros [t' [a' [b' [H1 [H2 [H3 _]]]]]];
                                discriminate]).
  - rewrite andb_true_iff, !Z.leb_le. split.
    + intros H. exists t, a, b. auto.
    + intros [t' [a' [b' [H1 [H2 [H3 H]]]]]].
      injection H1 as <-. injection H2 as <-. injection H3 as <-. exact H.
  - rewrite andb_false_r. split; [discriminate|].
    intros [t' [a' [b' [H1 [H2 [H3 _]]]]]]. discriminate.
Qed.

Lemma ordinary_toString (n : Z) : ordinary (Js.toString n) = true.
Proof.
  unfold ordinary. pose proof (toString_numeric n) as H.
  induction (Js.toString n) as [|c s IH]; [reflexivity|].
  simpl in H. apply andb_true_iff in H. destruct H as [Hc Hs].
  pose proof (numeric_byte c Hc) as Hb. pose proof (byte_range c) as Hr.
  rewrite codePoints_one by lia. cbn [forallb].
  rewrite (IH Hs), andb_true_r.
  unfold Js.scalar, Text.plainPoint.
  rewrite !andb_true_iff, !negb_true_iff, andb_false_iff, Z.leb_le, Z.ltb_lt,
    !Z.leb_gt, !Z.eqb_neq.
  lia.
Qed.

(** C1 (as amended).  The list keeps a reservation exactly when it is in
    the collection, its appointment date lies in the date range, and the
    query is a case-insensitive substring of the number printed in
    decimal, of the first name or of the last name, or is a substring,
    exactly as typed, of the phone.  Case-insensitive means a substring
    once both sides are lower-cased; for a query and names that are
    ordinary text this is the same as occurring letter for letter, case
    apart. *)
Theorem search_keeps_exactly_the_matches
    (reservations : list Reservation) (searchTerm : string)
    (dateFilter : DateFilter) (r : Reservation) :
  (In r (filteredReservations Date_parse reservations searchTerm dateFilter)
   <-> In r reservations
       /\ InDateRange Date_parse dateFilter r
       /\ MatchesPhoneExact searchTerm r)
  /\ (ordinary searchTerm = true ->
      ordinary (firstName r) = true ->
      ordinary (lastName r) = true ->
      (In r (filteredReservations Date_parse reservations searchTerm
               dateFilter)
       <-> In r reservations
           /\ InDateRange Date_parse dateFilter r
           /\ MatchesLetterForLetter searchTerm r)).
Proof.
  assert (Hkept :
    In r (filteredReservations Date_parse reservations searchTerm dateFilter)
    <-> In r reservations
        /\ InDateRange Date_parse dateFilter r
        /\ MatchesPhoneExact searchTerm r).
  { unfold filteredReservations.
    rewrite filter_In, andb_true_iff, matchesSearch_spec, matchesDate_spec.
    tauto. }
  split; [exact Hkept|].
  intros Hq Hf Hl. rewrite Hkept.
  unfold MatchesPhoneExact, MatchesLetterForLetter.
  rewrite (folded_is_letter_for_letter _ _ Hq (ordinary_toString _)),
    (folded_is_letter_for_letter _ _ Hq Hf),
    (folded_is_letter_for_letter _ _ Hq Hl).
  reflexivity.
Qed.
End SearchFilter.

(** The capital E with acute accent, the capital O with diaeresis and the
    Cyrillic and Greek capitals are folded like the Latin ones. *)
Example toLowerCase_on_samples :
  Js.toLowerCase "ÉMILE ÖZDEMIR" = "émile özdemir"
  /\ Js.toLowerCase "Ольга ΝΊΚΗ" = "ольга νίκη"
  /\ Js.toLowerCase "ΟΔΟΣ" = "οδος"
  /\ Js.codePoints (Js.toLowerCase "İ") = [0x69; 0x307].
Proof. vm_compute. repeat split; reflexivity. Qed.

(** A reservation for Émile is found by a query typed in other case, on
    both sides of the accent. *)
Lemma search_keeps_exactly_the_matches_witness :
  let dateFilter := ViewReservations.mkDateFilter "2025-11-01" "2025-11-30" in
  Wording.ordinary "éMILE" = true
  /\ Wording.ordinary "Émile" = true
  /\ Wording.OccursIgnoringCase "éMILE" "Émile"
  /\ In Host.nightOwl
       (ViewReservations.filteredReservations Host.isoDate
          [Host.bram; Host.nightOwl] "éMILE" dateFilter).
Proof.
  cbv zeta.
  assert (Hocc : Wording.OccursIgnoringCase "éMILE" "Émile").
  { exists [], (Js.codePoints "Émile"), []. split; [vm_compute; reflexivity|].
    apply same_letters. vm_compute. reflexivity. }
  split; [vm_compute; reflexivity|]. split; [vm_compute; reflexivity|].
  split; [exact Hocc|].
  assert (Hq : Wording.ordinary "éMILE" = true) by (vm_compute; reflexivity).
  assert (Hf : Wording.ordinary (DataContext.firstName Host.nightOwl) = true)
    by (vm_compute; reflexivity).
  assert (Hl : Wording.ordinary (DataContext.lastName Host.nightOwl) = true)
    by (vm_compute; reflexivity).
  destruct (search_keeps_exactly_the_matches Host.isoDate
              [Host.bram; Host.nightOwl] "éMILE"
              (ViewReservations.mkDateFilter "2025-11-01" "2025-11-30")
              Host.nightOwl) as [_ Hthm].
  refine (proj2 (Hthm Hq Hf Hl) _).
  split; [right; left; reflexivity|]. split.
  - exists 1762041600000, 1761955200000, 1764460800000.
    split; [vm_compute; reflexivity|]. split; [vm_compute; reflexivity|].
    split; [vm_compute; reflexivity|]. split; discriminate.
  - right. left. exact Hocc.
Defined.

(** C1 (as stated) fails in two ways.  The phone is compared as typed:
    the query "EXT" is a case-insensitive substring of the phone
    "+31 20 555 0101 ext 7", letter for letter too, the appointment date is
    inside the range, and the list still drops the reservation.  And the
    date range always applies: the query "anna" matches the first name, so
    the amended criterion of the search is met as well, and the list drops
    the reservation because its appointment lies outside the range. *)
Lemma search_phone_is_case_sensitive :
  let october := ViewReservations.mkDateFilter "2025-10-01" "2025-10-07" in
  let november := ViewReservations.mkDateFilter "2025-11-01" "2025-11-30" in
  In Host.anna [Host.anna]
  /\ (Wording.InDateRange Host.isoDate october Host.anna
      /\ Wording.OccursIgnoringCase "EXT" (DataContext.phone Host.anna)
      /\ ~ (In Host.anna
              (ViewReservations.filteredReservations Host.isoDate
                 [Host.anna] "EXT" october)
            <-> Wording.MatchesAllFolded "EXT" Host.anna))
  /\ (Wording.MatchesPhoneExact "anna" Host.anna
      /\ ~ Wording.InDateRange Host.isoDate november Host.anna
      /\ ~ (In Host.anna
              (ViewReservations.filteredReservations Host.isoDate
                 [Host.anna] "anna" november)
            <-> Wording.MatchesAllFolded "anna" Host.anna)).
Proof.
  cbv zeta. split; [left; reflexivity|]. split.
  - split.
    { exists 1759449600000, 1759276800000, 1759795200000.
      split; [vm_compute; reflexivity|]. split; [vm_compute; reflexivity|].
      split; [vm_compute; reflexivity|]. split; discriminate. }
    split.
    { exists (Js.codePoints "+31 20 555 0101 "), (Js.codePoints "ext"),
        (Js.codePoints " 7").
      split; [vm_compute; reflexivity|].
      apply same_letters. vm_compute. reflexivity. }
    intros [_ H].
    assert (Hkept : In Host.anna
              (ViewReservations.filteredReservations Host.isoDate
                 [Host.anna] "EXT"
                 (ViewReservations.mkDateFilter "2025-10-01" "2025-10-07"))).
    { apply H. right; right; right.
      apply includes_Substring. vm_compute. reflexivity. }
    vm_compute in Hkept. exact Hkept.
  - assert (Hfirst : SubstringNoCase "anna" (DataContext.firstName Host.anna))
      by (apply includes_Substring; vm_compute; reflexivity).
    split; [right; left; exact Hfirst|]. split.
    { intros [t [from [to [Ht [Hfrom [Hto Hle]]]]]].
      vm_compute in Ht, Hfrom, Hto.
      injection Ht as <-. injection Hfrom as <-. injection Hto as <-. lia. }
    intros [_ H].
    assert (Hkept : In Host.anna
              (ViewReservations.filteredReservations Host.isoDate
                 [Host.anna] "anna"
                 (ViewReservations.mkDateFilter "2025-11-01" "2025-11-30"))).
    { apply H. right; left; exact Hfirst. }
    vm_compute in Hkept. exact Hkept.
Qed.

(** A capital I with dot above in the query is lower-cased to two
    characters, which the small i of a name does not start: the query
    "ÖZDEMİR" does not find the last name "Özdemir", while "ÖZDEMIR"
    does. *)
Example dotted_capital_in_the_query :
  let november := ViewReservations.mkDateFilter "2025-11-01" "2025-11-30" in
  ViewReservations.filteredReservations Host.isoDate [Host.nightOwl]
    "ÖZDEMİR" november = []
  /\ ViewReservations.filteredReservations Host.isoDate [Host.nightOwl]
       "ÖZDEMIR" november = [Host.nightOwl].
Proof. vm_compute. split; reflexivity. Qed.

(** ** Sorting keeps the elements *)

Section SortFacts.
Context {A : Type} (cmp : A -> A -> Z).

Lemma insertSorted_Permutation (x : A) (l : list A) :
  Permutation (x :: l) (Js.insertSorted cmp x l).
Proof.
  induction l as [|y l IH]; simpl.
  - apply Permutation_refl.
  - destruct (cmp x y <=? 0).
    + apply Permutation_refl.
    + eapply perm_trans; [apply perm_swap|]. now apply perm_skip.
Qed.

Lemma sort_Permutation (l : list A) : Permutation l (Js.sort cmp l).
Proof.
  induction l as [|x l IH]; simpl.
  - apply perm_nil.
  - eapply perm_trans; [apply perm_skip, IH|].
    apply insertSorted_Permutation.
Qed.

Lemma sort_In (x : A) (l : list A) : In x (Js.sort cmp l) <-> In x l.
Proof.
  split; apply Permutation_in;
    [apply Permutation_sym|]; apply sort_Permutation.
Qed.

Lemma sort_length (l : list A) : List.length (Js.sort cmp l) = List.length l.
Proof. symmetry. apply Permutation_length, sort_Permutation. Qed.
End SortFacts.

(** ** Analytics: period buckets *)

Section Buckets.
Import DataContext ReservationAnalytics Wording.
Variable Date_parse : string -> Js.Date.




End Buckets.



(** The sample collection on the evening of 2 October 2025 (UTC): Anna was
    entered that afternoon, Bram two days earlier. *)
Example today_bucket_on_samples :
  map DataContext.id
      (ReservationAnalytics.filteredReservations Host.isoDate
         (Js.localMidnight Host.utc)
         [Host.bram; Host.anna] Host.evening ReservationAnalytics.Today)
  = ["a1"].
Proof. vm_compute. reflexivity. Qed.

Example yesterday_bucket_on_samples :
  ReservationAnalytics.filteredReservations Host.isoDate
    (Js.localMidnight Host.utc)
    [Host.bram; Host.anna] Host.evening ReservationAnalytics.Yesterday
  = [].
Proof. vm_compute. reflexivity. Qed.

Example week_bucket_on_samples :
  map DataContext.id
      (ReservationAnalytics.filteredReservations Host.isoDate
         (Js.localMidnight Host.utc)
         [Host.bram; Host.anna] Host.evening ReservationAnalytics.Week)
  = ["a1"; "b2"].
Proof. vm_compute. reflexivity. Qed.

(** ** The reservation context *)

Section ContextWrites.
Import DataContext Writes.
Variable supabase : Supabase.

(** Running a context method when the request settles with data. *)
Lemma await_data {A} (request : table supabase -> Settled A * table supabase)
    (w : World supabase) (a : A) (t' : table supabase) :
  request (db w) = (Data a, t') ->
  await supabase request w
  = (Normal (inl a),
     {| reservations := reservations w; console := console w; db := t' |}).
Proof. intros H. unfold await. now rewrite H. Qed.

(** C6.  When the insert succeeds and returns [row], the create ends
    normally and the local collection becomes [row] followed by the
    previous collection: the new reservation is listed first. *)
Theorem create_lists_new_reservation_first
    (w : World supabase) (reservation : Draft.t) (row : Reservation)
    (t' : table supabase) :
  insert supabase reservation (db w) = (Data row, t') ->
  fst (addReservation supabase reservation w) = Normal tt
  /\ reservations (snd (addReservation supabase reservation w))
     = row :: reservations w
  /\ hd_error (reservations (snd (addReservation supabase reservation w)))
     = Some row.
Proof.
  intros H. unfold addReservation, tryCatch, bind.
  rewrite (await_data _ _ _ _ H). simpl. auto.
Qed.

Lemma spread_MergedExactly (res : Reservation) (u : Partial.t) :
  MergedExactly res u (spread res u).
Proof.
  unfold MergedExactly, suppliedOrKept, spread, over.
  destruct u as [i n f l p ad at' tp dp ip ds rs di no ar cr]; simpl.
  repeat split;
    match goal with |- match ?x with _ => _ end => destruct x; reflexivity end.
Qed.

(** C7.  When the update succeeds, the update ends normally; the local
    collection keeps its length; position by position, a record whose id
    matches is replaced by the record merged with the update and every
    other record is the same as before; and in a merged record exactly
    the fields named by the update carry the supplied values, all other
    fields being unchanged. *)
Theorem update_merges_into_matching_record
    (w : World supabase) (id' : string) (updates : Partial.t)
    (t' : table supabase) :
  update supabase updates id' (db w) = (Data tt, t') ->
  let w' := snd (updateReservation supabase id' updates w) in
  fst (updateReservation supabase id' updates w) = Normal tt
  /\ List.length (reservations w') = List.length (reservations w)
  /\ (forall i res,
         nth_error (reservations w) i = Some res ->
         id res = id' ->
         exists res', nth_error (reservations w') i = Some res'
                      /\ MergedExactly res updates res')
  /\ (forall i res,
         nth_error (reservations w) i = Some res ->
         id res <> id' ->
         nth_error (reservations w') i = Some res).
Proof.
  intros H. unfold updateReservation, tryCatch, bind.
  rewrite (await_data _ _ _ _ H). simpl.
  split; [reflexivity|]. split; [apply length_map|]. split.
  - intros i res Hi Hid. exists (spread res updates).
    split; [|apply spread_MergedExactly].
    rewrite nth_error_map, Hi. simpl.
    apply String.eqb_eq in Hid. now rewrite Hid.
  - intros i res Hi Hid. rewrite nth_error_map, Hi. simpl.
    apply String.eqb_neq in Hid. now rewrite Hid.
Qed.

(** C8.  When the database request of a create, update or delete fails
    (an error response or a rejected request), the method throws that same
    error to its caller, the local collection is what it was, the database
    saw exactly that one request, and one error line was logged. *)
Theorem failed_write_leaves_collection_and_rethrows
    (wr : Write) (w : World supabase) (e : Js.Error) :
  failsWith supabase wr (db w) e ->
  fst (perform supabase wr w) = Throw e
  /\ reservations (snd (perform supabase wr w)) = reservations w
  /\ db (snd (perform supabase wr w)) = snd (request supabase wr (db w))
  /\ List.length (console (snd (perform supabase wr w)))
     = S (List.length (console w)).
Proof.
  unfold failsWith.
  destruct wr as [reservation | id' updates | id']; simpl;
    unfold addReservation, updateReservation, deleteReservation,
           tryCatch, bind, await.
  - destruct (insert supabase reservation (db w)) as [[row|err|err] t'];
      simpl; intros [H|H]; try discriminate; injection H as ->;
      rewrite length_app; simpl; repeat split; lia.
  - destruct (update supabase updates id' (db w)) as [[u|err|err] t'];
      simpl; intros [H|H]; try discriminate; injection H as ->;
      rewrite length_app; simpl; repeat split; lia.
  - destruct (delete supabase id' (db w)) as [[u|err|err] t'];
      simpl; intros [H|H]; try discriminate; injection H as ->;
      rewrite length_app; simpl; repeat split; lia.
Qed.
End ContextWrites.

Lemma create_lists_new_reservation_first_witness :
  hd_error
    (DataContext.reservations
       (snd (DataContext.addReservation Host.online Host.walkIn
               (Writes.loaded Host.online []))))
  = Some (Host.stored Host.walkIn 0).
Proof.
  apply (create_lists_new_reservation_first Host.online
           (Writes.loaded Host.online []) Host.walkIn
           (Host.stored Host.walkIn 0) [Host.stored Host.walkIn 0]).
  reflexivity.
Defined.

Lemma update_merges_into_matching_record_witness :
  List.length
    (DataContext.reservations
       (snd (DataContext.updateReservation Host.online "a1" Writes.phoneEdit
               (Writes.loaded Host.online [Host.anna; Host.bram]))))
  = 2%nat.
Proof.
  apply (update_merges_into_matching_record Host.online
           (Writes.loaded Host.online [Host.anna; Host.bram])
           "a1" Writes.phoneEdit
           [DataContext.spread Host.anna Writes.phoneEdit; Host.bram]).
  reflexivity.
Defined.

Lemma failed_write_leaves_collection_and_rethrows_witness :
  fst (Writes.perform Host.offline (Writes.Delete "a1")
         (Writes.loaded Host.offline tt))
  = Throw Host.unreachable
  /\ DataContext.reservations
       (snd (Writes.perform Host.offline (Writes.Delete "a1")
               (Writes.loaded Host.offline tt)))
     = [Host.anna; Host.bram].
Proof.
  pose proof (failed_write_leaves_collection_and_rethrows Host.offline
                (Writes.Delete "a1") (Writes.loaded Host.offline tt)
                Host.unreachable) as H.
  destruct H as [Hthrow [Hkeep _]].
  - right. reflexivity.
  - split; [exact Hthrow | exact Hkeep].
Defined.

(** ** Payment toggles *)

Section Toggles.
Import DataContext ViewReservations.

(** C9.  The rest button's update names both [restPaidStatus] and
    [isPaid].  Switching rest-paid on sets [isPaid] to true in that one
    update; switching it off sends [isPaid] back with its current value, so
    the merged record keeps it.  The deposit button's update names
    [depositPaidStatus] only and the merged record keeps [isPaid]. *)
Theorem rest_toggle_raises_legacy_flag (r : Reservation) :
  (restPaidStatus r = false ->
     Partial.restPaidStatus (restToggle r) = Some true
     /\ Partial.isPaid (restToggle r) = Some true
     /\ restPaidStatus (spread r (restToggle r)) = true
     /\ isPaid (spread r (restToggle r)) = true)
  /\ (restPaidStatus r = true ->
        Partial.restPaidStatus (restToggle r) = Some false
        /\ Partial.isPaid (restToggle r) = Some (isPaid r)
        /\ restPaidStatus (spread r (restToggle r)) = false
        /\ isPaid (spread r (restToggle r)) = isPaid r)
  /\ Partial.isPaid (depositToggle r) = None
  /\ Partial.depositPaidStatus (depositToggle r)
     = Some (negb (depositPaidStatus r))
  /\ isPaid (spread r (depositToggle r)) = isPaid r
  /\ (forall supabase,
         onClickRest supabase r
         = updateReservation supabase (id r) (restToggle r))
  /\ (forall supabase,
         onClickDeposit supabase r
         = updateReservation supabase (id r) (depositToggle r)).
Proof.
  split; [|split].
  - intros H. simpl. rewrite H. auto.
  - intros H. simpl. rewrite H. auto.
  - simpl. auto 10.
Qed.
End Toggles.

Local Open Scope list_scope.

(** ** Printed integers *)

Lemma toString_inj (a b : Z) : Js.toString a = Js.toString b -> a = b.
Proof.
  unfold Js.toString. intros H. apply DecimalZ.to_int_inj.
  assert (Hnil : forall n, Z.to_int n <> Decimal.Pos Decimal.Nil
                           /\ Z.to_int n <> Decimal.Neg Decimal.Nil).
  { intros [|p|p]; simpl; split; try discriminate;
      intros E; injection E as E; now apply (Unsigned.to_uint_nonnil p). }
  apply (f_equal NilZero.int_of_string) in H.
  rewrite !NilZero.isi in H by apply Hnil.
  now injection H.
Qed.

Lemma append_cancel_l (s a b : string) : (s ++ a = s ++ b)%string -> a = b.
Proof.
  induction s as [|c s IH]; simpl; intros H; [exact H|].
  injection H as H. now apply IH.
Qed.

(** ** The message identifier *)

Section MessageId.
Import InboundEmail Ingest.

Lemma messageId_headerless (emailData : InboundEmailPayload) (clock : Clock) :
  headerless emailData ->
  messageId emailData clock
  = (Js.strOf (sender emailData) ++ "-" ++ Js.toString (Date_now clock))%string.
Proof. unfold messageId. now intros [-> | ->]. Qed.

(** C3 (as amended).  The stored message identifier is the supplied
    Message-Id when that value is present and not empty.  When it is
    missing or empty the identifier is the sender (the text "undefined"
    when there is no sender), a hyphen, and the current millisecond
    timestamp in decimal.  Hence two requests without a usable Message-Id,
    with the same sender, taken at different timestamps, get different
    identifiers. *)
Theorem message_id_is_header_or_sender_and_time
    (emailData : InboundEmailPayload) (clock : Clock) :
  (forall hdrs rcv,
      message_id (emailRow emailData clock hdrs rcv)
      = messageId emailData clock)
  /\ (forall h,
         Message_Id emailData = Some h -> h <> EmptyString ->
         messageId emailData clock = h)
  /\ (headerless emailData ->
      messageId emailData clock
      = (Js.strOf (sender emailData) ++ "-"
         ++ Js.toString (Date_now clock))%string)
  /\ (forall other clock',
         headerless emailData -> headerless other ->
         sender other = sender emailData ->
         Date_now clock' <> Date_now clock ->
         messageId other clock' <> messageId emailData clock).
Proof.
  split; [reflexivity|]. split; [|split].
  - intros h H Hne. unfold messageId. rewrite H.
    destruct h; [contradiction | reflexivity].
  - apply messageId_headerless.
  - intros other clock' H1 H2 Hs Hne Heq.
    rewrite (messageId_headerless _ _ H1), (messageId_headerless _ _ H2), Hs
      in Heq.
    apply append_cancel_l in Heq. simpl in Heq. injection Heq as Heq.
    now apply toString_inj in Heq.
Qed.

(** C3 (as stated) fails when the Message-Id key is present and empty: the
    identifier is then built from the sender and the clock, and the part
    after the sender starts with a hyphen. *)
Lemma blank_message_id_is_replaced :
  ~ (forall h, Message_Id blankHeader = Some h ->
               messageId blankHeader clock = h)
  /\ messageId blankHeader clock = "a@b.com-1759429800000"%string
  /\ messageId letter clock <> ("a@b.com" ++ "1759429800000")%string.
Proof.
  split; [|split].
  - intros H. specialize (H EmptyString eq_refl). discriminate.
  - reflexivity.
  - discriminate.
Qed.

(** The scenario of the specification: sender "a@b.com", no Message-Id,
    two different call times. *)
Example two_call_times_two_identifiers :
  messageId letter (mkClock 1759429800000 0)
  <> messageId letter (mkClock 1759429800001 0).
Proof. discriminate. Qed.
End MessageId.

(** ** The inbound e-mail hook *)

Section Hook.
Import InboundEmail Ingest.
Variable supabase : Supabase.
Variable JSON_parse : string -> option Json.
Variable parseInt : string -> option Z.
Variable toISOString : Z -> string.

Lemma readBody_run (req : Request) (w : World supabase) :
  readBody supabase req w = (fst (readBody supabase req w), w).
Proof.
  unfold readBody, awaitBody, bind, throw, ret.
  destruct (Js.includes _ "application/json").
  - destruct (json req); reflexivity.
  - destruct (_ || _); [|reflexivity].
    destruct (formData req); reflexivity.
Qed.

Lemma readBody_any_world (req : Request) (w w' : World supabase) :
  fst (readBody supabase req w) = fst (readBody supabase req w').
Proof.
  unfold readBody, awaitBody, bind, throw, ret.
  destruct (Js.includes _ "application/json").
  - destruct (json req); reflexivity.
  - destruct (_ || _); [|reflexivity].
    destruct (formData req); reflexivity.
Qed.

Lemma parseHeaders_run (emailData : InboundEmailPayload) (w : World supabase) :
  exists hdrs lines,
    parseHeaders supabase JSON_parse emailData w
    = (Normal hdrs, mkWorld (console w ++ lines) (db w) (sent w))
    /\ filter isError lines = [].
Proof.
  unfold parseHeaders, console_write, modify, bind, ret.
  destruct w as [c t s]; simpl.
  destruct (message_headers emailData) as [[s0|j]|].
  - destruct (Js.truthy s0).
    + destruct (JSON_parse s0) as [j|].
      * exists (Some j), []. now rewrite app_nil_r.
      * exists None, [Js.mkLine Js.warn "Could not parse message headers"].
        split; reflexivity.
    + exists None, []. now rewrite app_nil_r.
  - destruct (jsonTruthy j).
    + exists (Some j), []. now rewrite app_nil_r.
    + exists None, []. now rewrite app_nil_r.
  - exists None, []. now rewrite app_nil_r.
Qed.

Lemma receivedAt_run (emailData : InboundEmailPayload) (clock : Clock)
    (w : World supabase) :
  receivedAt supabase parseInt toISOString emailData clock w
  = (fst (receivedAt supabase parseInt toISOString emailData clock w), w).
Proof.
  unfold receivedAt, throw, ret.
  destruct (timestamp emailData) as [ts|]; [|reflexivity].
  destruct (Js.truthy ts); [|reflexivity].
  destruct (parseInt ts) as [n|]; [|reflexivity].
  destruct (Z.abs (n * 1000) <=? maxTime); reflexivity.
Qed.

(** One pass of the loop body never throws: it sends one request and
    writes at most one error line. *)
Lemma storeAttachment_run (email : Email) (a : Attachment) (w : World supabase) :
  let answer := fst (insertAttachment supabase (attachmentRow email a) (db w)) in
  storeAttachment supabase email a w
  = (Normal tt,
     mkWorld (console w ++ lineFor answer)
             (snd (insertAttachment supabase (attachmentRow email a) (db w)))
             (sent w ++ [AttachmentInsertion (attachmentRow email a) answer])).
Proof.
  unfold storeAttachment, tryCatch, bind, await, console_write, modify, ret.
  destruct (insertAttachment supabase (attachmentRow email a) (db w))
    as [[u|err|err] t']; simpl; try reflexivity.
  now rewrite app_nil_r.
Qed.

(** The whole loop: every attachment is attempted, in order, whatever the
    earlier answers were. *)
Lemma attachment_loop_run (email : Email) (atts : list Attachment) :
  forall w : World supabase,
  exists answers t',
    List.length answers = List.length atts
    /\ forOf atts (storeAttachment supabase email) w
       = (Normal tt,
          mkWorld (console w ++ flat_map lineFor answers) t'
                  (sent w ++ attachmentEvents email atts answers)).
Proof.
  induction atts as [|a atts IH]; intros w.
  - exists [], (db w). split; [reflexivity|].
    destruct w; simpl. unfold ret, attachmentEvents. simpl.
    now rewrite !app_nil_r.
  - simpl. unfold bind at 1. rewrite storeAttachment_run.
    set (answer := fst (insertAttachment supabase (attachmentRow email a) (db w))).
    set (w1 := mkWorld _ _ _).
    destruct (IH w1) as [answers [t' [Hlen Hrun]]].
    exists (answer :: answers), t'. split; [simpl; now rewrite Hlen|].
    rewrite Hrun. subst w1. simpl. unfold attachmentEvents. simpl.
    now rewrite <- !app_assoc.
Qed.

(** The run equation [Hrun] shows an invocation that returned or threw
    before any request was sent. *)
Ltac ended_before_insert Hrun :=
  injection Hrun as <- <-; left; left; reflexivity.

(** The run equation [Hrun] shows an invocation whose e-mail insert was
    answered with [answer], which carries no row. *)
Ltac ended_at_insert Hrun emailData hdrs rcv answer :=
  unfold bind, console_write, modify, throw, ret in Hrun; simpl in Hrun;
  injection Hrun as <- <-;
  left; right; exists emailData, hdrs, rcv, answer;
  split; [reflexivity|]; split; [reflexivity|]; discriminate.

(** How an invocation can end, with the requests it sent.  Either no
    e-mail insert settled with data, or one did and the response is the
    success envelope built from it. *)
Lemma handler_run (env : Env) (clock : Clock) (req : Request) (w : World supabase)
    (c : Completion Response) (w' : World supabase) :
  handler supabase JSON_parse parseInt toISOString env clock req w = (c, w') ->
  (sent w' = sent w
   \/ exists emailData hdrs rcv answer,
        fst (readBody supabase req w) = Normal emailData
        /\ sent w'
           = sent w ++ [EmailInsertion (emailRow emailData clock hdrs rcv) answer]
        /\ forall email, answer <> Data email)
  \/ exists emailData hdrs rcv email answers,
       fst (readBody supabase req w) = Normal emailData
       /\ List.length answers = List.length (attachmentsOf emailData)
       /\ c = Normal {| status := 200;
                        body := Success (id email) "Email processed successfully" |}
       /\ sent w'
          = sent w
            ++ EmailInsertion (emailRow emailData clock hdrs rcv) (Data email)
               :: attachmentEvents email (attachmentsOf emailData) answers
       /\ filter isError (console w')
          = filter isError (console w) ++ flat_map lineFor answers.
Proof.
  unfold handler. intros Hrun.
  destruct (String.eqb (method req) "OPTIONS");
    [ended_before_insert Hrun|].
  unfold tryCatch, process in Hrun. unfold bind at 1 in Hrun.
  destruct (Js.truthyOpt (SUPABASE_URL env)
            && Js.truthyOpt (SUPABASE_SERVICE_ROLE_KEY env));
    [|ended_before_insert Hrun].
  unfold ret at 1 in Hrun. unfold bind at 1 in Hrun.
  rewrite readBody_run in Hrun.
  destruct (fst (readBody supabase req w)) as [emailData|e] eqn:Hbody;
    [|ended_before_insert Hrun].
  unfold bind at 1, console_write at 1, modify at 1 in Hrun.
  unfold bind at 1 in Hrun.
  match type of Hrun with
  | context [parseHeaders supabase JSON_parse emailData ?w1] =>
      destruct (parseHeaders_run emailData w1) as [hdrs [lines [Hh Hlines]]]
  end.
  rewrite Hh in Hrun. simpl console in Hrun; simpl db in Hrun; simpl sent in Hrun.
  unfold bind at 1 in Hrun. rewrite receivedAt_run in Hrun.
  match type of Hrun with
  | context [fst (receivedAt ?a ?b ?c ?d ?e ?f)] =>
      destruct (fst (receivedAt a b c d e f)) as [rcv|e0]
  end; [|ended_before_insert Hrun].
  unfold bind at 1, await at 1 in Hrun.
  simpl console in Hrun; simpl db in Hrun; simpl sent in Hrun.
  destruct (insertEmail supabase (emailRow emailData clock hdrs rcv) (db w))
    as [[email|err|err] t'].
  - right. exists emailData, hdrs, rcv, email.
    unfold bind at 1, console_write at 1, modify at 1 in Hrun.
    simpl console in Hrun; simpl db in Hrun; simpl sent in Hrun.
    unfold attachmentsOf.
    destruct (attachments emailData) as [[|first others]|].
    + exists []. unfold bind, ret in Hrun; simpl in Hrun.
      injection Hrun as <- <-. simpl.
      rewrite !filter_app, Hlines; simpl. rewrite !app_nil_r.
      repeat split; reflexivity.
    + unfold bind at 1 in Hrun.
      unfold bind at 1, console_write at 1, modify at 1 in Hrun.
      simpl console in Hrun; simpl db in Hrun; simpl sent in Hrun.
      match type of Hrun with
      | context [forOf (first :: others) ?body ?w1] =>
          destruct (attachment_loop_run email (first :: others) w1)
            as [answers [t'' [Hlen Hloop]]]
      end.
      exists answers. rewrite Hloop in Hrun. unfold ret in Hrun.
      injection Hrun as <- <-. simpl console; simpl sent.
      split; [reflexivity|]. split; [exact Hlen|]. split; [reflexivity|].
      split.
      * now rewrite <- app_assoc.
      * rewrite !filter_app, Hlines; simpl. rewrite !app_nil_r.
        f_equal. clear. induction answers as [|a l IH]; [reflexivity|].
        simpl. rewrite filter_app, IH. f_equal. now destruct a.
    + exists []. unfold bind, ret in Hrun; simpl in Hrun.
      injection Hrun as <- <-. simpl.
      rewrite !filter_app, Hlines; simpl. rewrite !app_nil_r.
      repeat split; reflexivity.
  - ended_at_insert Hrun emailData hdrs rcv (@Failed Email err).
  - ended_at_insert Hrun emailData hdrs rcv (@Rejected Email err).
Qed.

Lemma attachmentRows_events (email : Email) (atts : list Attachment) :
  forall answers,
    List.length answers = List.length atts ->
    attachmentRows (attachmentEvents email atts answers)
    = map (attachmentRow email) atts
    /\ attachmentAnswers (attachmentEvents email atts answers) = answers
    /\ emailRows (attachmentEvents email atts answers) = [].
Proof.
  unfold attachmentEvents.
  induction atts as [|a atts IH]; intros [|ans answers] Hlen;
    try discriminate; simpl; [auto|].
  injection Hlen as Hlen. destruct (IH answers Hlen) as [Hr [Ha He]].
  unfold attachmentRows, attachmentAnswers, emailRows in *.
  now rewrite Hr, Ha, He.
Qed.

Lemma emailRows_cons (row : EmailInsert) (answer : Settled Email)
    (l : list Event) :
  emailRows (EmailInsertion row answer :: l) = row :: emailRows l.
Proof. reflexivity. Qed.

Lemma emailRow_invariant (emailData : InboundEmailPayload) (clock : Clock)
    (hdrs : option Json) (rcv : string) :
  RowInvariant emailData (emailRow emailData clock hdrs rcv).
Proof.
  unfold RowInvariant, emailRow, fromAddress; simpl.
  repeat split.
  - intros H. now rewrite H.
  - intros Hs Hf. now rewrite Hs, Hf.
Qed.

(** C4.  In an invocation (starting with an empty request log) whose
    e-mail insert settled with the row [email], the handler ends normally
    with status 200 and the success envelope carrying [email]'s id,
    whatever the attachment inserts answered.  Every attachment of the
    payload was sent to the database once, in order, and the error lines on
    the console grew by exactly one line per attachment insert that did not
    succeed. *)
Theorem attachment_failures_stay_local
    (env : Env) (clock : Clock) (req : Request) (w : World supabase)
    (row : EmailInsert) (email : Email) :
  sent w = [] ->
  In (EmailInsertion row (Data email))
     (sent (snd (handler supabase JSON_parse parseInt toISOString
                   env clock req w))) ->
  let run := handler supabase JSON_parse parseInt toISOString env clock req w in
  fst run
  = Normal {| status := 200;
              body := Success (id email) "Email processed successfully" |}
  /\ (exists emailData,
         fst (readBody supabase req w) = Normal emailData
         /\ attachmentRows (sent (snd run))
            = map (attachmentRow email) (attachmentsOf emailData))
  /\ filter isError (console (snd run))
     = filter isError (console w)
       ++ flat_map lineFor (attachmentAnswers (sent (snd run)))
  /\ List.length (filter isError (console (snd run)))
     = (List.length (filter isError (console w))
        + List.length (filter failed (attachmentAnswers (sent (snd run)))))%nat.
Proof.
  intros Hfresh Hin run. subst run.
  destruct (handler supabase JSON_parse parseInt toISOString env clock req w)
    as [c w'] eqn:Hrun.
  simpl fst in *; simpl snd in *.
  destruct (handler_run _ _ _ _ _ _ Hrun)
    as [[Hnone | [emailData [hdrs [rcv [answer [_ [Hsent Hbad]]]]]]]
       | [emailData [hdrs [rcv [email0 [answers [Hb [Hl [Hc [Hs Hlog]]]]]]]]]].
  - rewrite Hnone, Hfresh in Hin. destruct Hin.
  - rewrite Hsent, Hfresh in Hin. simpl in Hin.
    destruct Hin as [Heq | []]. injection Heq as _ Heq.
    now apply Hbad in Heq.
  - rewrite Hfresh in Hs. simpl in Hs.
    destruct (attachmentRows_events email0 _ _ Hl) as [Hr [Ha He]].
    assert (email0 = email) as ->.
    { rewrite Hs in Hin. destruct Hin as [Heq | Hin].
      - now injection Heq.
      - unfold attachmentEvents in Hin. apply in_map_iff in Hin.
        destruct Hin as [p [Hp _]]. discriminate. }
    assert (Hans : attachmentAnswers (sent w') = answers).
    { rewrite Hs. exact Ha. }
    split; [exact Hc|]. split; [|split].
    + exists emailData. split; [exact Hb|]. rewrite Hs. exact Hr.
    + now rewrite Hans.
    + rewrite Hans, Hlog, length_app. f_equal.
      clear. induction answers as [|a l IH]; [reflexivity|].
      simpl. rewrite length_app, IH. now destruct a.
Qed.

(** C10.  Every e-mail row the handler sends to the database was built
    from the payload of the request and has direction "inbound", is_read
    false and is_archived false; its subject is "(No Subject)" when the
    payload has none, and its from address is "unknown@sender.com" when the
    payload has neither sender nor from. *)
Theorem written_rows_are_unread_inbound
    (env : Env) (clock : Clock) (req : Request)
    (console0 : list Js.ConsoleLine) (t0 : table supabase) :
  Forall
    (fun row =>
       exists emailData,
         fst (readBody supabase req (mkWorld console0 t0 [])) = Normal emailData
         /\ RowInvariant emailData row)
    (emailRows
       (sent (snd (handler supabase JSON_parse parseInt toISOString
                     env clock req (mkWorld console0 t0 []))))).
Proof.
  destruct (handler supabase JSON_parse parseInt toISOString env clock req
              (mkWorld console0 t0 [])) as [c w'] eqn:Hrun.
  simpl snd.
  destruct (handler_run _ _ _ _ _ _ Hrun)
    as [[Hnone | [emailData [hdrs [rcv [answer [Hb [Hsent _]]]]]]]
       | [emailData [hdrs [rcv [email0 [answers [Hb [Hl [_ [Hs _]]]]]]]]]].
  - rewrite Hnone. constructor.
  - rewrite Hsent. simpl. constructor; [|constructor].
    exists emailData. split; [exact Hb | apply emailRow_invariant].
  - rewrite Hs.
    destruct (attachmentRows_events email0 _ _ Hl) as [_ [_ He]].
    rewrite app_nil_l, emailRows_cons, He.
    constructor; [|constructor].
    exists emailData. split; [exact Hb | apply emailRow_invariant].
Qed.
End Hook.

Lemma attachment_failures_stay_local_witness :
  fst (InboundEmail.handler Ingest.mailbox Ingest.noJson Ingest.noInt
         Ingest.printTime Ingest.env Ingest.clock Ingest.post Ingest.fresh)
  = Normal {| InboundEmail.status := 200;
              InboundEmail.body :=
                InboundEmail.Success "mail-0" "Email processed successfully" |}
  /\ List.length
       (filter Ingest.isError
          (InboundEmail.console
             (snd (InboundEmail.handler Ingest.mailbox Ingest.noJson
                     Ingest.noInt Ingest.printTime Ingest.env Ingest.clock
                     Ingest.post Ingest.fresh))))
     = 2%nat.
Proof.
  pose proof (attachment_failures_stay_local Ingest.mailbox Ingest.noJson
                Ingest.noInt Ingest.printTime Ingest.env Ingest.clock
                Ingest.post Ingest.fresh
                (InboundEmail.emailRow Ingest.letter Ingest.clock None
                   "1759429800001")
                (InboundEmail.mkEmail "mail-0"
                   (InboundEmail.emailRow Ingest.letter Ingest.clock None
                      "1759429800001"))) as H.
  destruct H as [Hresp [_ [_ Hcount]]].
  - reflexivity.
  - vm_compute. left. reflexivity.
  - split; [exact Hresp | exact Hcount].
Defined.

(* ================================================================== *)
(** * Further properties of the reservation context *)
(* ================================================================== *)

Section ContextMore.
Import DataContext.
Variable supabase : Supabase.

Lemma await_settles {A} (request : table supabase -> Settled A * table supabase)
    (w : World supabase) :
  await supabase request w
  = (match fst (request (db w)) with
     | Data a => Normal (inl a)
     | Failed error => Normal (inr error)
     | Rejected e => Throw e
     end,
     {| reservations := reservations w;
        console := console w;
        db := snd (request (db w)) |}).
Proof.
  unfold await. destruct (request (db w)) as [[a|e|e] t']; reflexivity.
Qed.

Lemma deleteReservation_data (w : World supabase) (id' : string)
    (t' : table supabase) :
  delete supabase id' (db w) = (Data tt, t') ->
  deleteReservation supabase id' w
  = (Normal tt,
     {| reservations :=
          filter (fun res => negb (String.eqb (id res) id')) (reservations w);
        console := console w;
        db := t' |}).
Proof.
  intros H. unfold deleteReservation, tryCatch, bind.
  rewrite await_settles, H. reflexivity.
Qed.

Lemma updateReservation_data (w : World supabase) (id' : string)
    (updates : Partial.t) (t' : table supabase) :
  update supabase updates id' (db w) = (Data tt, t') ->
  updateReservation supabase id' updates w
  = (Normal tt,
     {| reservations :=
          map (fun res => if String.eqb (id res) id' then spread res updates
                          else res) (reservations w);
        console := console w;
        db := t' |}).
Proof.
  intros H. unfold updateReservation, tryCatch, bind.
  rewrite await_settles, H. reflexivity.
Qed.

Lemma addReservation_data (w : World supabase) (reservation : Draft.t)
    (row : Reservation) (t' : table supabase) :
  insert supabase reservation (db w) = (Data row, t') ->
  addReservation supabase reservation w
  = (Normal tt,
     {| reservations := row :: reservations w;
        console := console w;
        db := t' |}).
Proof.
  intros H. unfold addReservation, tryCatch, bind.
  rewrite await_settles, H. reflexivity.
Qed.

(** X1.  When the delete succeeds, the local collection loses exactly the
    records with that id: a record is listed afterwards iff it was listed
    before and has another id, and the records that stay keep their
    order. *)
Theorem delete_removes_exactly_that_id
    (w : World supabase) (id' : string) (t' : table supabase) :
  delete supabase id' (db w) = (Data tt, t') ->
  let w' := snd (deleteReservation supabase id' w) in
  fst (deleteReservation supabase id' w) = Normal tt
  /\ (forall r, In r (reservations w')
                <-> In r (reservations w) /\ id r <> id')
  /\ (forall r, In r (reservations w') -> id r <> id')
  /\ reservations w'
     = filter (fun res => negb (String.eqb (id res) id')) (reservations w)
  /\ (List.length (reservations w') <= List.length (reservations w))%nat.
Proof.
  intros H. rewrite (deleteReservation_data _ _ _ H). simpl.
  assert (Hin : forall r,
             In r (filter (fun res => negb (String.eqb (id res) id'))
                          (reservations w))
             <-> In r (reservations w) /\ id r <> id').
  { intros r. rewrite filter_In, negb_true_iff, String.eqb_neq. tauto. }
  split; [reflexivity|]. split; [exact Hin|]. split.
  - intros r Hr. now apply Hin in Hr.
  - split; [reflexivity | apply filter_length_le].
Qed.

Lemma map_unmatched (id' : string) (updates : Partial.t)
    (l : list Reservation) :
  (forall r, In r l -> id r <> id') ->
  map (fun res => if String.eqb (id res) id' then spread res updates else res) l
  = l.
Proof.
  induction l as [|r l IH]; intros H; simpl; [reflexivity|].
  rewrite IH by (intros r' Hr'; apply H; now right).
  assert (Hr : id r <> id') by (apply H; now left).
  apply String.eqb_neq in Hr. now rewrite Hr.
Qed.

Lemma filter_unmatched (id' : string) (l : list Reservation) :
  (forall r, In r l -> id r <> id') ->
  filter (fun res => negb (String.eqb (id res) id')) l = l.
Proof.
  induction l as [|r l IH]; intros H; simpl; [reflexivity|].
  assert (Hr : id r <> id') by (apply H; now left).
  apply String.eqb_neq in Hr. rewrite Hr. simpl.
  now rewrite IH by (intros r' Hr'; apply H; now right).
Qed.

(** X2.  An update, or a delete, addressed to an id that no local record
    has and accepted by the database leaves the local collection exactly
    as it was.  Each of the two holds on its own, whatever the database
    would answer to the other: the call returns normally, writes nothing to
    the console, and the collection is the one it found. *)
Theorem write_to_unknown_id_changes_nothing_locally
    (w : World supabase) (id' : string) :
  (forall r, In r (reservations w) -> id r <> id') ->
  (forall updates t',
      update supabase updates id' (db w) = (Data tt, t') ->
      updateReservation supabase id' updates w
      = (Normal tt,
         {| reservations := reservations w;
            console := console w;
            db := t' |}))
  /\ (forall t',
         delete supabase id' (db w) = (Data tt, t') ->
         deleteReservation supabase id' w
         = (Normal tt,
            {| reservations := reservations w;
               console := console w;
               db := t' |})).
Proof.
  intros Hfresh. split.
  - intros updates t' Hu. rewrite (updateReservation_data _ _ _ _ Hu).
    now rewrite map_unmatched.
  - intros t' Hd. rewrite (deleteReservation_data _ _ _ Hd).
    now rewrite filter_unmatched.
Qed.

(** X3.  Creating a reservation whose returned id is new to the collection
    and then deleting that id gives back the collection as it was before the
    create. *)
Theorem create_then_delete_restores_collection
    (w : World supabase) (reservation : Draft.t) (row : Reservation)
    (t1 t2 : table supabase) :
  insert supabase reservation (db w) = (Data row, t1) ->
  (forall r, In r (reservations w) -> id r <> id row) ->
  delete supabase (id row) t1 = (Data tt, t2) ->
  reservations
    (snd (deleteReservation supabase (id row)
            (snd (addReservation supabase reservation w))))
  = reservations w.
Proof.
  intros Hi Hfresh Hd. rewrite (addReservation_data _ _ _ _ Hi). simpl snd.
  rewrite (deleteReservation_data _ _ t2) by exact Hd.
  simpl. rewrite String.eqb_refl. simpl. now apply filter_unmatched.
Qed.

Lemma over_twice {A : Type} (old : A) (upd : option A) :
  over (over old upd) upd = over old upd.
Proof. now destruct upd. Qed.

Lemma spread_twice (res : Reservation) (u : Partial.t) :
  spread (spread res u) u = spread res u.
Proof. unfold spread; simpl. now rewrite !over_twice. Qed.

(** X4.  Sending the same update twice, both accepted, leaves the local
    collection as it was after the first: the merge is idempotent, also
    when the update renames the id. *)
Theorem repeated_update_is_idempotent
    (w : World supabase) (id' : string) (updates : Partial.t)
    (t1 t2 : table supabase) :
  update supabase updates id' (db w) = (Data tt, t1) ->
  update supabase updates id' t1 = (Data tt, t2) ->
  reservations
    (snd (updateReservation supabase id' updates
            (snd (updateReservation supabase id' updates w))))
  = reservations (snd (updateReservation supabase id' updates w)).
Proof.
  intros H1 H2. rewrite (updateReservation_data _ _ _ _ H1). simpl snd.
  rewrite (updateReservation_data _ _ _ t2) by exact H2. simpl.
  rewrite map_map. apply map_ext. intros r.
  destruct (String.eqb (id r) id') eqn:Hr; [|now rewrite Hr].
  destruct (String.eqb (id (spread r updates)) id');
    [apply spread_twice | reflexivity].
Qed.
End ContextMore.

Lemma delete_removes_exactly_that_id_witness :
  DataContext.reservations
    (snd (DataContext.deleteReservation Host.online "a1"
            (Writes.loaded Host.online [Host.anna; Host.bram])))
  = [Host.bram].
Proof.
  apply (delete_removes_exactly_that_id Host.online
           (Writes.loaded Host.online [Host.anna; Host.bram]) "a1" [Host.bram]).
  reflexivity.
Defined.

Lemma write_to_unknown_id_changes_nothing_locally_witness :
  (forall r, In r [Host.anna; Host.bram] -> DataContext.id r <> "zz")
  /\ DataContext.reservations
       (snd (DataContext.updateReservation Host.archive "zz" Writes.phoneEdit
               (Writes.loaded Host.archive [Host.anna; Host.bram])))
     = [Host.anna; Host.bram]
  /\ fst (DataContext.deleteReservation Host.archive "zz"
            (Writes.loaded Host.archive [Host.anna; Host.bram]))
     = Throw Host.denied.
Proof.
  assert (Hfresh : forall r, In r [Host.anna; Host.bram]
                             -> DataContext.id r <> "zz")
    by (simpl; intros r [<- | [<- | []]]; discriminate).
  split; [exact Hfresh|]. split; [|reflexivity].
  rewrite (proj1 (write_to_unknown_id_changes_nothing_locally Host.archive
                    (Writes.loaded Host.archive [Host.anna; Host.bram]) "zz"
                    Hfresh)
             Writes.phoneEdit [Host.anna; Host.bram] eq_refl).
  reflexivity.
Defined.

Lemma create_then_delete_restores_collection_witness :
  DataContext.reservations
    (snd (DataContext.deleteReservation Host.online "res-0"
            (snd (DataContext.addReservation Host.online Host.walkIn
                    (Writes.loaded Host.online [])))))
  = [Host.anna; Host.bram].
Proof.
  apply (create_then_delete_restores_collection Host.online
           (Writes.loaded Host.online []) Host.walkIn
           (Host.stored Host.walkIn 0) [Host.stored Host.walkIn 0] []).
  - reflexivity.
  - simpl. intros r [<- | [<- | []]]; discriminate.
  - reflexivity.
Defined.

Lemma repeated_update_is_idempotent_witness :
  DataContext.reservations
    (snd (DataContext.updateReservation Host.online "a1" Writes.phoneEdit
            (snd (DataContext.updateReservation Host.online "a1" Writes.phoneEdit
                    (Writes.loaded Host.online [Host.anna; Host.bram])))))
  = DataContext.reservations
      (snd (DataContext.updateReservation Host.online "a1" Writes.phoneEdit
              (Writes.loaded Host.online [Host.anna; Host.bram]))).
Proof.
  apply (repeated_update_is_idempotent Host.online
           (Writes.loaded Host.online [Host.anna; Host.bram]) "a1"
           Writes.phoneEdit
           [DataContext.spread Host.anna Writes.phoneEdit; Host.bram]
           [DataContext.spread Host.anna Writes.phoneEdit; Host.bram]).
  - reflexivity.
  - reflexivity.
Defined.

Section ReadsMore.
Import DataContext DataReads.
Variable supabase : Supabase.
Variable selectReservations :
  table supabase -> Settled (option (list Reservation)) * table supabase.

(** X5.  Loading the reservations never throws.  When the select answers
    with rows they replace the local collection (an empty collection when
    the answer carries no data); when it fails, with an error response or a
    rejected request, the collection stays as it was and one error line is
    logged. *)
Theorem fetch_swallows_failures (w : World supabase) :
  let run := fetchReservations supabase selectReservations w in
  fst run = Normal tt
  /\ db (snd run) = snd (selectReservations (db w))
  /\ match fst (selectReservations (db w)) with
     | Data (Some rows) =>
         reservations (snd run) = rows /\ console (snd run) = console w
     | Data None =>
         reservations (snd run) = [] /\ console (snd run) = console w
     | Failed _ | Rejected _ =>
         reservations (snd run) = reservations w
         /\ console (snd run)
            = console w ++ [Js.mkLine Js.error "Error fetching reservations:"]
     end.
Proof.
  unfold fetchReservations, tryCatch, bind. rewrite await_settles.
  destruct (selectReservations (db w)) as [[[rows|]|e|e] t']; simpl;
    repeat split; reflexivity.
Qed.
End ReadsMore.

(** X6.  The artist shown for a reservation is either "Not assigned" or the
    non-empty name of the first staff member whose id is the reservation's
    artist id; it is "Not assigned" whenever the id is missing, empty, or
    matches no staff member. *)
Theorem artist_name_is_a_staff_name_or_unassigned
    (staff : list DataReads.Staff.t) (artistId : option string) :
  (DataReads.getArtistName staff artistId = "Not assigned"%string
   \/ exists a s,
        artistId = Some a /\ In s staff /\ DataReads.Staff.id s = a
        /\ DataReads.Staff.name s <> EmptyString
        /\ DataReads.getArtistName staff artistId = DataReads.Staff.name s)
  /\ (Js.truthyOpt artistId = false ->
      DataReads.getArtistName staff artistId = "Not assigned"%string)
  /\ (forall a, artistId = Some a ->
        (forall s, In s staff -> DataReads.Staff.id s <> a) ->
        DataReads.getArtistName staff artistId = "Not assigned"%string).
Proof.
  unfold DataReads.getArtistName. split; [|split].
  - destruct artistId as [a|]; simpl; [|now left].
    destruct (Js.truthy a); [|now left].
    destruct (find _ staff) as [s|] eqn:Hf; [|now left].
    apply find_some in Hf. destruct Hf as [Hin Hid].
    apply String.eqb_eq in Hid.
    destruct (DataReads.Staff.name s) as [|c n] eqn:Hn; simpl; [now left|].
    right. exists a, s. rewrite Hn. repeat split; auto. discriminate.
  - intros H. now rewrite H.
  - intros a -> Hnone. simpl. destruct (Js.truthy a); [|reflexivity].
    destruct (find _ staff) as [s|] eqn:Hf; [|reflexivity].
    apply find_some in Hf. destruct Hf as [Hin Hid].
    apply String.eqb_eq in Hid. now apply Hnone in Hin.
Qed.

(* ================================================================== *)
(** * Further properties of the reservation list *)
(* ================================================================== *)

Section ListMore.
Import DataContext ViewReservations.
Variable Date_parse : string -> Js.Date.

Lemma filter_nothing {A : Type} (f : A -> bool) (l : list A) :
  (forall x, In x l -> f x = false) -> filter f l = [].
Proof.
  induction l as [|x l IH]; intros H; simpl; [reflexivity|].
  rewrite (H x) by now left. apply IH. intros y Hy. apply H. now right.
Qed.

Lemma includes_empty (s : string) : Js.includes s EmptyString = true.
Proof. destruct s; reflexivity. Qed.

Lemma matchesSearch_empty (r : Reservation) :
  matchesSearch EmptyString r = true.
Proof. unfold matchesSearch. now rewrite includes_empty. Qed.

Lemma matchesDate_range (dateFilter : DateFilter) (r : Reservation) :
  matchesDate Date_parse dateFilter r = true
  <-> exists t s e,
        Date_parse (appointmentDate r) = Some t
        /\ Date_parse (start dateFilter) = Some s
        /\ Date_parse (end' dateFilter) = Some e
        /\ s <= t <= e.
Proof.
  unfold matchesDate, Js.Date_ge, Js.Date_le.
  destruct (Date_parse (appointmentDate r)) as [t|],
           (Date_parse (start dateFilter)) as [s|],
           (Date_parse (end' dateFilter)) as [e|]; simpl;
    try (split; [discriminate | intros [t' [s' [e' [H1 [H2 [H3 _]]]]]];
                                discriminate]).
  - rewrite andb_true_iff, !Z.leb_le. split.
    + intros H. exists t, s, e. auto.
    + intros [t' [s' [e' [H1 [H2 [H3 H]]]]]].
      injection H1 as <-. injection H2 as <-. injection H3 as <-. exact H.
  - rewrite andb_false_r. split; [discriminate|].
    intros [t' [s' [e' [H1 [H2 [H3 _]]]]]]. discriminate.
Qed.

(** X7.  With an empty search box the list shows exactly the reservations
    whose appointment date, read as a date, lies between the two bounds,
    both bounds included. *)
Theorem empty_search_lists_the_date_range
    (reservations : list Reservation) (dateFilter : DateFilter)
    (r : Reservation) :
  In r (filteredReservations Date_parse reservations EmptyString dateFilter)
  <-> In r reservations
      /\ exists t s e,
           Date_parse (appointmentDate r) = Some t
           /\ Date_parse (start dateFilter) = Some s
           /\ Date_parse (end' dateFilter) = Some e
           /\ s <= t <= e.
Proof.
  unfold filteredReservations.
  now rewrite filter_In, matchesSearch_empty, andb_true_l, matchesDate_range.
Qed.

(** X8.  When either bound of the date filter is not a date (a cleared date
    input), the list is empty whatever the search term; and a reservation
    whose own appointment date is not a date is never listed. *)
Theorem unreadable_dates_list_nothing
    (reservations : list Reservation) (searchTerm : string)
    (dateFilter : DateFilter) :
  (Date_parse (start dateFilter) = None \/ Date_parse (end' dateFilter) = None ->
   filteredReservations Date_parse reservations searchTerm dateFilter = [])
  /\ (forall r,
         Date_parse (appointmentDate r) = None ->
         ~ In r (filteredReservations Date_parse reservations searchTerm
                   dateFilter)).
Proof.
  split.
  - intros H. unfold filteredReservations.
    apply filter_nothing. intros r _. apply andb_false_iff. right.
    destruct (matchesDate Date_parse dateFilter r) eqn:Hm; [|reflexivity].
    apply matchesDate_range in Hm.
    destruct Hm as [t [s [e [_ [Hs [He _]]]]]].
    destruct H as [H | H]; congruence.
  - intros r Hr Hin. unfold filteredReservations in Hin.
    apply filter_In in Hin. destruct Hin as [_ Hin].
    apply andb_true_iff in Hin. destruct Hin as [_ Hm].
    apply matchesDate_range in Hm.
    destruct Hm as [t [s [e [Ht _]]]]. congruence.
Qed.
End ListMore.

Section EditMore.
Import DataContext RowHandlers.
Variable supabase : Supabase.
Variable parseFloat : string -> float.
Variable Number_toString : float -> string.

(** X9.  Saving an edit never throws to the caller.  With no reservation
    being edited nothing is sent and nothing changes.  Otherwise one update
    is sent: when it is accepted the edit is closed and no alert is shown;
    when it fails the edit stays open with its form contents, exactly one
    alert is shown and the local collection is unchanged. *)
Theorem save_edit_reports_instead_of_throwing
    (v : View) (w : World supabase) :
  exists v',
    fst (handleSaveEdit supabase parseFloat v w) = Normal v'
    /\ editFormData v' = editFormData v
    /\ (Js.truthyOpt (editingReservation v) = false ->
        v' = v /\ snd (handleSaveEdit supabase parseFloat v w) = w)
    /\ (Js.truthyOpt (editingReservation v) = true ->
        match fst (update supabase (editUpdates parseFloat (editFormData v))
                          (Js.strOf (editingReservation v)) (db w)) with
        | Data _ =>
            editingReservation v' = None /\ alerts v' = alerts v
        | Failed _ | Rejected _ =>
            editingReservation v' = editingReservation v
            /\ alerts v'
               = alerts v ++ ["Error updating reservation. Please try again."%string]
            /\ reservations (snd (handleSaveEdit supabase parseFloat v w))
               = reservations w
        end).
Proof.
  unfold handleSaveEdit.
  destruct (Js.truthyOpt (editingReservation v)) eqn:He.
  - unfold tryCatch, bind, updateReservation, tryCatch, bind.
    rewrite await_settles.
    destruct (update supabase (editUpdates parseFloat (editFormData v))
                     (Js.strOf (editingReservation v)) (db w))
      as [[u|e|e] t']; simpl;
      eexists; (split; [reflexivity|]); simpl;
      (split; [reflexivity|]); (split; [discriminate|]); intros _; auto.
  - exists v. unfold ret; simpl. repeat split; auto. discriminate.
Qed.

(** X10.  What saving an edit can change.  Whatever the form holds, the
    update names only the nine form fields, so a merged record keeps its id,
    reservation number, three payment flags, design images and creation
    time.  And when the form is saved as it was opened, the record also
    keeps its names, phone, appointment date and time, while missing notes
    become empty notes, an empty artist id becomes a missing one, and each
    price goes through the number printer and [parseFloat]. *)
Theorem edit_form_round_trip (res : Reservation) (f : EditFormData) (v : View) :
  let res' := spread res (editUpdates parseFloat f) in
  let opened := handleEdit Number_toString res v in
  let same := spread res (editUpdates parseFloat (editFormData opened)) in
  (id res' = id res
   /\ reservationNumber res' = reservationNumber res
   /\ isPaid res' = isPaid res
   /\ depositPaidStatus res' = depositPaidStatus res
   /\ restPaidStatus res' = restPaidStatus res
   /\ designImages res' = designImages res
   /\ createdAt res' = createdAt res)
  /\ editingReservation opened = Some (id res)
  /\ DataContext.firstName same = DataContext.firstName res
  /\ DataContext.lastName same = DataContext.lastName res
  /\ DataContext.phone same = DataContext.phone res
  /\ DataContext.appointmentDate same = DataContext.appointmentDate res
  /\ DataContext.appointmentTime same = DataContext.appointmentTime res
  /\ DataContext.notes same
     = Some (Js.orElse (DataContext.notes res) EmptyString)
  /\ DataContext.artistId same
     = (if Js.truthyOpt (DataContext.artistId res)
        then DataContext.artistId res else None)
  /\ DataContext.totalPrice same
     = parseFloat (Number_toString (DataContext.totalPrice res))
  /\ DataContext.depositPaid same
     = parseFloat (Number_toString (DataContext.depositPaid res)).
Proof.
  simpl. repeat split; try reflexivity.
  destruct (DataContext.artistId res) as [[|c a]|]; reflexivity.
Qed.
End EditMore.

(* ================================================================== *)
(** * Further properties of the analytics *)
(* ================================================================== *)

Section AnalyticsMore.
Import DataContext ReservationAnalytics AnalyticsTerms.
Variable Date_parse : string -> Js.Date.
Variable localMidnight : Z -> Z.

Lemma insertSorted_In {A : Type} (cmp : A -> A -> Z) (x y : A) (l : list A) :
  In y (Js.insertSorted cmp x l) <-> y = x \/ In y l.
Proof.
  split.
  - intros H.
    apply (Permutation_in _ (Permutation_sym (insertSorted_Permutation cmp x l)))
      in H.
    destruct H as [-> | H]; auto.
  - intros H. apply (Permutation_in _ (insertSorted_Permutation cmp x l)).
    destruct H as [-> | H]; [now left | now right].
Qed.

Lemma insertSorted_newest_first (x : Reservation) (l : list Reservation) :
  createdDate Date_parse x <> None ->
  StronglySorted (notOlder Date_parse) l ->
  Forall (fun r => createdDate Date_parse r <> None) l ->
  StronglySorted (notOlder Date_parse) (Js.insertSorted (newestFirst Date_parse) x l).
Proof.
  intros Hx Hs Hv. induction Hs as [|y l Hs IH Hy]; simpl.
  - repeat constructor.
  - inversion Hv as [|? ? Hvy Hvl]; subst.
    unfold newestFirst at 1.
    destruct (createdDate Date_parse x) as [tx|] eqn:Ex; [|contradiction].
    destruct (createdDate Date_parse y) as [ty|] eqn:Ey; [|contradiction].
    destruct (ty - tx <=? 0) eqn:Hc.
    + apply Z.leb_le in Hc. constructor; [now constructor|].
      constructor.
      * exists tx, ty. repeat split; auto. lia.
      * rewrite Forall_forall in *. intros z Hz.
        destruct (Hy z Hz) as [ty' [tz [E1 [E2 Hle]]]].
        rewrite Ey in E1. injection E1 as <-.
        exists tx, tz. repeat split; auto. lia.
    + apply Z.leb_gt in Hc. constructor; [now apply IH|].
      rewrite Forall_forall in *. intros z Hz.
      apply insertSorted_In in Hz. destruct Hz as [-> | Hz]; [|now apply Hy].
      exists ty, tx. repeat split; auto. lia.
Qed.

Lemma sort_newest_first (l : list Reservation) :
  Forall (fun r => createdDate Date_parse r <> None) l ->
  StronglySorted (notOlder Date_parse) (Js.sort (newestFirst Date_parse) l).
Proof.
  induction l as [|x l IH]; intros Hv; simpl; [constructor|].
  inversion Hv as [|? ? Hx Hl]; subst.
  apply insertSorted_newest_first; auto.
  rewrite Forall_forall in *. intros r Hr. apply Hl.
  now apply sort_In in Hr.
Qed.

Lemma createdWithin_valid (range : DateRange) (r : Reservation) :
  createdWithin Date_parse range r = true -> createdDate Date_parse r <> None.
Proof.
  unfold createdWithin. destruct (createdDate Date_parse r); [discriminate|].
  simpl. discriminate.
Qed.

(** X11.  The rows of a period's bucket are in order of creation, newest
    first: every row was created no earlier than each row after it. *)
Theorem bucket_rows_are_newest_first
    (reservations : list Reservation) (now : Z) (p : Period) :
  StronglySorted (notOlder Date_parse)
    (filteredReservations Date_parse localMidnight reservations now p).
Proof.
  unfold filteredReservations. apply sort_newest_first.
  apply Forall_forall. intros r Hr. apply filter_In in Hr.
  destruct Hr as [_ Hr]. now apply createdWithin_valid in Hr.
Qed.

Lemma createdWithin_bounds (now : Z) (p : Period) (r : Reservation) :
  createdWithin Date_parse (getDateRange localMidnight now p) r = true
  <-> exists t, createdDate Date_parse r = Some t
                /\ start (getDateRange localMidnight now p) <= t
                   <= end' (getDateRange localMidnight now p).
Proof.
  unfold createdWithin, Js.Date_ge, Js.Date_le.
  destruct (createdDate Date_parse r) as [t|].
  - rewrite andb_true_iff, !Z.leb_le. split.
    + intros H. now exists t.
    + intros [t' [E H]]. now injection E as <-.
  - split; [discriminate | intros [t [E _]]; discriminate].
Qed.

Lemma bucket_In (reservations : list Reservation) (now : Z) (p : Period)
    (r : Reservation) :
  In r (filteredReservations Date_parse localMidnight reservations now p)
  <-> In r reservations
      /\ createdWithin Date_parse (getDateRange localMidnight now p) r = true.
Proof. unfold filteredReservations. now rewrite sort_In, filter_In. Qed.

Lemma filter_length_mono {A : Type} (f g : A -> bool) (l : list A) :
  (forall x, f x = true -> g x = true) ->
  (List.length (filter f l) <= List.length (filter g l))%nat.
Proof.
  intros H. induction l as [|x l IH]; simpl; [lia|].
  destruct (f x) eqn:Hf.
  - rewrite (H x Hf). simpl. lia.
  - destruct (g x); simpl; lia.
Qed.

Lemma range_widens (now : Z) (p q : Period) (r : Reservation) :
  start (getDateRange localMidnight now q)
  <= start (getDateRange localMidnight now p) ->
  end' (getDateRange localMidnight now p)
  <= end' (getDateRange localMidnight now q) ->
  createdWithin Date_parse (getDateRange localMidnight now p) r = true ->
  createdWithin Date_parse (getDateRange localMidnight now q) r = true.
Proof.
  intros Hs He H. apply createdWithin_bounds in H.
  apply createdWithin_bounds. destruct H as [t [E H]]. exists t. split; [exact E|lia].
Qed.

(** X12.  The buckets nest: whatever is counted today or yesterday is
    counted in the last 7 days, and whatever is counted in the last 7 days is
    counted in the last 30; no reservation is counted both today and
    yesterday; and the counts grow accordingly. *)
Theorem buckets_nest (reservations : list Reservation) (now : Z) :
  let bucket := filteredReservations Date_parse localMidnight reservations now in
  let count := totalReservations Date_parse localMidnight reservations now in
  (forall r, In r (bucket Today) -> In r (bucket Week))
  /\ (forall r, In r (bucket Yesterday) -> In r (bucket Week))
  /\ (forall r, In r (bucket Week) -> In r (bucket Month))
  /\ (forall r, In r (bucket Today) -> ~ In r (bucket Yesterday))
  /\ (count Today <= count Week)%nat
  /\ (count Yesterday <= count Week)%nat
  /\ (count Week <= count Month)%nat.
Proof.
  assert (Hn : forall p q,
             start (getDateRange localMidnight now q)
             <= start (getDateRange localMidnight now p) ->
             end' (getDateRange localMidnight now p)
             <= end' (getDateRange localMidnight now q) ->
             (forall r,
                 In r (filteredReservations Date_parse localMidnight
                         reservations now p) ->
                 In r (filteredReservations Date_parse localMidnight
                         reservations now q))
             /\ (totalReservations Date_parse localMidnight reservations now p
                 <= totalReservations Date_parse localMidnight reservations
                      now q)%nat).
  { intros p q Hs He. split.
    - intros r Hr. apply bucket_In in Hr. apply bucket_In.
      destruct Hr as [Hin Hr]. split; [exact Hin|].
      now apply (range_widens now p q).
    - unfold totalReservations, filteredReservations.
      rewrite !sort_length. apply filter_length_mono.
      intros r. now apply (range_widens now p q). }
  simpl.
  destruct (Hn Today Week) as [A1 A2]; [simpl; lia | simpl; lia |].
  destruct (Hn Yesterday Week) as [B1 B2]; [simpl; lia | simpl; lia |].
  destruct (Hn Week Month) as [C1 C2]; [simpl; lia | simpl; lia |].
  repeat split; auto.
  intros r Ht Hy. apply bucket_In in Ht. apply bucket_In in Hy.
  destruct Ht as [_ Ht]. destruct Hy as [_ Hy].
  apply createdWithin_bounds in Ht. apply createdWithin_bounds in Hy.
  destruct Ht as [t [E1 H1]]. destruct Hy as [t' [E2 H2]].
  rewrite E1 in E2. injection E2 as <-. simpl in H1, H2. lia.
Qed.
End AnalyticsMore.

Section TotalsMore.
Import DataContext AnalyticsMemo AnalyticsTerms.

Lemma filter_split_length {A : Type} (f : A -> bool) (l : list A) :
  (List.length (filter f l) + List.length (filter (fun x => negb (f x)) l)
   = List.length l)%nat.
Proof.
  induction l as [|x l IH]; simpl; [reflexivity|].
  destruct (f x); simpl; lia.
Qed.

Lemma statusLabel_fully (r : Reservation) :
  String.eqb (statusLabel r) "Fully Paid" = fullyPaid r.
Proof.
  unfold statusLabel, fullyPaid.
  destruct (depositPaidStatus r), (restPaidStatus r); reflexivity.
Qed.

(** X13.  In the totals of a bucket the fully-paid count and the pending
    count add up to the number of reservations; the fully-paid count is the
    number of rows whose badge reads "Fully Paid", the pending count is the
    number of all other rows and is never negative; and for an empty bucket
    the revenue, the deposits and the average ticket are zero. *)
Theorem totals_split_into_paid_and_pending (rows : list Reservation) :
  Z.of_nat (fullyPaidCount (analytics rows)) + pendingCount (analytics rows)
  = Z.of_nat (totalReservations (analytics rows))
  /\ totalReservations (analytics rows) = List.length rows
  /\ fullyPaidCount (analytics rows)
     = List.length
         (filter (fun r => String.eqb (statusLabel r) "Fully Paid") rows)
  /\ pendingCount (analytics rows)
     = Z.of_nat
         (List.length
            (filter (fun r => negb (String.eqb (statusLabel r) "Fully Paid"))
                    rows))
  /\ 0 <= pendingCount (analytics rows)
  /\ totalRevenue (analytics []) = 0%float
  /\ totalDeposits (analytics []) = 0%float
  /\ averageTicket (analytics []) = 0%float.
Proof.
  unfold analytics; simpl.
  rewrite (filter_ext _ _ statusLabel_fully).
  rewrite (filter_ext (fun r => negb (String.eqb (statusLabel r) "Fully Paid"))
                      (fun r => negb (fullyPaid r)))
    by (intros r; now rewrite statusLabel_fully).
  pose proof (filter_split_length fullyPaid rows) as H.
  unfold fullyPaid in *.
  repeat split; try reflexivity; lia.
Qed.

(** X14.  The badge after a click on a payment button.  After the rest
    button: "Fully Paid" exactly when the deposit was marked paid and the
    rest was not; a reservation without a paid deposit stays "Pending" even
    with the rest marked paid.  After the deposit button: "Pending" when the
    deposit was marked paid, otherwise "Fully Paid" or "Deposit Paid"
    according to the rest flag. *)
Theorem badge_after_payment_toggle (r : Reservation) :
  statusLabel (spread r (ViewReservations.restToggle r))
  = (if depositPaidStatus r
     then if restPaidStatus r then "Deposit Paid" else "Fully Paid"
     else "Pending")%string
  /\ statusLabel (spread r (ViewReservations.depositToggle r))
     = (if depositPaidStatus r then "Pending"
        else if restPaidStatus r then "Fully Paid" else "Deposit Paid")%string.
Proof.
  unfold statusLabel; simpl.
  destruct (depositPaidStatus r), (restPaidStatus r); split; reflexivity.
Qed.
End TotalsMore.

(* ================================================================== *)
(** * Further properties of the inbound e-mail hook *)
(* ================================================================== *)

Section HookMore.
Import InboundEmail Ingest.
Variable supabase : Supabase.
Variable JSON_parse : string -> option Json.
Variable parseInt : string -> option Z.
Variable toISOString : Z -> string.

Lemma parseHeaders_any_world (emailData : InboundEmailPayload)
    (w w' : World supabase) :
  fst (parseHeaders supabase JSON_parse emailData w)
  = fst (parseHeaders supabase JSON_parse emailData w').
Proof.
  unfold parseHeaders, console_write, modify, bind, ret.
  destruct (message_headers emailData) as [[s|j]|]; [| |reflexivity].
  - destruct (Js.truthy s); [|reflexivity].
    destruct (JSON_parse s); reflexivity.
  - destruct (jsonTruthy j); reflexivity.
Qed.

Lemma receivedAt_any_world (emailData : InboundEmailPayload) (clock : Clock)
    (w w' : World supabase) :
  fst (receivedAt supabase parseInt toISOString emailData clock w)
  = fst (receivedAt supabase parseInt toISOString emailData clock w').
Proof.
  unfold receivedAt, throw, ret.
  destruct (timestamp emailData) as [ts|]; [|reflexivity].
  destruct (Js.truthy ts); [|reflexivity].
  destruct (parseInt ts) as [n|]; [|reflexivity].
  destruct (Z.abs (n * 1000) <=? maxTime); reflexivity.
Qed.

(** Every way an invocation can go, with its response, its requests and
    what it left in the database. *)
Lemma handler_paths (env : Env) (clock : Clock) (req : Request)
    (w : World supabase) (c : Completion Response) (w' : World supabase) :
  handler supabase JSON_parse parseInt toISOString env clock req w = (c, w') ->
  (String.eqb (method req) "OPTIONS" = true
   /\ c = Normal {| status := 200; body := NoBody |} /\ w' = w)
  \/ (String.eqb (method req) "OPTIONS" = false
      /\ exists e,
           c = Normal {| status := 500;
                         body := Failure (Js.orElse (Some (Js.message e))
                                                    "Unknown error") |}
           /\ sent w' = sent w /\ db w' = db w
           /\ ((Js.truthyOpt (SUPABASE_URL env)
                && Js.truthyOpt (SUPABASE_SERVICE_ROLE_KEY env) = false
                /\ e = Js.mkError "Missing Supabase configuration")
               \/ fst (readBody supabase req w) = Throw e
               \/ exists emailData,
                    fst (readBody supabase req w) = Normal emailData
                    /\ fst (receivedAt supabase parseInt toISOString
                              emailData clock w) = Throw e))
  \/ (String.eqb (method req) "OPTIONS" = false
      /\ exists emailData hdrs rcv,
           fst (readBody supabase req w) = Normal emailData
           /\ fst (parseHeaders supabase JSON_parse emailData w) = Normal hdrs
           /\ fst (receivedAt supabase parseInt toISOString emailData clock w)
              = Normal rcv
           /\ ((exists err answer,
                   (answer = Failed err \/ answer = Rejected err)
                   /\ fst (insertEmail supabase
                             (emailRow emailData clock hdrs rcv) (db w))
                      = answer
                   /\ c = Normal {| status := 500;
                                    body := Failure
                                      (Js.orElse (Some (Js.message err))
                                                 "Unknown error") |}
                   /\ sent w'
                      = sent w
                        ++ [EmailInsertion (emailRow emailData clock hdrs rcv)
                                           answer])
               \/ (exists email answers,
                      fst (insertEmail supabase
                             (emailRow emailData clock hdrs rcv) (db w))
                      = Data email
                      /\ List.length answers
                         = List.length (attachmentsOf emailData)
                      /\ c = Normal {| status := 200;
                                       body := Success (id email)
                                         "Email processed successfully" |}
                      /\ sent w'
                         = sent w
                           ++ EmailInsertion (emailRow emailData clock hdrs rcv)
                                             (Data email)
                              :: attachmentEvents email
                                   (attachmentsOf emailData) answers))).
Proof.
  unfold handler. intros Hrun.
  destruct (String.eqb (method req) "OPTIONS");
    [injection Hrun as <- <-; left; auto|].
  right. unfold tryCatch, process in Hrun. unfold bind at 1 in Hrun.
  destruct (Js.truthyOpt (SUPABASE_URL env)
            && Js.truthyOpt (SUPABASE_SERVICE_ROLE_KEY env)).
  2:{ injection Hrun as <- <-. left. split; [reflexivity|].
      exists (Js.mkError "Missing Supabase configuration").
      repeat (split; [reflexivity|]). left. split; reflexivity. }
  unfold ret at 1 in Hrun. unfold bind at 1 in Hrun.
  rewrite readBody_run in Hrun.
  destruct (fst (readBody supabase req w)) as [emailData|e] eqn:Hbody.
  2:{ injection Hrun as <- <-. left. split; [reflexivity|].
      exists e. repeat (split; [reflexivity|]). right. left. reflexivity. }
  unfold bind at 1, console_write at 1, modify at 1 in Hrun.
  unfold bind at 1 in Hrun.
  match type of Hrun with
  | context [parseHeaders supabase JSON_parse emailData ?w1] =>
      pose proof (parseHeaders_any_world emailData w w1) as Hhv;
      destruct (parseHeaders_run supabase JSON_parse emailData w1)
        as [hdrs [lines [Hh Hlines]]]
  end.
  rewrite Hh in Hhv. simpl fst in Hhv.
  rewrite Hh in Hrun. simpl console in Hrun; simpl db in Hrun; simpl sent in Hrun.
  unfold bind at 1 in Hrun. rewrite receivedAt_run in Hrun.
  match type of Hrun with
  | context [fst (receivedAt ?a ?b ?c ?d ?e ?w1)] =>
      pose proof (receivedAt_any_world emailData clock w w1) as Hrv;
      destruct (fst (receivedAt a b c d e w1)) as [rcv|e0]
  end.
  2:{ injection Hrun as <- <-. left. split; [reflexivity|].
      exists e0. repeat (split; [reflexivity|]).
      right. right. exists emailData. split; [reflexivity | exact Hrv]. }
  right. split; [reflexivity|]. exists emailData, hdrs, rcv.
  split; [reflexivity|]. split; [exact Hhv|]. split; [exact Hrv|].
  unfold bind at 1, await at 1 in Hrun.
  simpl console in Hrun; simpl db in Hrun; simpl sent in Hrun.
  destruct (insertEmail supabase (emailRow emailData clock hdrs rcv) (db w))
    as [[email|err|err] t'].
  - right. exists email.
    unfold bind at 1, console_write at 1, modify at 1 in Hrun.
    simpl console in Hrun; simpl db in Hrun; simpl sent in Hrun.
    unfold attachmentsOf.
    destruct (attachments emailData) as [[|first others]|].
    + exists []. unfold bind, ret in Hrun; simpl in Hrun.
      injection Hrun as <- <-. simpl. auto.
    + unfold bind at 1 in Hrun.
      unfold bind at 1, console_write at 1, modify at 1 in Hrun.
      simpl console in Hrun; simpl db in Hrun; simpl sent in Hrun.
      match type of Hrun with
      | context [forOf (first :: others) ?body ?w1] =>
          destruct (attachment_loop_run supabase email (first :: others) w1)
            as [answers [t'' [Hlen Hloop]]]
      end.
      exists answers. rewrite Hloop in Hrun. unfold ret in Hrun.
      injection Hrun as <- <-. simpl sent.
      split; [reflexivity|]. split; [exact Hlen|]. split; [reflexivity|].
      now rewrite <- app_assoc.
    + exists []. unfold bind, ret in Hrun; simpl in Hrun.
      injection Hrun as <- <-. simpl. auto.
  - unfold bind, console_write, modify, throw, ret in Hrun; simpl in Hrun.
    injection Hrun as <- <-. left. exists err, (Failed err). simpl. auto.
  - unfold bind, console_write, modify, throw, ret in Hrun; simpl in Hrun.
    injection Hrun as <- <-. left. exists err, (Rejected err). simpl. auto.
Qed.
End HookMore.

Section HookExtras.
Import InboundEmail Ingest IngestTerms.
Variable supabase : Supabase.
Variable JSON_parse : string -> option Json.
Variable parseInt : string -> option Z.
Variable toISOString : Z -> string.

Lemma orElse_nonempty (a : option string) (d : string) :
  d <> EmptyString -> Js.orElse a d <> EmptyString.
Proof.
  intros Hd. destruct a as [[|c s]|]; simpl; auto. discriminate.
Qed.

Lemma append_nonempty_r (a b : string) :
  b <> EmptyString -> (a ++ b)%string <> EmptyString.
Proof.
  intros Hb. destruct a; simpl; [exact Hb | discriminate].
Qed.

(** X15.  The hook always answers: it never throws, its status is 200 or
    500, a 500 carries a failure envelope with a non-empty error text, and
    a 200 carries either no body (the preflight) or the success envelope. *)
Theorem hook_always_answers
    (env : Env) (clock : Clock) (req : Request) (w : World supabase) :
  exists resp,
    fst (handler supabase JSON_parse parseInt toISOString env clock req w)
    = Normal resp
    /\ (status resp = 200 \/ status resp = 500)
    /\ (status resp = 500 ->
        exists msg, body resp = Failure msg /\ msg <> EmptyString)
    /\ (status resp = 200 ->
        body resp = NoBody \/ exists emailId msg, body resp = Success emailId msg).
Proof.
  destruct (handler supabase JSON_parse parseInt toISOString env clock req w)
    as [c w'] eqn:Hrun. simpl fst.
  assert (Hmsg : forall e : Js.Error,
             Js.orElse (Some (Js.message e)) "Unknown error" <> EmptyString)
    by (intros e; apply orElse_nonempty; discriminate).
  destruct (handler_paths _ _ _ _ _ _ _ _ _ _ Hrun)
    as [[_ [-> _]]
       | [[_ [e [-> _]]]
         | [_ [emailData [hdrs [rcv [_ [_ [_
              [[err [answer [_ [_ [-> _]]]]]
              | [email [answers [_ [_ [-> _]]]]]]]]]]]]]]];
    eexists; (split; [reflexivity|]); simpl.
  - split; [now left|]. split; [discriminate|]. intros _. now left.
  - split; [now right|]. split; [|discriminate].
    intros _. eexists. split; [reflexivity | apply Hmsg].
  - split; [now right|]. split; [|discriminate].
    intros _. eexists. split; [reflexivity | apply Hmsg].
  - split; [now left|]. split; [discriminate|]. intros _. right. eauto.
Qed.

(** X16.  Without both configuration values a request other than the
    preflight is answered 500 "Missing Supabase configuration"; nothing is
    sent to the database and the body is not read. *)
Theorem missing_configuration_is_refused
    (env : Env) (clock : Clock) (req : Request) (w : World supabase) :
  String.eqb (method req) "OPTIONS" = false ->
  configured env = false ->
  let run := handler supabase JSON_parse parseInt toISOString env clock req w in
  fst run = Normal {| status := 500;
                      body := Failure "Missing Supabase configuration" |}
  /\ sent (snd run) = sent w
  /\ db (snd run) = db w.
Proof.
  unfold configured. intros Hm Hc. unfold handler. rewrite Hm.
  unfold tryCatch, process. unfold bind at 1. rewrite Hc. simpl. auto.
Qed.

(** X17.  A configured request whose content type names none of JSON,
    multipart form data and urlencoded form data (or has no content type) is
    answered 500 "Unsupported content type", with nothing sent to the
    database. *)
Theorem unsupported_content_type_is_refused
    (env : Env) (clock : Clock) (req : Request) (w : World supabase) :
  String.eqb (method req) "OPTIONS" = false ->
  configured env = true ->
  isJson req = false ->
  isForm req = false ->
  let run := handler supabase JSON_parse parseInt toISOString env clock req w in
  fst run = Normal {| status := 500;
                      body := Failure "Unsupported content type" |}
  /\ sent (snd run) = sent w
  /\ db (snd run) = db w.
Proof.
  unfold configured, isJson, isForm, contentType. intros Hm Hc Hj Hf.
  unfold handler. rewrite Hm.
  unfold tryCatch, process. unfold bind at 1. rewrite Hc.
  unfold ret at 1. unfold bind at 1. unfold readBody.
  rewrite Hj, Hf. simpl. auto.
Qed.

(** X18.  When the e-mail insert fails, with an error response or a
    rejected request, the hook answers 500 with that error's message
    ("Unknown error" when the message is empty); the failed insert is the
    only request of the invocation, so no attachment row is sent. *)
Theorem failed_email_insert_stops_the_invocation
    (env : Env) (clock : Clock) (req : Request) (w : World supabase)
    (row : EmailInsert) (err : Js.Error) (answer : Settled Email) :
  sent w = [] ->
  answer = Failed err \/ answer = Rejected err ->
  In (EmailInsertion row answer)
     (sent (snd (handler supabase JSON_parse parseInt toISOString
                   env clock req w))) ->
  let run := handler supabase JSON_parse parseInt toISOString env clock req w in
  fst run
  = Normal {| status := 500;
              body := Failure (Js.orElse (Some (Js.message err))
                                         "Unknown error") |}
  /\ sent (snd run) = [EmailInsertion row answer]
  /\ attachmentRows (sent (snd run)) = [].
Proof.
  intros Hfresh Hans Hin run. subst run.
  destruct (handler supabase JSON_parse parseInt toISOString env clock req w)
    as [c w'] eqn:Hrun. simpl fst in *; simpl snd in *.
  destruct (handler_paths _ _ _ _ _ _ _ _ _ _ Hrun)
    as [[_ [_ ->]]
       | [[_ [e [_ [Hs _]]]]
         | [_ [emailData [hdrs [rcv [_ [_ [_
              [[err' [answer' [Ha [_ [-> Hs]]]]]
              | [email [answers [_ [_ [_ Hs]]]]]]]]]]]]]]].
  - rewrite Hfresh in Hin. destruct Hin.
  - rewrite Hs, Hfresh in Hin. destruct Hin.
  - rewrite Hs, Hfresh in *. simpl in Hin. destruct Hin as [Heq | []].
    injection Heq as <- <-.
    assert (err' = err) as ->
      by (destruct Ha as [-> | ->], Hans as [H | H]; congruence).
    simpl. auto.
  - rewrite Hs, Hfresh in Hin. simpl in Hin. destruct Hin as [Heq | Hin].
    + injection Heq as _ <-. destruct Hans; discriminate.
    + unfold attachmentEvents in Hin. apply in_map_iff in Hin.
      destruct Hin as [p [Hp _]]. discriminate.
Qed.

(** X19.  An invocation sends at most one e-mail insert, and every
    attachment row it sends carries the id of the e-mail row that this
    insert returned. *)
Theorem attachments_reference_the_inserted_email
    (env : Env) (clock : Clock) (req : Request)
    (console0 : list Js.ConsoleLine) (t0 : table supabase) :
  let run := handler supabase JSON_parse parseInt toISOString env clock req
               (mkWorld console0 t0 []) in
  (List.length (emailRows (sent (snd run))) <= 1)%nat
  /\ forall a,
       In a (attachmentRows (sent (snd run))) ->
       exists row email,
         In (EmailInsertion row (Data email)) (sent (snd run))
         /\ email_id a = id email.
Proof.
  intros run. subst run.
  destruct (handler supabase JSON_parse parseInt toISOString env clock req
              (mkWorld console0 t0 [])) as [c w'] eqn:Hrun. simpl snd.
  destruct (handler_paths _ _ _ _ _ _ _ _ _ _ Hrun)
    as [[_ [_ ->]]
       | [[_ [e [_ [Hs _]]]]
         | [_ [emailData [hdrs [rcv [_ [_ [_
              [[err' [answer' [_ [_ [_ Hs]]]]]
              | [email [answers [_ [Hlen [_ Hs]]]]]]]]]]]]]]].
  - simpl. split; [lia | intros a []].
  - rewrite Hs. simpl. split; [lia | intros a []].
  - rewrite Hs. simpl. split; [lia | intros a []].
  - rewrite Hs, app_nil_l.
    destruct (attachmentRows_events email _ _ Hlen) as [Hr [_ He]].
    rewrite emailRows_cons, He.
    change (attachmentRows (EmailInsertion ?r ?x :: ?l)) with (attachmentRows l).
    split; [simpl; lia|]. intros a Ha. rewrite Hr in Ha.
    apply in_map_iff in Ha. destruct Ha as [att [<- _]].
    eexists _, email. split; [now left | reflexivity].
Qed.
End HookExtras.

Lemma missing_configuration_is_refused_witness :
  fst (InboundEmail.handler Ingest.mailbox Ingest.noJson Ingest.noInt
         Ingest.printTime IngestTerms.noKey Ingest.clock Ingest.post
         Ingest.fresh)
  = Normal {| InboundEmail.status := 500;
              InboundEmail.body :=
                InboundEmail.Failure "Missing Supabase configuration" |}.
Proof.
  apply (missing_configuration_is_refused Ingest.mailbox Ingest.noJson
           Ingest.noInt Ingest.printTime IngestTerms.noKey Ingest.clock
           Ingest.post Ingest.fresh); reflexivity.
Defined.

Lemma unsupported_content_type_is_refused_witness :
  fst (InboundEmail.handler Ingest.mailbox Ingest.noJson Ingest.noInt
         Ingest.printTime Ingest.env Ingest.clock IngestTerms.textPost
         Ingest.fresh)
  = Normal {| InboundEmail.status := 500;
              InboundEmail.body :=
                InboundEmail.Failure "Unsupported content type" |}.
Proof.
  apply (unsupported_content_type_is_refused Ingest.mailbox Ingest.noJson
           Ingest.noInt Ingest.printTime Ingest.env Ingest.clock
           IngestTerms.textPost Ingest.fresh); reflexivity.
Defined.

Lemma failed_email_insert_stops_the_invocation_witness :
  fst (InboundEmail.handler IngestTerms.full Ingest.noJson Ingest.noInt
         Ingest.printTime Ingest.env Ingest.clock Ingest.post
         (@InboundEmail.mkWorld IngestTerms.full [] tt []))
  = Normal {| InboundEmail.status := 500;
              InboundEmail.body :=
                InboundEmail.Failure
                  "duplicate key value violates unique constraint" |}.
Proof.
  apply (failed_email_insert_stops_the_invocation IngestTerms.full
           Ingest.noJson Ingest.noInt Ingest.printTime Ingest.env Ingest.clock
           Ingest.post (@InboundEmail.mkWorld IngestTerms.full [] tt [])
           (InboundEmail.emailRow Ingest.letter Ingest.clock None
              "1759429800001")
           (Js.mkError "duplicate key value violates unique constraint")
           (Failed (Js.mkError "duplicate key value violates unique constraint"))).
  - reflexivity.
  - left. reflexivity.
  - vm_compute. left. reflexivity.
Defined.

Section FormExtras.
Import InboundEmail Ingest IngestTerms.

(** Reading one key: each of the text keys the hook reads. *)
Ltac by_key k :=
  unfold setKey;
  repeat match goal with
         | |- context [String.eqb k ?lit] =>
             let E := fresh "E" in
             destruct (String.eqb k lit) eqn:E;
             [apply String.eqb_eq in E; subst k; reflexivity|]
         end;
  reflexivity.

Lemma setKey_sender e k v :
  sender (setKey e k v) = if String.eqb k "sender" then Some v else sender e.
Proof. by_key k. Qed.
Lemma setKey_from e k v :
  from (setKey e k v) = if String.eqb k "from" then Some v else from e.
Proof. by_key k. Qed.
Lemma setKey_recipient e k v :
  recipient (setKey e k v)
  = if String.eqb k "recipient" then Some v else recipient e.
Proof. by_key k. Qed.
Lemma setKey_subject e k v :
  subject (setKey e k v) = if String.eqb k "subject" then Some v else subject e.
Proof. by_key k. Qed.
Lemma setKey_body_plain e k v :
  body_plain (setKey e k v)
  = if String.eqb k "body-plain" then Some v else body_plain e.
Proof. by_key k. Qed.
Lemma setKey_body_html e k v :
  body_html (setKey e k v)
  = if String.eqb k "body-html" then Some v else body_html e.
Proof. by_key k. Qed.
Lemma setKey_stripped_text e k v :
  stripped_text (setKey e k v)
  = if String.eqb k "stripped-text" then Some v else stripped_text e.
Proof. by_key k. Qed.
Lemma setKey_stripped_html e k v :
  stripped_html (setKey e k v)
  = if String.eqb k "stripped-html" then Some v else stripped_html e.
Proof. by_key k. Qed.
Lemma setKey_Message_Id e k v :
  Message_Id (setKey e k v)
  = if String.eqb k "Message-Id" then Some v else Message_Id e.
Proof. by_key k. Qed.
Lemma setKey_timestamp e k v :
  timestamp (setKey e k v)
  = if String.eqb k "timestamp" then Some v else timestamp e.
Proof. by_key k. Qed.
Lemma setKey_message_headers e k v :
  message_headers (setKey e k v)
  = if String.eqb k "message-headers" then Some (HeadersText v)
    else message_headers e.
Proof. by_key k. Qed.
Lemma setKey_attachments e k v :
  attachments e = None -> attachments (setKey e k v) = None.
Proof.
  intros H. unfold setKey.
  repeat match goal with
         | |- context [String.eqb k ?lit] =>
             destruct (String.eqb k lit); [simpl; auto|]
         end.
  exact H.
Qed.

(** A field filled by the loop over the form entries holds the last string
    posted under its key, or what it held before. *)
Lemma readForm_field {A : Type} (field : InboundEmailPayload -> option A)
    (key : string) (wrap : string -> A) :
  (forall e k v,
      field (setKey e k v) = if String.eqb k key then Some (wrap v) else field e) ->
  forall entries e,
    field (readForm entries e)
    = match lastString key entries with
      | Some s => Some (wrap s)
      | None => field e
      end.
Proof.
  intros Hset. induction entries as [|[k [s|]] rest IH]; intros e; simpl.
  - reflexivity.
  - rewrite IH. destruct (lastString key rest); [reflexivity|].
    rewrite Hset. now destruct (String.eqb k key).
  - rewrite IH. now destruct (lastString key rest).
Qed.

Lemma readForm_attachments (entries : list (string * FormValue)) :
  forall e, attachments e = None -> attachments (readForm entries e) = None.
Proof.
  induction entries as [|[k [s|]] rest IH]; intros e H; simpl; auto.
  apply IH. now apply setKey_attachments.
Qed.

(** X20.  A form body is read key by key: each text field of the payload
    is the last string posted under its key (missing when there is none),
    uploaded files are skipped, and the payload never has an attachment
    list, whatever is posted under "attachments". *)
Theorem form_fields_take_the_last_posted_string
    (entries : list (string * FormValue)) :
  let emailData := readForm entries emptyPayload in
  sender emailData = lastString "sender" entries
  /\ from emailData = lastString "from" entries
  /\ recipient emailData = lastString "recipient" entries
  /\ subject emailData = lastString "subject" entries
  /\ body_plain emailData = lastString "body-plain" entries
  /\ body_html emailData = lastString "body-html" entries
  /\ stripped_text emailData = lastString "stripped-text" entries
  /\ stripped_html emailData = lastString "stripped-html" entries
  /\ Message_Id emailData = lastString "Message-Id" entries
  /\ timestamp emailData = lastString "timestamp" entries
  /\ message_headers emailData
     = option_map HeadersText (lastString "message-headers" entries)
  /\ attachments emailData = None.
Proof.
  simpl.
  rewrite (readForm_field sender "sender" (fun s => s) setKey_sender),
    (readForm_field from "from" (fun s => s) setKey_from),
    (readForm_field recipient "recipient" (fun s => s) setKey_recipient),
    (readForm_field subject "subject" (fun s => s) setKey_subject),
    (readForm_field body_plain "body-plain" (fun s => s) setKey_body_plain),
    (readForm_field body_html "body-html" (fun s => s) setKey_body_html),
    (readForm_field stripped_text "stripped-text" (fun s => s)
       setKey_stripped_text),
    (readForm_field stripped_html "stripped-html" (fun s => s)
       setKey_stripped_html),
    (readForm_field Message_Id "Message-Id" (fun s => s) setKey_Message_Id),
    (readForm_field timestamp "timestamp" (fun s => s) setKey_timestamp),
    (readForm_field message_headers "message-headers" HeadersText
       setKey_message_headers).
  repeat split;
    try (match goal with |- context [lastString ?k entries] =>
           now destruct (lastString k entries) end).
  now apply readForm_attachments.
Qed.
End FormExtras.

Section HookRows.
Import InboundEmail Ingest IngestTerms.
Variable supabase : Supabase.
Variable JSON_parse : string -> option Json.
Variable parseInt : string -> option Z.
Variable toISOString : Z -> string.

Lemma readBody_form_has_no_attachments (req : Request) (w : World supabase)
    (emailData : InboundEmailPayload) :
  isJson req = false ->
  fst (readBody supabase req w) = Normal emailData ->
  attachments emailData = None.
Proof.
  unfold isJson, contentType, readBody. intros Hj. rewrite Hj.
  destruct (_ || _); [|discriminate].
  unfold bind, awaitBody. destruct (formData req) as [e|entries]; [discriminate|].
  unfold ret; simpl. intros H. injection H as <-.
  now apply readForm_attachments.
Qed.

(** X21.  A request whose content type is not JSON never stores an
    attachment row: form posts are read as text fields only, so whatever
    they carry under "attachments" or as uploaded files is dropped. *)
Theorem form_posts_store_no_attachments
    (env : Env) (clock : Clock) (req : Request)
    (console0 : list Js.ConsoleLine) (t0 : table supabase) :
  isJson req = false ->
  attachmentRows
    (sent (snd (handler supabase JSON_parse parseInt toISOString env clock req
                  (mkWorld console0 t0 []))))
  = [].
Proof.
  intros Hj.
  destruct (handler supabase JSON_parse parseInt toISOString env clock req
              (mkWorld console0 t0 [])) as [c w'] eqn:Hrun. simpl snd.
  destruct (handler_paths _ _ _ _ _ _ _ _ _ _ Hrun)
    as [[_ [_ ->]]
       | [[_ [e [_ [Hs _]]]]
         | [_ [emailData [hdrs [rcv [Hb [_ [_
              [[err' [answer' [_ [_ [_ Hs]]]]]
              | [email [answers [_ [Hlen [_ Hs]]]]]]]]]]]]]]];
    try (rewrite Hs; reflexivity); [reflexivity|].
  rewrite Hs. unfold attachmentsOf.
  rewrite (readBody_form_has_no_attachments _ _ _ Hj Hb). reflexivity.
Qed.

Lemma messageId_nonempty (emailData : InboundEmailPayload) (clock : Clock) :
  messageId emailData clock <> EmptyString.
Proof.
  unfold messageId. apply orElse_nonempty, append_nonempty_r. discriminate.
Qed.

Lemma emailRow_required_fields (emailData : InboundEmailPayload)
    (clock : Clock) (hdrs : option Json) (rcv : string) :
  let row := emailRow emailData clock hdrs rcv in
  message_id row <> EmptyString
  /\ from_address row <> EmptyString
  /\ from_name row <> EmptyString
  /\ subject' row <> EmptyString
  /\ (List.length (to_addresses row) <= 1)%nat
  /\ ~ In EmptyString (to_addresses row).
Proof.
  simpl. split; [apply messageId_nonempty|].
  assert (Hf : fromAddress emailData <> EmptyString)
    by (apply orElse_nonempty; discriminate).
  split; [exact Hf|]. split; [now apply orElse_nonempty|].
  split; [apply orElse_nonempty; discriminate|].
  unfold toAddresses. destruct (recipient emailData) as [[|c r]|]; simpl.
  - split; [lia | tauto].
  - split; [lia|]. intros [H | []]. discriminate.
  - split; [lia | tauto].
Qed.

(** X22.  Every e-mail row the hook sends has a non-empty message id, from
    address, from name and subject, and at most one recipient, which is
    never the empty string. *)
Theorem written_rows_have_their_required_fields
    (env : Env) (clock : Clock) (req : Request)
    (console0 : list Js.ConsoleLine) (t0 : table supabase) :
  Forall
    (fun row =>
       message_id row <> EmptyString
       /\ from_address row <> EmptyString
       /\ from_name row <> EmptyString
       /\ subject' row <> EmptyString
       /\ (List.length (to_addresses row) <= 1)%nat
       /\ ~ In EmptyString (to_addresses row))
    (emailRows
       (sent (snd (handler supabase JSON_parse parseInt toISOString
                     env clock req (mkWorld console0 t0 []))))).
Proof.
  destruct (handler supabase JSON_parse parseInt toISOString env clock req
              (mkWorld console0 t0 [])) as [c w'] eqn:Hrun. simpl snd.
  destruct (handler_paths _ _ _ _ _ _ _ _ _ _ Hrun)
    as [[_ [_ ->]]
       | [[_ [e [_ [Hs _]]]]
         | [_ [emailData [hdrs [rcv [Hb [_ [_
              [[err' [answer' [_ [_ [_ Hs]]]]]
              | [email [answers [_ [Hlen [_ Hs]]]]]]]]]]]]]]].
  - constructor.
  - rewrite Hs. constructor.
  - rewrite Hs. simpl. constructor; [|constructor].
    apply emailRow_required_fields.
  - rewrite Hs, app_nil_l, emailRows_cons.
    destruct (attachmentRows_events email _ _ Hlen) as [_ [_ He]].
    rewrite He. constructor; [|constructor].
    apply emailRow_required_fields.
Qed.

(** X23.  A posted timestamp that is not empty and that [parseInt] cannot
    read, or that lies outside the range of valid dates once taken as
    seconds, makes the hook answer 500 without sending anything to the
    database.  (An empty timestamp counts as none: see the next
    property.) *)
Theorem unusable_timestamp_is_refused
    (env : Env) (clock : Clock) (req : Request) (w : World supabase)
    (emailData : InboundEmailPayload) (ts : string) :
  String.eqb (method req) "OPTIONS" = false ->
  fst (readBody supabase req w) = Normal emailData ->
  timestamp emailData = Some ts ->
  ts <> EmptyString ->
  (parseInt ts = None
   \/ exists n, parseInt ts = Some n /\ maxTime < Z.abs (n * 1000)) ->
  let run := handler supabase JSON_parse parseInt toISOString env clock req w in
  (exists msg, fst run = Normal {| status := 500; body := Failure msg |})
  /\ sent (snd run) = sent w
  /\ db (snd run) = db w.
Proof.
  intros Hm Hb Hts Hne Hbad run. subst run.
  assert (Hthrow : fst (receivedAt supabase parseInt toISOString emailData
                          clock w)
                   = Throw (Js.mkError "Invalid time value")).
  { unfold receivedAt. rewrite Hts.
    destruct ts as [|ch ts']; [contradiction|]. simpl Js.truthy. cbv iota.
    destruct Hbad as [-> | [n [-> Hn]]]; [reflexivity|].
    apply Z.leb_gt in Hn. now rewrite Hn. }
  destruct (handler supabase JSON_parse parseInt toISOString env clock req w)
    as [c w'] eqn:Hrun. simpl fst; simpl snd.
  destruct (handler_paths _ _ _ _ _ _ _ _ _ _ Hrun)
    as [[Hm' _]
       | [[_ [e [-> [Hs [Hd _]]]]]
         | [_ [emailData' [hdrs [rcv [Hb' [_ [Hr _]]]]]]]]].
  - congruence.
  - split; [eauto | auto].
  - rewrite Hb in Hb'. injection Hb' as <-. congruence.
Qed.

Lemma receivedAt_value (emailData : InboundEmailPayload) (clock : Clock)
    (w : World supabase) (rcv : string) :
  fst (receivedAt supabase parseInt toISOString emailData clock w) = Normal rcv ->
  match timestamp emailData with
  | None | Some EmptyString => rcv = toISOString (new_Date clock)
  | Some ts =>
      exists n, parseInt ts = Some n
                /\ Z.abs (n * 1000) <= maxTime
                /\ rcv = toISOString (n * 1000)
  end.
Proof.
  unfold receivedAt.
  destruct (timestamp emailData) as [[|ch ts']|]; simpl.
  - intros H. now injection H as <-.
  - destruct (parseInt (String ch ts')) as [n|] eqn:Hp; [|discriminate].
    destruct (Z.abs (n * 1000) <=? maxTime) eqn:Hn; [|discriminate].
    intros H. injection H as <-. exists n.
    apply Z.leb_le in Hn. auto.
  - intros H. now injection H as <-.
Qed.

Lemma parseHeaders_value (emailData : InboundEmailPayload)
    (w : World supabase) (hdrs : option Json) :
  fst (parseHeaders supabase JSON_parse emailData w) = Normal hdrs ->
  (message_headers emailData = None -> hdrs = None)
  /\ (forall s, message_headers emailData = Some (HeadersText s) ->
        hdrs = if Js.truthy s then JSON_parse s else None)
  /\ (forall j, message_headers emailData = Some (HeadersValue j) ->
        hdrs = if jsonTruthy j then Some j else None).
Proof.
  unfold parseHeaders, console_write, modify, bind, ret.
  destruct (message_headers emailData) as [[s|j]|].
  - destruct (Js.truthy s) eqn:Ht.
    + destruct (JSON_parse s) as [j|] eqn:Hp; simpl; intros H;
        injection H as <-;
        (split; [discriminate|]); (split; [|discriminate]);
        intros s' H; injection H as <-; now rewrite Ht, Hp.
    + simpl. intros H. injection H as <-.
      split; [discriminate|]. split; [|discriminate].
      intros s' H. injection H as <-. now rewrite Ht.
  - destruct (jsonTruthy j) eqn:Hj; simpl; intros H; injection H as <-;
      (split; [discriminate|]); (split; [discriminate|]);
      intros j' H; injection H as <-; now rewrite Hj.
  - simpl. intros H. injection H as <-. split; [reflexivity|].
    split; discriminate.
Qed.
End HookRows.

Section HookFields.
Import InboundEmail Ingest IngestTerms.
Variable supabase : Supabase.
Variable JSON_parse : string -> option Json.
Variable parseInt : string -> option Z.
Variable toISOString : Z -> string.

(** The rows an invocation sends are built from the payload it read, with
    the headers and the time the two helper blocks produced. *)
Lemma sent_rows_origin (env : Env) (clock : Clock) (req : Request)
    (console0 : list Js.ConsoleLine) (t0 : table supabase) :
  Forall
    (fun row =>
       exists emailData hdrs rcv,
         fst (readBody supabase req (mkWorld console0 t0 [])) = Normal emailData
         /\ fst (parseHeaders supabase JSON_parse emailData
                   (mkWorld console0 t0 [])) = Normal hdrs
         /\ fst (receivedAt supabase parseInt toISOString emailData clock
                   (mkWorld console0 t0 [])) = Normal rcv
         /\ row = emailRow emailData clock hdrs rcv)
    (emailRows
       (sent (snd (handler supabase JSON_parse parseInt toISOString
                     env clock req (mkWorld console0 t0 []))))).
Proof.
  destruct (handler supabase JSON_parse parseInt toISOString env clock req
              (mkWorld console0 t0 [])) as [c w'] eqn:Hrun. simpl snd.
  destruct (handler_paths _ _ _ _ _ _ _ _ _ _ Hrun)
    as [[_ [_ ->]]
       | [[_ [e [_ [Hs _]]]]
         | [_ [emailData [hdrs [rcv [Hb [Hh [Hr
              [[err' [answer' [_ [_ [_ Hs]]]]]
              | [email [answers [_ [Hlen [_ Hs]]]]]]]]]]]]]]].
  - constructor.
  - rewrite Hs. constructor.
  - rewrite Hs. simpl. constructor; [|constructor].
    exists emailData, hdrs, rcv. auto.
  - rewrite Hs, app_nil_l, emailRows_cons.
    destruct (attachmentRows_events email _ _ Hlen) as [_ [_ He]].
    rewrite He. constructor; [|constructor].
    exists emailData, hdrs, rcv. auto.
Qed.

(** X24.  The received time of a stored e-mail.  When no timestamp is
    posted, or the posted timestamp is the empty string, it is the clock at
    the time of the call.  When a non-empty timestamp is posted it is that
    timestamp read by [parseInt] as a whole number of seconds, multiplied
    by 1000 and within the range of valid dates, whatever the clock
    says. *)
Theorem received_time_follows_posted_timestamp
    (env : Env) (clock : Clock) (req : Request)
    (console0 : list Js.ConsoleLine) (t0 : table supabase) :
  Forall
    (fun row =>
       exists emailData,
         fst (readBody supabase req (mkWorld console0 t0 [])) = Normal emailData
         /\ match timestamp emailData with
            | None | Some EmptyString =>
                received_at row = toISOString (new_Date clock)
            | Some ts =>
                exists n, parseInt ts = Some n
                          /\ Z.abs (n * 1000) <= maxTime
                          /\ received_at row = toISOString (n * 1000)
            end)
    (emailRows
       (sent (snd (handler supabase JSON_parse parseInt toISOString
                     env clock req (mkWorld console0 t0 []))))).
Proof.
  eapply Forall_impl; [|apply sent_rows_origin].
  intros row [emailData [hdrs [rcv [Hb [_ [Hr ->]]]]]].
  exists emailData. split; [exact Hb|].
  pose proof (receivedAt_value _ _ _ _ _ _ _ Hr) as Hv.
  destruct (timestamp emailData) as [[|ch ts']|]; exact Hv.
Qed.

(** X25.  The headers of a stored e-mail: none when the payload has no
    message headers or empty ones; for a headers text, what [JSON.parse]
    makes of it, and none when it does not parse; for an already parsed
    value, that value when it counts as true.  Headers that do not parse
    do not stop the e-mail from being stored: a configured request whose
    body and timestamp are usable still sends its one e-mail row, with no
    headers. *)
Theorem unparsable_headers_are_stored_as_none
    (env : Env) (clock : Clock) (req : Request)
    (console0 : list Js.ConsoleLine) (t0 : table supabase) :
  let w := mkWorld console0 t0 [] in
  let run := handler supabase JSON_parse parseInt toISOString env clock req w in
  Forall
    (fun row =>
       exists emailData,
         fst (readBody supabase req w) = Normal emailData
         /\ (message_headers emailData = None -> headers row = None)
         /\ (forall s,
                message_headers emailData = Some (HeadersText s) ->
                headers row = if Js.truthy s then JSON_parse s else None)
         /\ (forall j,
                message_headers emailData = Some (HeadersValue j) ->
                headers row = if jsonTruthy j then Some j else None))
    (emailRows (sent (snd run)))
  /\ (forall emailData s rcv,
         String.eqb (method req) "OPTIONS" = false ->
         configured env = true ->
         fst (readBody supabase req w) = Normal emailData ->
         message_headers emailData = Some (HeadersText s) ->
         JSON_parse s = None ->
         fst (receivedAt supabase parseInt toISOString emailData clock w)
         = Normal rcv ->
         emailRows (sent (snd run)) = [emailRow emailData clock None rcv]
         /\ exists answer rest,
              sent (snd run)
              = EmailInsertion (emailRow emailData clock None rcv) answer
                :: rest).
Proof.
  intros w run. split.
  - eapply Forall_impl; [|apply sent_rows_origin].
    intros row [emailData [hdrs [rcv [Hb [Hh [_ ->]]]]]].
    exists emailData. split; [exact Hb|].
    exact (parseHeaders_value _ _ _ _ _ Hh).
  - intros emailData s rcv Hm Hc Hb Hs Hp Hr. subst run.
    destruct (handler supabase JSON_parse parseInt toISOString env clock req w)
      as [c w'] eqn:Hrun. simpl snd.
    destruct (handler_paths _ _ _ _ _ _ _ _ _ _ Hrun)
      as [[Hm' _]
         | [[_ [e [_ [_ [_ [[Hc' _] | [Hb' | [emailData' [Hb' Hr']]]]]]]]]
           | [_ [emailData' [hdrs [rcv' [Hb' [Hh [Hr'
                [[err' [answer' [_ [_ [_ Hsent]]]]]
                | [email [answers [_ [Hlen [_ Hsent]]]]]]]]]]]]]]].
    + congruence.
    + unfold configured in Hc. congruence.
    + congruence.
    + rewrite Hb in Hb'. injection Hb' as <-. congruence.
    + rewrite Hb in Hb'. injection Hb' as <-.
      rewrite Hr in Hr'. injection Hr' as <-.
      pose proof (parseHeaders_value _ _ _ _ _ Hh) as [_ [Ht _]].
      rewrite (Ht s Hs), Hp in Hsent.
      assert (hdrs = None) as -> by (rewrite (Ht s Hs), Hp; now destruct (Js.truthy s)).
      replace (if Js.truthy s then None else None) with (@None Json) in Hsent
        by now destruct (Js.truthy s).
      rewrite Hsent. simpl. split; [reflexivity | eauto].
    + rewrite Hb in Hb'. injection Hb' as <-.
      rewrite Hr in Hr'. injection Hr' as <-.
      pose proof (parseHeaders_value _ _ _ _ _ Hh) as [_ [Ht _]].
      assert (hdrs = None) as -> by (rewrite (Ht s Hs), Hp; now destruct (Js.truthy s)).
      rewrite Hsent, app_nil_l, emailRows_cons.
      destruct (attachmentRows_events email _ _ Hlen) as [_ [_ He]].
      rewrite He. split; [reflexivity | eauto].
Qed.
End HookFields.

Lemma form_posts_store_no_attachments_witness :
  Ingest.attachmentRows
    (InboundEmail.sent
       (snd (InboundEmail.handler Ingest.mailbox Ingest.noJson Ingest.noInt
               Ingest.printTime Ingest.env Ingest.clock IngestTerms.plainForm
               (@InboundEmail.mkWorld Ingest.mailbox [] ([], []) []))))
  = []
  /\ List.length
       (Ingest.emailRows
          (InboundEmail.sent
             (snd (InboundEmail.handler Ingest.mailbox Ingest.noJson
                     Ingest.noInt Ingest.printTime Ingest.env Ingest.clock
                     IngestTerms.plainForm
                     (@InboundEmail.mkWorld Ingest.mailbox [] ([], []) [])))))
     = 1%nat.
Proof.
  split; [|vm_compute; reflexivity].
  apply (form_posts_store_no_attachments Ingest.mailbox Ingest.noJson
           Ingest.noInt Ingest.printTime Ingest.env Ingest.clock
           IngestTerms.plainForm [] ([], [])).
  reflexivity.
Defined.

Lemma unparsable_headers_are_stored_as_none_witness :
  map InboundEmail.headers
      (Ingest.emailRows
         (InboundEmail.sent
            (snd (InboundEmail.handler Ingest.mailbox Ingest.noJson
                    Ingest.noInt Ingest.printTime Ingest.env Ingest.clock
                    IngestTerms.rawHeaders
                    (@InboundEmail.mkWorld Ingest.mailbox [] ([], []) [])))))
  = [None]
  /\ fst (InboundEmail.handler Ingest.mailbox Ingest.noJson Ingest.noInt
            Ingest.printTime Ingest.env Ingest.clock IngestTerms.rawHeaders
            (@InboundEmail.mkWorld Ingest.mailbox [] ([], []) []))
     = Normal {| InboundEmail.status := 200;
                 InboundEmail.body :=
                   InboundEmail.Success "mail-0"
                     "Email processed successfully" |}.
Proof.
  split; [|vm_compute; reflexivity].
  destruct (proj2 (unparsable_headers_are_stored_as_none Ingest.mailbox
                     Ingest.noJson Ingest.noInt Ingest.printTime Ingest.env
                     Ingest.clock IngestTerms.rawHeaders [] ([], []))
              (InboundEmail.readForm
                 [("sender", InboundEmail.FormString "a@b.com");
                  ("subject", InboundEmail.FormString "Sketch");
                  ("message-headers",
                   InboundEmail.FormString "Received: by mx.example.com")]
                 InboundEmail.emptyPayload)
              "Received: by mx.example.com" "1759429800001"
              eq_refl eq_refl eq_refl eq_refl eq_refl eq_refl) as [Hrows _].
  rewrite Hrows. reflexivity.
Defined.

Lemma unusable_timestamp_is_refused_witness :
  InboundEmail.sent
    (snd (InboundEmail.handler Ingest.mailbox Ingest.noJson Ingest.noInt
            Ingest.printTime Ingest.env Ingest.clock IngestTerms.formPost
            Ingest.fresh))
  = [].
Proof.
  apply (unusable_timestamp_is_refused Ingest.mailbox Ingest.noJson
           Ingest.noInt Ingest.printTime Ingest.env Ingest.clock
           IngestTerms.formPost Ingest.fresh
           (InboundEmail.readForm
              [("sender", InboundEmail.FormString "old@b.com");
               ("attachments", InboundEmail.FormString "[{}]");
               ("attachment-1", InboundEmail.FormFile);
               ("subject", InboundEmail.FormString "Hi");
               ("sender", InboundEmail.FormString "a@b.com");
               ("timestamp", InboundEmail.FormString "soon")]
              InboundEmail.emptyPayload)
           "soon").
  - reflexivity.
  - reflexivity.
  - reflexivity.
  - discriminate.
  - left. reflexivity.
Defined.

(* ================================================================== *)
(** * Properties of the outbound reservation notice *)
(* ================================================================== *)

Section RelayMore.
Import Relay.
Variable service : Service.
Variable toFixed2 : float -> string.
Variable toLocaleDateString : string -> string.

(** Every way an invocation of the notice function can go. *)
Lemma relay_paths (env : Env) (req : Request) (w : World service)
    (c : Completion Response) (w' : World service) :
  handler service toFixed2 toLocaleDateString env req w = (c, w') ->
  (String.eqb (method req) "OPTIONS" = true
   /\ c = Normal {| status := 200; body := Text "ok" |} /\ w' = w)
  \/ (String.eqb (method req) "OPTIONS" = false
      /\ exists e,
           c = Normal {| status := 500; body := Failure (Js.message e) |}
           /\ calls w' = calls w /\ network w' = network w
           /\ console w'
              = console w
                ++ [Js.mkLine Js.error "Error sending WhatsApp notification:"]
           /\ (json req = inl e
               \/ configured env = false
               \/ json req = inr None))
  \/ (String.eqb (method req) "OPTIONS" = false
      /\ configured env = true
      /\ exists reservation,
           json req = inr (Some reservation)
           /\ let request :=
                {| url := Js.strOf (WHATSAPP_WEBHOOK_URL env);
                   to := Js.strOf (WHATSAPP_TARGET_NUMBER env);
                   message := formatMessage toFixed2 toLocaleDateString
                                            reservation;
                   images := imagesOf reservation |} in
              calls w' = calls w ++ [request]
              /\ network w' = snd (fetch service request (network w))
              /\ match fst (fetch service request (network w)) with
                 | Ok (inr messageId) =>
                     c = Normal {| status := 200; body := Success messageId |}
                     /\ console w' = console w
                 | NotOk (inr errorData) =>
                     c = Normal {| status := 500;
                                   body := Failure
                                     ("WhatsApp API error: " ++ errorData) |}
                 | NetworkError e | NotOk (inl e) | Ok (inl e) =>
                     c = Normal {| status := 500;
                                   body := Failure (Js.message e) |}
                 end).
Proof.
  unfold handler, configured. intros Hrun.
  destruct (String.eqb (method req) "OPTIONS");
    [injection Hrun as <- <-; left; auto|].
  right. unfold tryCatch, process in Hrun. unfold bind at 1 in Hrun.
  destruct (json req) as [e|parsed] eqn:Hjson.
  { unfold throw, bind, console_error, modify, ret in Hrun; simpl in Hrun.
    injection Hrun as <- <-. left. split; [reflexivity|]. exists e.
    simpl. auto 10. }
  unfold ret at 1 in Hrun. unfold bind at 1 in Hrun.
  destruct (Js.truthyOpt (WHATSAPP_PHONE_NUMBER env)
            && Js.truthyOpt (WHATSAPP_TARGET_NUMBER env)).
  2:{ unfold throw, bind, console_error, modify, ret in Hrun; simpl in Hrun.
      injection Hrun as <- <-. left. split; [reflexivity|].
      exists (Js.mkError "WhatsApp configuration missing"). simpl.
      repeat (split; [reflexivity|]). right. left. reflexivity. }
  unfold ret at 1 in Hrun. unfold bind at 1 in Hrun.
  destruct parsed as [reservation|].
  2:{ unfold throw, bind, console_error, modify, ret in Hrun; simpl in Hrun.
      injection Hrun as <- <-. left. split; [reflexivity|].
      exists (Js.mkError
                "Cannot read properties of undefined (reading 'totalPrice')").
      simpl. repeat (split; [reflexivity|]). right. right. reflexivity. }
  unfold ret at 1 in Hrun. unfold bind at 1 in Hrun.
  destruct (Js.truthyOpt (WHATSAPP_WEBHOOK_URL env)).
  2:{ unfold throw, bind, console_error, modify, ret in Hrun; simpl in Hrun.
      injection Hrun as <- <-. left. split; [reflexivity|].
      exists (Js.mkError "WhatsApp webhook URL not configured"). simpl.
      repeat (split; [reflexivity|]). right. left. reflexivity. }
  right. split; [reflexivity|]. split; [reflexivity|].
  exists reservation. split; [reflexivity|].
  unfold ret at 1 in Hrun. unfold bind at 1, send at 1 in Hrun.
  fold (imagesOf reservation) in Hrun. cbv zeta.
  destruct (fetch service _ (network w)) as [[e|[e|errorData]|[e|messageId]] n'];
    unfold throw, bind, console_error, modify, ret in Hrun; simpl in Hrun;
    injection Hrun as <- <-; simpl; auto.
Qed.

(** X26.  The notice function always answers: it never throws and its
    status is 200 or 500.  A 500 carries the failure envelope and comes with
    exactly one error line on the console; a 200 writes nothing to the
    console. *)
Theorem notice_function_always_answers
    (env : Env) (req : Request) (w : World service) :
  let run := handler service toFixed2 toLocaleDateString env req w in
  exists resp,
    fst run = Normal resp
    /\ ((status resp = 200 /\ console (snd run) = console w
         /\ (body resp = Text "ok"
             \/ exists messageId, body resp = Success messageId))
        \/ (status resp = 500
            /\ (exists error, body resp = Failure error)
            /\ console (snd run)
               = console w
                 ++ [Js.mkLine Js.error "Error sending WhatsApp notification:"])).
Proof.
  intros run. subst run.
  destruct (handler service toFixed2 toLocaleDateString env req w)
    as [c w'] eqn:Hrun. simpl fst; simpl snd.
  unfold handler in Hrun.
  destruct (String.eqb (method req) "OPTIONS").
  { injection Hrun as <- <-. eexists. split; [reflexivity|]. left. simpl.
    repeat split. now left. }
  unfold tryCatch in Hrun.
  destruct (process service toFixed2 toLocaleDateString env req w)
    as [[resp|e] w1] eqn:Hp.
  - injection Hrun as <- <-. exists resp. split; [reflexivity|]. left.
    unfold process, bind, throw, ret, send in Hp.
    destruct (json req) as [e|[reservation|]]; try discriminate;
      destruct (Js.truthyOpt (WHATSAPP_PHONE_NUMBER env)
                && Js.truthyOpt (WHATSAPP_TARGET_NUMBER env));
      try discriminate;
      destruct (Js.truthyOpt (WHATSAPP_WEBHOOK_URL env)); try discriminate.
    destruct (fetch service _ (network w))
      as [[e|[e|errorData]|[e|messageId]] n']; try discriminate.
    injection Hp as <- <-. simpl. repeat split. right. now exists messageId.
  - unfold bind, console_error, modify, ret in Hrun. injection Hrun as <- <-.
    eexists. split; [reflexivity|]. right. simpl.
    split; [reflexivity|]. split; [eauto|].
    f_equal.
    unfold process, bind, throw, ret, send in Hp.
    destruct (json req) as [e'|[reservation|]];
      destruct (Js.truthyOpt (WHATSAPP_PHONE_NUMBER env)
                && Js.truthyOpt (WHATSAPP_TARGET_NUMBER env));
      try (injection Hp as _ <-; reflexivity);
      destruct (Js.truthyOpt (WHATSAPP_WEBHOOK_URL env));
      try (injection Hp as _ <-; reflexivity).
    destruct (fetch service _ (network w))
      as [[e'|[e'|errorData]|[e'|messageId]] n']; try discriminate;
      injection Hp as _ <-; reflexivity.
Qed.

(** X27.  Unless the sender number, the target number and the webhook
    address are all configured, nothing is sent to the relay; a request other
    than the preflight is then answered 500. *)
Theorem no_notice_without_configuration
    (env : Env) (req : Request) (w : World service) :
  configured env = false ->
  let run := handler service toFixed2 toLocaleDateString env req w in
  calls (snd run) = calls w
  /\ network (snd run) = network w
  /\ (String.eqb (method req) "OPTIONS" = false ->
      exists error,
        fst run = Normal {| status := 500; body := Failure error |}).
Proof.
  intros Hc run. subst run.
  destruct (handler service toFixed2 toLocaleDateString env req w)
    as [c w'] eqn:Hrun. simpl fst; simpl snd.
  destruct (relay_paths _ _ _ _ _ Hrun)
    as [[Hm [_ ->]]
       | [[_ [e [-> [Hcalls [Hnet _]]]]]
         | [_ [Hc' _]]]].
  - repeat split; auto. congruence.
  - repeat split; eauto.
  - congruence.
Qed.

(** X28.  An invocation sends at most one notice, without retrying; when
    it sends one, the body held a reservation, the call goes to the
    configured address and target number, carries the formatted message, and
    carries the reservation's design images, or an empty list when it has
    none. *)
Theorem notice_is_sent_at_most_once
    (env : Env) (req : Request) (w : World service) :
  let run := handler service toFixed2 toLocaleDateString env req w in
  calls (snd run) = calls w
  \/ exists reservation,
       json req = inr (Some reservation)
       /\ configured env = true
       /\ calls (snd run)
          = calls w
            ++ [{| url := Js.strOf (WHATSAPP_WEBHOOK_URL env);
                   to := Js.strOf (WHATSAPP_TARGET_NUMBER env);
                   message := formatMessage toFixed2 toLocaleDateString
                                            reservation;
                   images := imagesOf reservation |}].
Proof.
  intros run. subst run.
  destruct (handler service toFixed2 toLocaleDateString env req w)
    as [c w'] eqn:Hrun. simpl snd.
  destruct (relay_paths _ _ _ _ _ Hrun)
    as [[_ [_ ->]]
       | [[_ [e [_ [Hcalls _]]]]
         | [_ [Hc [reservation [Hj [Hcalls _]]]]]]].
  - now left.
  - now left.
  - right. exists reservation. auto.
Qed.

(** X29.  When a notice was sent, the relay's answer decides the response:
    an ok answer gives 200 with the relay's message id; an answer that is
    not ok gives 500 with "WhatsApp API error: " followed by the answer's
    text; a rejected fetch or an unreadable answer gives 500 with that
    error's message. *)
Theorem relay_answer_decides_the_response
    (env : Env) (req : Request) (w : World service) (request : Outbound) :
  calls (snd (handler service toFixed2 toLocaleDateString env req w))
  = calls w ++ [request] ->
  let run := handler service toFixed2 toLocaleDateString env req w in
  network (snd run) = snd (fetch service request (network w))
  /\ fst run
     = Normal
         match fst (fetch service request (network w)) with
         | Ok (inr messageId) => {| status := 200; body := Success messageId |}
         | NotOk (inr errorData) =>
             {| status := 500;
                body := Failure ("WhatsApp API error: " ++ errorData) |}
         | NetworkError e | NotOk (inl e) | Ok (inl e) =>
             {| status := 500; body := Failure (Js.message e) |}
         end.
Proof.
  intros Hcalls run. subst run.
  destruct (handler service toFixed2 toLocaleDateString env req w)
    as [c w'] eqn:Hrun. simpl fst in *; simpl snd in *.
  assert (Hno : calls w <> calls w ++ [request]).
  { intros H. apply (f_equal (@List.length _)) in H.
    rewrite length_app in H. simpl in H. lia. }
  destruct (relay_paths _ _ _ _ _ Hrun)
    as [[_ [_ ->]]
       | [[_ [e [_ [Hc _]]]]
         | [_ [_ [reservation [_ [Hc [Hn Hr]]]]]]]].
  - contradiction.
  - rewrite Hc in Hcalls. contradiction.
  - rewrite Hc in Hcalls. apply app_inv_head in Hcalls.
    injection Hcalls as <-. split; [exact Hn|].
    destruct (fst (fetch service _ (network w)))
      as [e|[e|errorData]|[e|messageId]]; try exact Hr. now destruct Hr.
Qed.
End RelayMore.

Lemma no_notice_without_configuration_witness :
  Relay.calls
    (snd (Relay.handler Relay.accepting Relay.showPrice Relay.showDate
            Relay.noWebhook Relay.notice
            (@Relay.mkWorld Relay.accepting [] 0%nat [])))
  = [].
Proof.
  apply (no_notice_without_configuration Relay.accepting Relay.showPrice
           Relay.showDate Relay.noWebhook Relay.notice
           (@Relay.mkWorld Relay.accepting [] 0%nat [])).
  reflexivity.
Defined.

Lemma relay_answer_decides_the_response_witness :
  fst (Relay.handler Relay.loggedOut Relay.showPrice Relay.showDate
         Relay.settings Relay.notice
         (@Relay.mkWorld Relay.loggedOut [] tt []))
  = Normal {| Relay.status := 500;
              Relay.body :=
                Relay.Failure "WhatsApp API error: client not ready" |}.
Proof.
  apply (relay_answer_decides_the_response Relay.loggedOut Relay.showPrice
           Relay.showDate Relay.settings Relay.notice
           (@Relay.mkWorld Relay.loggedOut [] tt [])
           {| Relay.url := "https://relay.example.com/send";
              Relay.to := "31611111111";
              Relay.message :=
                Relay.formatMessage Relay.showPrice Relay.showDate Relay.booking;
              Relay.images := [] |}).
  vm_compute. reflexivity.
Defined.

Section NoticeText.
Import Relay.
Variable toFixed2 : float -> string.
Variable toLocaleDateString : string -> string.

Lemma trimEnd_append (a b : string) :
  trimEnd b <> EmptyString -> trimEnd (a ++ b)%string = (a ++ trimEnd b)%string.
Proof.
  intros Hb. induction a as [|c a IH]; simpl; [reflexivity|].
  rewrite IH. destruct (a ++ trimEnd b)%string eqn:E; [|reflexivity].
  destruct a; simpl in E; [contradiction | discriminate].
Qed.

Lemma trimEnd_append_nonempty (a b : string) :
  trimEnd b <> EmptyString -> trimEnd (a ++ b)%string <> EmptyString.
Proof.
  intros Hb. rewrite trimEnd_append by exact Hb.
  destruct a; simpl; [exact Hb | discriminate].
Qed.

Lemma keeps_ending (p x s : string) :
  (exists m, x = (m ++ s)%string) -> exists m, (p ++ x)%string = (m ++ s)%string.
Proof.
  intros [m ->]. exists (p ++ m)%string. now rewrite append_assoc_string.
Qed.

Lemma keeps_heading (h x s : string) :
  (exists m, x = (m ++ s)%string) ->
  exists m, (h ++ x)%string = (h ++ m ++ s)%string.
Proof. intros [m ->]. now exists m. Qed.

(** X30.  The notice text is the template with only its leading line
    break and its trailing line break and blanks removed, whatever the
    reservation's fields contain: it starts with the headline and ends with
    the studio's signature. *)
Theorem notice_text_is_the_trimmed_template (reservation : ReservationData) :
  template toFixed2 toLocaleDateString reservation
  = (nl ++ formatMessage toFixed2 toLocaleDateString reservation
     ++ nl ++ "    ")%string
  /\ exists middle,
       formatMessage toFixed2 toLocaleDateString reservation
       = ("🎨 *New Reservation Created* 🎨" ++ middle
          ++ "🏪 *Krampus Tattoo Studio*")%string.
Proof.
  remember ("🏪 *Krampus Tattoo Studio*" ++ nl ++ "    ")%string as tail
    eqn:Etail.
  assert (Htail : trimEnd tail = "🏪 *Krampus Tattoo Studio*"%string)
    by (subst tail; vm_compute; reflexivity).
  assert (Hne : trimEnd tail <> EmptyString) by (rewrite Htail; discriminate).
  unfold formatMessage, trim, template. rewrite <- Etail.
  change (trimStart (nl ++ ?s)%string) with (trimStart s).
  change (trimStart ("🎨 *New Reservation Created* 🎨" ++ ?s)%string)
    with ("🎨 *New Reservation Created* 🎨" ++ s)%string.
  repeat (rewrite trimEnd_append;
          [|repeat (apply trimEnd_append_nonempty); exact Hne]).
  rewrite Htail. split.
  - subst tail. rewrite !append_assoc_string. reflexivity.
  - apply keeps_heading.
    repeat (apply keeps_ending).
    exists EmptyString. reflexivity.
Qed.
End NoticeText.

(* ================================================================== *)
(** * The remaining amount *)
(* ================================================================== *)

Section Remaining.
Import DataContext ViewReservations Wording.
Variable toFixed2 : float -> string.
Variable toLocaleDateString : string -> string.



End Remaining.


